(** * The efrotools sync utility (src/tools/efrotools/sync.py)

    A shallow embedding of the directory synchronisation tool: the filename
    filter, the marker codec ([add_marker], [get_dst_file_info]), the content
    hash, and the reconciliation run ([sync_paths], [check_path]) over an
    explicit file system.

    Modelling conventions.
    - A Python [str] is a Rocq [string]; each character stands for the code
      point of the same number, so the model covers code points below 256.
      Within that range [str.splitlines] breaks lines at LF, CR, CR LF, VT,
      FF, FS, GS, RS and NEL.
    - A path is the list of its components.
    - The file system is a finite map from paths to nodes, threaded through
      a state-and-exception monad together with the trace of effects.
    - The removal of line 224 goes through the shell.  For a path that the
      shell takes as it is written the path and all below it are gone; what
      the shell makes of any other path is the parameter [system], of which
      nothing is assumed. *)

From Stdlib Require Import ZArith String Ascii List Lia Bool.
From Stdlib Require Import Decimal DecimalString DecimalPos DecimalN.
From stdpp Require Import base option list gmap strings.
Import ListNotations.
Local Open Scope string_scope.
Local Open Scope list_scope.

(** ** Python string primitives *)

Module PyStr.

(** [s.startswith(pre)]. *)
Fixpoint startswith (s pre : string) {struct pre} : bool :=
  match pre with
  | EmptyString => true
  | String a pre' =>
      match s with
      | EmptyString => false
      | String b s' => Ascii.eqb a b && startswith s' pre'
      end
  end.

(** [sub in s]. *)
Fixpoint contains (sub s : string) : bool :=
  startswith s sub ||
  match s with
  | EmptyString => false
  | String _ r => contains sub r
  end.

(** [s.endswith(suf)]. *)
Fixpoint endswith (s suf : string) : bool :=
  String.eqb s suf ||
  match s with
  | EmptyString => false
  | String _ r => endswith r suf
  end.

(** [os.path.basename(s)]: what follows the last slash. *)
Fixpoint basename (s : string) : string :=
  match s with
  | EmptyString => EmptyString
  | String c r =>
      if Ascii.eqb c "/" || contains "/" r then basename r else s
  end.

(** The characters at which [str.splitlines] ends a line. *)
Definition is_linebreak (c : ascii) : bool :=
  match nat_of_ascii c with
  | 10 | 11 | 12 | 13 | 28 | 29 | 30 | 133 => true
  | _ => false
  end.

Definition cons_line (c : ascii) (ls : list string) : list string :=
  match ls with
  | [] => [String c EmptyString]
  | l :: ls' => String c l :: ls'
  end.

(** [s.splitlines()].  [after_cr] tells that the previous character was a
    carriage return, so that a line feed right after it belongs to the same
    line boundary. *)
Fixpoint splitlines_from (after_cr : bool) (s : string) : list string :=
  match s with
  | EmptyString => []
  | String c r =>
      if Ascii.eqb c "010" && after_cr then splitlines_from false r
      else if is_linebreak c
           then EmptyString :: splitlines_from (Ascii.eqb c "013") r
           else cons_line c (splitlines_from false r)
  end.

Definition splitlines (s : string) : list string := splitlines_from false s.

(** [sep.join(ls)]. *)
Definition join (sep : string) (ls : list string) : string :=
  String.concat sep ls.

(** [s.split(sep)] for a non-empty [sep]: the pieces between the
    occurrences of [sep], found from the left and not overlapping.  [skip]
    counts the characters of an occurrence still to be passed over. *)
Fixpoint split_from (sep : string) (skip : nat) (s : string) : list string :=
  match s with
  | EmptyString => [EmptyString]
  | String c r =>
      match skip with
      | S k => split_from sep k r
      | O =>
          if startswith s sep
          then match String.length sep with
               | S (S k) => EmptyString :: split_from sep (S k) r
               | _ => EmptyString :: split_from sep 0 r
               end
          else cons_line c (split_from sep 0 r)
      end
  end.

Definition split (s sep : string) : list string := split_from sep 0 s.

End PyStr.

(** ** The MD5 digest (RFC 1321), as [hashlib.md5] computes it *)

Module MD5.

Local Open Scope Z_scope.

Definition mask32 : Z := 4294967295.

Definition add32 (a b : Z) : Z := Z.land (a + b) mask32.

Definition not32 (a : Z) : Z := Z.lxor a mask32.

Definition rotl32 (x c : Z) : Z :=
  Z.lor (Z.land (Z.shiftl x c) mask32) (Z.shiftr x (32 - c)).

(** floor(2^32 * abs(sin(i + 1))) for i = 0 .. 63. *)
Definition K : list Z :=
  [ 3614090360; 3905402710; 606105819; 3250441966; 4118548399; 1200080426;
    2821735955; 4249261313; 1770035416; 2336552879; 4294925233; 2304563134;
    1804603682; 4254626195; 2792965006; 1236535329; 4129170786; 3225465664;
    643717713; 3921069994; 3593408605; 38016083; 3634488961; 3889429448;
    568446438; 3275163606; 4107603335; 1163531501; 2850285829; 4243563512;
    1735328473; 2368359562; 4294588738; 2272392833; 1839030562; 4259657740;
    2763975236; 1272893353; 4139469664; 3200236656; 681279174; 3936430074;
    3572445317; 76029189; 3654602809; 3873151461; 530742520; 3299628645;
    4096336452; 1126891415; 2878612391; 4237533241; 1700485571; 2399980690;
    4293915773; 2240044497; 1873313359; 4264355552; 2734768916; 1309151649;
    4149444226; 3174756917; 718787259; 3951481745 ].

(** The per-round left rotations. *)
Definition S : list Z :=
  [ 7; 12; 17; 22; 7; 12; 17; 22; 7; 12; 17; 22; 7; 12; 17; 22;
    5; 9; 14; 20; 5; 9; 14; 20; 5; 9; 14; 20; 5; 9; 14; 20;
    4; 11; 16; 23; 4; 11; 16; 23; 4; 11; 16; 23; 4; 11; 16; 23;
    6; 10; 15; 21; 6; 10; 15; 21; 6; 10; 15; 21; 6; 10; 15; 21 ].

(** A 32-bit word from four bytes, least significant first. *)
Definition word_le (bs : list Z) : Z :=
  fold_right (fun b acc => b + 256 * acc) 0 (firstn 4 bs).

(** The four bytes of a 32-bit word, least significant first. *)
Definition bytes_le (n : nat) (w : Z) : list Z :=
  map (fun i => Z.land (Z.shiftr w (8 * Z.of_nat i)) 255) (seq 0 n).

Definition block_word (block : list Z) (g : Z) : Z :=
  word_le (skipn (Z.to_nat (4 * g)) block).

Record regs := Regs { rA : Z; rB : Z; rC : Z; rD : Z }.

Definition round (block : list Z) (r : regs) (i : nat) : regs :=
  let '(Regs a b c d) := r in
  let iz := Z.of_nat i in
  let '(f, g) :=
    if iz <? 16 then (Z.lor (Z.land b c) (Z.land (not32 b) d), iz)
    else if iz <? 32
    then (Z.lor (Z.land d b) (Z.land (not32 d) c), (5 * iz + 1) mod 16)
    else if iz <? 48 then (Z.lxor (Z.lxor b c) d, (3 * iz + 5) mod 16)
    else (Z.lxor c (Z.lor b (not32 d)), (7 * iz) mod 16) in
  let f' := add32 (add32 (add32 f a) (nth i K 0)) (block_word block g) in
  Regs d (add32 b (rotl32 f' (nth i S 0))) b c.

Definition process_block (r : regs) (block : list Z) : regs :=
  let '(Regs a b c d) := fold_left (round block) (seq 0 64) r in
  Regs (add32 (rA r) a) (add32 (rB r) b) (add32 (rC r) c) (add32 (rD r) d).

(** The message followed by a one bit, zeros up to 56 modulo 64, and the
    bit length as a 64-bit little-endian number. *)
Definition pad (msg : list Z) : list Z :=
  let len := Z.of_nat (length msg) in
  let zeros := Z.to_nat ((55 - len) mod 64) in
  msg ++ [128] ++ repeat 0 zeros ++ bytes_le 8 ((8 * len) mod 2 ^ 64).

Fixpoint blocks (n : nat) (bs : list Z) : list (list Z) :=
  match n with
  | O => []
  | Datatypes.S n' => firstn 64 bs :: blocks n' (skipn 64 bs)
  end.

Definition initial : regs := Regs 1732584193 4023233417 2562383102 271733878.

(** The sixteen bytes of the digest. *)
Definition digest (msg : list Z) : list Z :=
  let p := pad msg in
  let '(Regs a b c d) :=
    fold_left process_block (blocks (length p / 64) p) initial in
  bytes_le 4 a ++ bytes_le 4 b ++ bytes_le 4 c ++ bytes_le 4 d.

End MD5.

(** [data.encode()]: the UTF-8 bytes of a string of code points below 256. *)
Fixpoint encode (data : string) : list Z :=
  match data with
  | EmptyString => []
  | String c r =>
      let n := Z.of_nat (nat_of_ascii c) in
      if (n <? 128)%Z then n :: encode r
      else Z.lor 192 (Z.shiftr n 6) :: Z.lor 128 (Z.land n 63) :: encode r
  end.

(** [int.from_bytes(bs, byteorder='big')]. *)
Definition int_from_bytes_big (bs : list Z) : Z :=
  fold_left (fun acc b => 256 * acc + b)%Z bs 0%Z.

(** [str(n)] for a natural number [n]. *)
Definition str_of_int (n : Z) : string :=
  NilZero.string_of_uint (N.to_uint (Z.to_N n)).

(** sync.py, lines 270-278. *)
Definition string_hash (data : string) : string :=
  str_of_int (int_from_bytes_big (MD5.digest (encode data))).

(** ** Exceptions and results *)

Abbreviation path := (list string).

(** The messages of the exceptions that sync.py raises itself. *)
Inductive message :=
  | CheckModeCall                        (* line 98 *)
  | SrcNotDirOrFile (src : path)         (* line 100 *)
  | NotSimpleFilename (fname : string)   (* line 38 *)
  | NotSyncable (src : path)             (* line 109 *)
  | InvalidSrcFile (srcfile : path)      (* line 121 *)
  | BothChanged (srcfile dstfile : path) (* lines 193-195 *)
  | DstFilesChanged (dstfiles : list path) (* lines 229-231 *)
  | DstFileChanged (dstfile : path)      (* lines 249-250 *)
  | ItselfSynced                         (* line 262 *)
  | NoLinesFound (dstfile : path)        (* line 287 *)
  | NoSyncHashFound (dstfile : path).    (* line 289 *)

Inductive oserror :=
  | FileNotFoundError | FileExistsError | NotADirectoryError
  | IsADirectoryError.

Inductive exn :=
  | ValueError (m : message)
  | RuntimeError (m : message)
  | IndexError
  | AssertionError
  | OSError (k : oserror) (p : path).

Inductive result (A : Type) :=
  | Ok (a : A)
  | Raise (e : exn).
Arguments Ok {A} a.
Arguments Raise {A} e.

#[global] Instance result_ret : MRet result := fun A a => Ok a.
#[global] Instance result_bind : MBind result := fun A B f r =>
  match r with
  | Ok a => f a
  | Raise e => Raise e
  end.

(** [l[i]] on a Python list. *)
Definition index {A} (l : list A) (i : nat) : result A :=
  match l !! i with
  | Some a => Ok a
  | None => Raise IndexError
  end.

(** ** The filename filter and the marker codec *)

(** sync.py, lines 32-45. *)
Definition _valid_filename (fname : string) : result bool :=
  if negb (String.eqb (PyStr.basename fname) fname)
  then Raise (ValueError (NotSimpleFilename fname))
  else if existsb (String.eqb fname)
            ["requirements.txt"; "pylintrc"; "clang-format"; "pycheckers";
             "style.yapf"; "test_task_bin"; ".editorconfig"]
  then Ok true
  else Ok (existsb (PyStr.endswith fname) [".py"; ".pyi"]
           && negb (PyStr.contains "flycheck_" fname)).

Definition LF : string := String "010" EmptyString.

(** sync.py, lines 254-267. *)
Definition add_marker (src_proj srcdata : string) : result string :=
  let lines := PyStr.splitlines srcdata in
  if (1 <? length lines)%nat
     && PyStr.contains "EFRO_SYNC_HASH=" (nth 1 lines "")
  then Raise (RuntimeError ItselfSynced)
  else
    let hashstr := string_hash srcdata in
    let lines :=
      ("# Synced from " +:+ src_proj +:+ "." +:+ LF
         +:+ "# EFRO_SYNC_HASH=" +:+ hashstr +:+ LF +:+ "#") :: lines in
    Ok (PyStr.join LF lines +:+ LF).

(** sync.py, lines 285-295: what [get_dst_file_info] does with the text it
    has read from [dstfile]. *)
Definition dst_file_info (dstfile : path) (dstdata : string)
  : result (string * string * string) :=
  let dstlines := PyStr.splitlines dstdata in
  if bool_decide (dstlines = [])
  then Raise (ValueError (NoLinesFound dstfile))
  else
    line1 ← index dstlines 1;
    if negb (PyStr.contains "EFRO_SYNC_HASH" line1)
    then Raise (ValueError (NoSyncHashFound dstfile))
    else
      line1 ← index dstlines 1;
      marker_hash ← index (PyStr.split line1 "EFRO_SYNC_HASH=") 1;
      let dstdata := PyStr.join LF (drop 3 dstlines) +:+ LF in
      let dst_hash := string_hash dstdata in
      Ok (marker_hash, dst_hash, dstdata).

(** ** The file system and the effects of a run *)

(** sync.py, lines 23-29. *)
Inductive Mode := PULL | FULL | LIST | FORCE | CHECK.

#[global] Instance Mode_eq_dec : EqDecision Mode.
Proof. solve_decision. Defined.

Inductive node :=
  | File (data : string)
  | Dir.

#[global] Instance node_eq_dec : EqDecision node.
Proof. solve_decision. Defined.

(** What is printed (lines 129-132, 146-149, 160-162, 182-187, 219-223,
    and the lines of [run_standard_syncs]). *)
Inductive report :=
  | WouldPull (src_proj : string) (dstfile : path)
  | Pulling (src_proj : string) (dstfile : path)
  | WouldPush (src_proj : string) (dstfile : path)
  | Pushing (src_proj : string) (dstfile : path)
  | WouldUpdateHash (src_proj : string) (dstfile : path)
  | UpdatingHash (src_proj : string) (dstfile : path)
  | WouldRemove (killpath : path)
  | Removing (killpath : path)
  | Checking (dstname : string)                   (* line 73 *)
  | CheckPassed (count : nat)                     (* line 75 *)
  | NoLinkEntry (src_project : string)            (* line 81 *)
  | Processing (dstname : string) (mode : Mode)   (* line 84 *)
  | Scanned (count : nat)                         (* line 87 *)
  | SyncSuccessful (count : nat).                 (* line 89 *)

Inductive event :=
  | EvRead (p : path)                  (* a file read in full *)
  | EvOpenW (p : path)                 (* a file created or truncated *)
  | EvWrite (p : path) (data : string) (* text written to an open file *)
  | EvMkdir (p : path)                 (* a directory created *)
  | EvRemove (p : path)                (* rm -rf given to the shell *)
  | EvPrint (r : report).

Record state := State { fs : gmap path node; trace : list event }.

(** State and exceptions: what was done before an exception stays done. *)
Definition M (A : Type) : Type := state -> result A * state.

#[global] Instance M_ret : MRet M := fun A a s => (Ok a, s).
#[global] Instance M_bind : MBind M := fun A B f m s =>
  match m s with
  | (Ok a, s') => f a s'
  | (Raise e, s') => (Raise e, s')
  end.

Definition raise {A} (e : exn) : M A := fun s => (Raise e, s).
Definition lift {A} (r : result A) : M A := fun s => (r, s).
Definition emit (ev : event) : M unit :=
  fun s => (Ok tt, State (fs s) (trace s ++ [ev])).
Definition print (r : report) : M unit := emit (EvPrint r).
Definition put (p : path) (n : node) : M unit :=
  fun s => (Ok tt, State (<[p := n]> (fs s)) (trace s)).

Fixpoint foldM {A B} (body : B -> A -> M B) (l : list A) (acc : B) : M B :=
  match l with
  | [] => mret acc
  | a :: l' => acc' ← body acc a; foldM body l' acc'
  end.

Definition for_each {A} (l : list A) (body : A -> M unit) : M unit :=
  foldM (fun _ a => body a) l tt.

(** [Path.is_file], [Path.is_dir], [os.path.exists]. *)
Definition is_file (p : path) : M bool :=
  fun s => (Ok (match fs s !! p with Some (File _) => true | _ => false end), s).
Definition is_dir (p : path) : M bool :=
  fun s => (Ok (match fs s !! p with Some Dir => true | _ => false end), s).
Definition path_exists (p : path) : M bool :=
  fun s => (Ok (bool_decide (is_Some (fs s !! p))), s).

(** [Path.parent], [Path.name], [str(path)], [p.relative_to(base)] for a
    [p] below [base]. *)
Definition parent (p : path) : path := removelast p.
Definition name (p : path) : string := List.last p "".
Definition path_str (p : path) : string := String.concat "/" p.
Definition relative_to (p base : path) : path := drop (length base) p.

(** [with p.open() as infile: infile.read()]. *)
Definition read_file (p : path) : M string :=
  fun s =>
    match fs s !! p with
    | Some (File data) => (Ok data, State (fs s) (trace s ++ [EvRead p]))
    | Some Dir => (Raise (OSError IsADirectoryError p), s)
    | None => (Raise (OSError FileNotFoundError p), s)
    end.

(** [p.open('w')]: the file is created, or emptied if it exists. *)
Definition open_w (p : path) : M unit :=
  fun s =>
    match fs s !! parent p with
    | None => (Raise (OSError FileNotFoundError p), s)
    | Some (File _) => (Raise (OSError NotADirectoryError p), s)
    | Some Dir =>
        match fs s !! p with
        | Some Dir => (Raise (OSError IsADirectoryError p), s)
        | _ => (Ok tt, State (<[p := File ""]> (fs s)) (trace s ++ [EvOpenW p]))
        end
    end.

(** [outfile.write(data)] on the file just opened at [p]. *)
Definition write (p : path) (data : string) : M unit :=
  put p (File data);; emit (EvWrite p data).

(** [with p.open('w') as outfile: outfile.write(<data>)]: the file is
    opened before the text to write is computed. *)
Definition write_file (p : path) (data : M string) : M unit :=
  open_w p;; d ← data; write p d.

(** [p.mkdir(parents=True, exist_ok=True)], from the top: [done] is the
    ancestor reached, [rest] the components still to go. *)
Fixpoint mkdir_from (done : path) (rest : list string) : M unit :=
  (fun s =>
     match fs s !! done with
     | Some Dir => (Ok tt, s)
     | None =>
         (Ok tt, State (<[done := Dir]> (fs s)) (trace s ++ [EvMkdir done]))
     | Some (File _) =>
         (Raise (OSError (match rest with
                          | [] => FileExistsError
                          | _ => NotADirectoryError
                          end) done), s)
     end) ;;
  match rest with
  | [] => mret tt
  | c :: rest' => mkdir_from (done ++ [c]) rest'
  end.

Definition mkdir_parents (p : path) : M unit := mkdir_from [] p.

(** ** The shell *)

(** Line 224 hands the command line [rm -rf "<path>"] to [os.system] and
    so to /bin/sh.  Between double quotes the shell takes every character
    as it is, but for the dollar sign, the backquote, the backslash and the
    double quote itself: a path with one of these names something else to
    [rm], or is the start of another command. *)
Definition double_quote : string := String (ascii_of_nat 34) EmptyString.

(** A component that stands for itself in the command line: not empty,
    not [.] or [..], no slash and none of the four characters in it; and
    no dash at its start, which [rm] could read as an option. *)
Definition safe_component (c : string) : bool :=
  negb (String.eqb c "") && negb (String.eqb c ".")
  && negb (String.eqb c "..")
  && negb (PyStr.startswith c "-")
  && negb (PyStr.contains "/" c)
  && negb (PyStr.contains "$" c)
  && negb (PyStr.contains "`" c)
  && negb (PyStr.contains "\" c)
  && negb (PyStr.contains double_quote c).

(** A path that reaches [rm] as the path it is. *)
Definition shell_safe (p : path) : bool :=
  negb (bool_decide (p = [])) && forallb safe_component p.

(** The command line of line 224. *)
Definition rm_command (p : path) : string :=
  "rm -rf " +:+ double_quote +:+ path_str p +:+ double_quote.

Section Sync.

(** What the shell makes of a command line that it does not take as it
    is written: the file system that it leaves.  Nothing is assumed of
    it. *)
Variable system : string -> gmap path node -> gmap path node.

(** [os.system('rm -rf "' + str(p) + '"')]: for a path that the shell
    takes as it is, [p] and all below it are gone; for any other path the
    file system is what the shell leaves.  [os.system] returns the status
    of the command, which line 224 drops, and raises nothing for a name
    that a directory can list. *)
Definition rm_rf (p : path) : M unit :=
  fun s =>
    (Ok tt,
     State (if shell_safe p
            then filter (fun kv => ¬ p `prefix_of` kv.1) (fs s)
            else system (rm_command p) (fs s))
           (trace s ++ [EvRemove p])).

(** [os.walk(top)], flattened: one entry (root, name, kind) for every file
    and directory below [top], where root is the directory that lists it.
    The order in which a directory lists its entries is left to the
    operating system; here it is the order of the map. *)
Definition os_walk (top : path) : M (list (path * string * node)) :=
  fun s =>
    (Ok (omap (fun kv : path * node =>
                 if bool_decide (top `prefix_of` kv.1 ∧ kv.1 ≠ top)
                 then Some (parent kv.1, name kv.1, kv.2) else None)
              (map_to_list (fs s))), s).

(** sync.py, lines 281-295. *)
Definition get_dst_file_info (dstfile : path)
  : M (string * string * string) :=
  dstdata ← read_file dstfile;
  lift (dst_file_info dstfile dstdata).

(** ** The run *)

(** One entry of the walk over a tree (lines 113-118, 240-242): a file
    that passes the filter is collected; [keep] is what is collected for
    the file at [root]/[fname]. *)
Definition walk_file {A} (keep : path -> A) (allpaths : list A)
    (entry : path * string * node) : M (list A) :=
  let '(root, fname, kind) := entry in
  match kind with
  | Dir => mret allpaths
  | File _ =>
      valid ← lift (_valid_filename fname);
      if valid : bool
      then mret (allpaths ++ [keep (root ++ [fname])])
      else mret allpaths
  end.

(** The walk over the files of a tree that pass the filter (lines 112-118,
    239-242). *)
Definition valid_files {A} (top : path) (keep : path -> A) : M (list A) :=
  entries ← os_walk top;
  foldM (walk_file keep) entries [].

(** sync.py, lines 99-118: the pairs of source and destination files. *)
Definition collect_paths (src dst : path) : M (list (path * path)) :=
  src_is_dir ← is_dir src;
  src_is_file ← is_file src;
  if negb (src_is_dir || src_is_file)
  then raise (ValueError (SrcNotDirOrFile src))
  else if src_is_file
  then
    valid ← lift (_valid_filename (name src));
    if negb valid then raise (ValueError (NotSyncable src))
    else mret [(src, dst)]
  else
    valid_files src (fun srcpathfull =>
      let relpath := relative_to srcpathfull src in
      (srcpathfull, dst ++ relpath)).

(** The pull of lines 135-136, 152-153 and 188-189. *)
Definition pull (src_proj : string) (dstfile : path) (srcdata : string)
  : M unit :=
  write_file dstfile (lift (add_marker src_proj srcdata)).

(** sync.py, lines 120-198: one pass of the loop over [allpaths];
    [changed] is [changed_error_dst_files]. *)
Definition sync_file (src_proj : string) (mode : Mode)
    (changed : list path) (pair : path * path) : M (list path) :=
  let '(srcfile, dstfile) := pair in
  src_is_file ← is_file srcfile;
  if negb src_is_file then raise (RuntimeError (InvalidSrcFile srcfile))
  else
  mkdir_parents (parent dstfile);;
  srcdata ← read_file srcfile;
  let src_hash := string_hash srcdata in
  dst_is_file ← is_file dstfile;
  if negb dst_is_file || bool_decide (mode = FORCE)
  then
    (if bool_decide (mode = LIST)
     then print (WouldPull src_proj dstfile)
     else print (Pulling src_proj dstfile);;
          pull src_proj dstfile srcdata);;
    mret changed
  else
  '(marker_hash, dst_hash, dstdata) ← get_dst_file_info dstfile;
  if bool_decide (src_hash ≠ marker_hash)
     && bool_decide (dst_hash = marker_hash)
  then
    (if bool_decide (mode = LIST)
     then print (WouldPull src_proj dstfile)
     else print (Pulling src_proj dstfile);;
          pull src_proj dstfile srcdata);;
    mret changed
  else if bool_decide (src_hash = marker_hash)
          && bool_decide (dst_hash ≠ marker_hash)
  then
    if bool_decide (mode = LIST)
    then print (WouldPush src_proj dstfile);; mret changed
    else if bool_decide (mode = FULL)
    then
      print (Pushing src_proj dstfile);;
      write_file srcfile (mret dstdata);;
      pull src_proj dstfile dstdata;;
      mret changed
    else mret (changed ++ [dstfile])
  else if bool_decide (marker_hash ≠ src_hash)
          && bool_decide (marker_hash ≠ dst_hash)
  then
    if bool_decide (src_hash = dst_hash)
    then
      (if bool_decide (mode = LIST)
       then print (WouldUpdateHash src_proj dstfile)
       else print (UpdatingHash src_proj dstfile);;
            pull src_proj dstfile srcdata);;
      mret changed
    else raise (RuntimeError (BothChanged srcfile dstfile))
  else if bool_decide (src_hash = marker_hash)
          && bool_decide (dst_hash = marker_hash)
  then mret changed
  else raise AssertionError.

(** Lines 204-212: an entry under [dst] that is not hidden, not in a
    cache directory and has nothing at its place under [src] is to go. *)
Definition find_orphan (src dst : path) (killpaths : list path)
    (entry : path * string * node) : M (list path) :=
  let '(root, name, _) := entry in
  if PyStr.startswith name "."
     || PyStr.contains "__pycache__" (path_str root)
     || PyStr.contains "__pycache__" name
  then mret killpaths
  else
    let dstpathfull := root ++ [name] in
    let relpath := relative_to dstpathfull dst in
    let srcpathfull := src ++ relpath in
    there ← path_exists srcpathfull;
    if negb there then mret (killpaths ++ [dstpathfull])
    else mret killpaths.

(** Lines 216-224: the path goes, if it is still there; in LIST mode this
    is only reported. *)
Definition kill (mode : Mode) (killpath : path) : M unit :=
  there ← path_exists killpath;
  if there : bool
  then if bool_decide (mode = LIST)
       then print (WouldRemove killpath)
       else print (Removing killpath);; rm_rf killpath
  else mret tt.

(** sync.py, lines 201-224: what is under [dst] and not under [src] goes. *)
Definition prune (src dst : path) (mode : Mode) : M unit :=
  dst_is_dir ← is_dir dst;
  if negb dst_is_dir then mret tt
  else
    entries ← os_walk dst;
    killpaths ← foldM (find_orphan src dst) entries [];
    for_each killpaths (kill mode).

(** sync.py, lines 92-233. *)
Definition sync_paths (src_proj : string) (src dst : path) (mode : Mode)
  : M nat :=
  if bool_decide (mode = CHECK) then raise (ValueError CheckModeCall)
  else
    allpaths ← collect_paths src dst;
    changed_error_dst_files ← foldM (sync_file src_proj mode) allpaths [];
    prune src dst mode;;
    if negb (bool_decide (changed_error_dst_files = []))
    then raise (RuntimeError (DstFilesChanged changed_error_dst_files))
    else mret (length allpaths).

(** sync.py, lines 236-251. *)
Definition check_path (dst : path) : M nat :=
  allpaths ← valid_files dst (fun dstfile => dstfile);
  for_each allpaths (fun dstfile =>
    '(marker_hash, dst_hash, _) ← get_dst_file_info dstfile;
    if bool_decide (marker_hash ≠ dst_hash)
    then raise (RuntimeError (DstFileChanged dstfile))
    else mret tt);;
  mret (length allpaths).

(** sync.py, lines 48-53. *)
Record SyncItem := {
  src_project_id : string;
  src_path : path;
  dst_path : option path
}.

(** sync.py, lines 56-89.  [localconfig] is what [get_localconfig] returns
    for the project root: the place of each linked project. *)
Definition run_standard_syncs (localconfig : gmap string (list string))
    (mode : Mode) (syncitems : list SyncItem) : M unit :=
  for_each syncitems (fun syncitem =>
    let src_project := src_project_id syncitem in
    let src_subpath := src_path syncitem in
    let dst_subpath := default (src_path syncitem) (dst_path syncitem) in
    let dstname := name dst_subpath in
    if bool_decide (mode = CHECK)
    then
      print (Checking dstname);;
      count ← check_path dst_subpath;
      print (CheckPassed count)
    else
      let link_entry := "linked_" +:+ src_project in
      match localconfig !! link_entry with
      | None => print (NoLinkEntry src_project)
      | Some linked =>
          let src := linked ++ src_subpath in
          print (Processing dstname mode);;
          count ← sync_paths src_project src dst_subpath mode;
          if bool_decide (mode = LIST) || bool_decide (mode = CHECK)
          then print (Scanned count)
          else print (SyncSuccessful count)
      end).

(** * Predicates of the specification *)

Fixpoint all_chars (P : ascii -> bool) (s : string) : bool :=
  match s with
  | EmptyString => true
  | String c r => P c && all_chars P r
  end.

(** No character of [s] ends a line. *)
Definition no_linebreak (s : string) : bool :=
  all_chars (fun c => negb (PyStr.is_linebreak c)) s.

(** [s] ends with a line feed, and a line feed is the only kind of line
    boundary in it. *)
Definition lf_text (s : string) : bool :=
  PyStr.endswith s LF
  && all_chars (fun c => negb (PyStr.is_linebreak c) || Ascii.eqb c "010") s.

Definition is_digit (c : ascii) : bool :=
  (48 <=? nat_of_ascii c)%nat && (nat_of_ascii c <=? 57)%nat.

(** What a file reads as after a marker was put on it and taken off again:
    its lines, each ended by a line feed. *)
Definition normalized (data : string) : string :=
  PyStr.join LF (PyStr.splitlines data) +:+ LF.

(** A simple filename: no slash in it. *)
Definition plain_filename (fname : string) : Prop :=
  forall a b, fname <> a +:+ "/" +:+ b.

(** The second line of [data] does not carry a sync hash, so that
    [add_marker] accepts it. *)
Definition unmarked (data : string) : bool :=
  negb (PyStr.contains "EFRO_SYNC_HASH=" (nth 1 (PyStr.splitlines data) "")).


(** Every directory on the way to [p], and [p] itself, is there. *)
Definition dirs_above (f : gmap path node) (p : path) : Prop :=
  forall q, q `prefix_of` p -> f !! q = Some Dir.


(** The pair of files that a pass of the loop finds: the source reads
    [srcdata]; the destination, in a directory that exists, carries the
    marker hash [marker_hash] over the body [dstdata], whose hash is
    [dst_hash]. *)
Definition pair_state (f : gmap path node) (srcfile dstfile : path)
    (srcdata marker_hash dst_hash dstdata : string) : Prop :=
  exists raw,
    f !! srcfile = Some (File srcdata)
    /\ f !! dstfile = Some (File raw)
    /\ dirs_above f (parent dstfile)
    /\ dst_file_info dstfile raw = Ok (marker_hash, dst_hash, dstdata).

(** The state after the files of a pair were read. *)
Definition after_reads (s : state) (srcfile dstfile : path) : state :=
  State (fs s) (trace s ++ [EvRead srcfile; EvRead dstfile]).

(** ** Example file systems *)

(** A destination text: the header that line 266 writes, with [hash] as the
    hash of the marker, and then [body]. *)
Definition marked (src_proj hash body : string) : string :=
  "# Synced from " +:+ src_proj +:+ "." +:+ LF
    +:+ "# EFRO_SYNC_HASH=" +:+ hash +:+ LF +:+ "#" +:+ LF +:+ body.

Definition src_a : path := ["src"; "a.py"].
Definition dst_a : path := ["dst"; "a.py"].

(** The source file src/a.py with text [srcdata]; the destination
    dst/a.py, when there is one, with text [dst]. *)
Definition example_fs (srcdata : string) (dst : option string)
  : gmap path node :=
  list_to_map
    ([([], Dir); (["src"], Dir); (src_a, File srcdata)]
       ++ match dst with
          | Some raw => [(["dst"], Dir); (dst_a, File raw)]
          | None => []
          end).

Definition x1 : string := "x=1" +:+ LF.
Definition x2 : string := "x=2" +:+ LF.
Definition x3 : string := "x=3" +:+ LF.

(** Last synced at x=1; since then the source went to x=2 and the
    destination to x=3. *)
Definition fs_diverged : gmap path node :=
  example_fs x2 (Some (marked "proj" (string_hash x1) x3)).

(** Last synced at x=1; since then the destination went to x=2. *)
Definition fs_dst_changed : gmap path node :=
  example_fs x1 (Some (marked "proj" (string_hash x1) x2)).

(** Last synced at x=1; since then both went to x=2. *)
Definition fs_same_change : gmap path node :=
  example_fs x2 (Some (marked "proj" (string_hash x1) x2)).

(** Never synced. *)
Definition fs_new : gmap path node := example_fs x1 None.

(** Synced at x=1 and not touched since. *)
Definition fs_synced : gmap path node :=
  example_fs x1 (Some (marked "proj" (string_hash x1) x1)).

(** ** Running sync twice *)

(** Events that change nothing on disk. *)
Definition quiet_event (ev : event) : Prop :=
  match ev with
  | EvRead _ | EvPrint _ => True
  | _ => False
  end.

(** From [s] to [s'] nothing was written, made or removed. *)
Definition silent (s s' : state) : Prop :=
  fs s' = fs s
  /\ exists evs, trace s' = trace s ++ evs /\ Forall quiet_event evs.

(** Every entry has its directories above it. *)
Definition wf_fs (f : gmap path node) : Prop :=
  forall p q n, f !! p = Some n -> q `prefix_of` p -> q <> p ->
    f !! q = Some Dir.

(** A pair of paths at the same place under [src] and under [dst]. *)
Definition paired (src dst : path) (pair : path * path) : Prop :=
  exists rel, pair.1 = src ++ rel /\ pair.2 = dst ++ rel.

(** A pair that a pass in [mode] leaves alone: the source is a file, the
    directory of the destination exists and, unless the mode is LIST, the
    destination carries the hash of the source in its marker and, in FULL
    mode, over its body. *)
Definition settled (mode : Mode) (f : gmap path node) (pair : path * path)
  : Prop :=
  exists srcdata,
    f !! pair.1 = Some (File srcdata)
    /\ dirs_above f (parent pair.2)
    /\ (mode = LIST
        \/ exists raw marker_hash dst_hash dstdata,
             f !! pair.2 = Some (File raw)
             /\ dst_file_info pair.2 raw
                = Ok (marker_hash, dst_hash, dstdata)
             /\ string_hash srcdata = marker_hash
             /\ (dst_hash = marker_hash \/ mode <> FULL)).

(** The run got through the loop: it returned, or failed only at the end
    with the list of changed destinations. *)
Definition completed (r : result nat) : Prop :=
  (exists n, r = Ok n)
  \/ (exists changed, r = Raise (RuntimeError (DstFilesChanged changed))).

(** Neither hidden nor in a cache directory (lines 205-206). *)
Definition prunable (k : path) : bool :=
  negb (PyStr.startswith (name k) "."
        || PyStr.contains "__pycache__" (path_str (parent k))
        || PyStr.contains "__pycache__" (name k)).

(** An entry under [dst] that pruning removes: with nothing at its place
    under [src]. *)
Definition orphan (src dst : path) (f : gmap path node) (k : path) : Prop :=
  is_Some (f !! k) /\ dst `prefix_of` k /\ k <> dst /\ prunable k = true
  /\ f !! (src ++ relative_to k dst) = None.

(** An exception other than the one that line 229 raises at the end of
    the run. *)
Definition not_aggregate (e : exn) : Prop :=
  forall changed, e <> RuntimeError (DstFilesChanged changed).

(** The source src/a.py without a final line feed; never synced. *)
Definition fs_no_newline : gmap path node := example_fs "x=1" None.

(** From [s] to [s'] nothing was done but making directories: what was
    there is there as it was, what is new is a directory, and the events
    are reads, reports and [mkdir]s. *)
Definition grows (s s' : state) : Prop :=
  (forall p n, fs s !! p = Some n -> fs s' !! p = Some n)
  /\ (forall p n, fs s' !! p = Some n -> fs s !! p = Some n \/ n = Dir)
  /\ (forall ev, ev ∈ trace s' ->
        ev ∈ trace s \/ quiet_event ev \/ exists p, ev = EvMkdir p).

(** ** More example file systems *)

(** Last synced at x=1; since then the source went to x=2. *)
Definition fs_src_changed : gmap path node :=
  example_fs x2 (Some (marked "proj" (string_hash x1) x1)).

(** A source that is itself a synced file, and an empty destination
    directory. *)
Definition fs_src_marked : gmap path node :=
  list_to_map
    [([], Dir); (["src"], Dir);
     (src_a, File (marked "up" (string_hash x1) x1)); (["dst"], Dir)].


(** ** What a run touches and how it fails *)

(** From [s] to [s'] every path outside [P] is as it was. *)
Definition outside (P : path -> Prop) (s s' : state) : Prop :=
  forall p, ~ P p -> fs s' !! p = fs s !! p.

(** Whatever [m] does and however it ends, its start and end are related
    by [R]. *)
Definition keeps {A} (R : state -> state -> Prop) (m : M A) : Prop :=
  forall s r s', m s = (r, s') -> R s s'.

(** An exception of [m] is one of [E]. *)
Definition raises_in {A} (E : exn -> Prop) (m : M A) : Prop :=
  forall s e s', m s = (Raise e, s') -> E e.

(** The exceptions of [sync_paths], by mode. *)
Definition may_raise (mode : Mode) (e : exn) : bool :=
  let reads_dst :=
    bool_decide (mode = PULL) || bool_decide (mode = FULL)
    || bool_decide (mode = LIST) in
  match e with
  | ValueError CheckModeCall => bool_decide (mode = CHECK)
  | ValueError (SrcNotDirOrFile _) | ValueError (NotSyncable _)
  | ValueError (NotSimpleFilename _) => negb (bool_decide (mode = CHECK))
  | ValueError (NoLinesFound _) | ValueError (NoSyncHashFound _) => reads_dst
  | ValueError _ => false
  | RuntimeError (InvalidSrcFile _) => negb (bool_decide (mode = CHECK))
  | RuntimeError (BothChanged _ _) => reads_dst
  | RuntimeError ItselfSynced =>
      bool_decide (mode = PULL) || bool_decide (mode = FULL)
      || bool_decide (mode = FORCE)
  | RuntimeError (DstFilesChanged l) =>
      bool_decide (mode = PULL) && negb (bool_decide (l = []))
  | RuntimeError _ => false
  | IndexError => reads_dst
  | AssertionError => false
  | OSError _ _ => negb (bool_decide (mode = CHECK))
  end.

(** ** A destination tree to prune *)

(** The source has a.py; the destination has a.py in sync, the orphans
    old.py and gone/ (with a hidden file in it), the hidden file .keep and
    a cache directory. *)
Definition fs_orphans : gmap path node :=
  list_to_map
    [([], Dir); (["src"], Dir); (src_a, File x1);
     (["dst"], Dir); (dst_a, File (marked "proj" (string_hash x1) x1));
     (["dst"; "old.py"], File x2);
     (["dst"; "gone"], Dir); (["dst"; "gone"; ".hidden"], File x3);
     (["dst"; ".keep"], File x3);
     (["dst"; "__pycache__"], Dir);
     (["dst"; "__pycache__"; "a.pyc"], File x3)].

(** ** Sync, then check *)

(** Every file below [dst] has a name without slash, and one that the
    check would look at has a file at its place under [src], or has
    nothing there and is not hidden from the pruning. *)
Definition checkable (src dst : path) (f : gmap path node) : Prop :=
  forall k data,
    dst `prefix_of` k -> k <> dst -> f !! k = Some (File data) ->
    plain_filename (name k)
    /\ (_valid_filename (name k) = Ok true ->
        match f !! (src ++ relative_to k dst) with
        | Some (File _) => True
        | Some Dir => False
        | None => prunable k = true
        end).

(** A source tree with two files in a directory, and a destination with
    an old copy of one of them and a file that is no longer in the
    source. *)
Definition fs_tree : gmap path node :=
  list_to_map
    [([], Dir); (["src"], Dir); (["src"; "pkg"], Dir);
     (["src"; "pkg"; "a.py"], File x2); (["src"; "pkg"; "b.py"], File x3);
     (["dst"], Dir); (["dst"; "pkg"], Dir);
     (["dst"; "pkg"; "a.py"], File (marked "proj" (string_hash x1) x1));
     (["dst"; "old.py"], File (marked "proj" (string_hash x1) x1))].

(** ** The count of a run *)

(** The files strictly below [top] whose names pass the filter, in the
    order of the walk. *)
Definition valid_paths (top : path) (f : gmap path node) : list path :=
  omap (fun kv : path * node =>
          if bool_decide (top `prefix_of` kv.1 ∧ kv.1 ≠ top)
          then match kv.2 with
               | File _ =>
                   match _valid_filename (name kv.1) with
                   | Ok true => Some kv.1
                   | _ => None
                   end
               | Dir => None
               end
          else None)
       (map_to_list f).

(** ** Names that the shell takes as they are *)

(** Every entry has a path whose components stand for themselves in the
    command line of line 224. *)
Definition safe_names (f : gmap path node) : Prop :=
  forall p n, f !! p = Some n -> forallb safe_component p = true.

(** Where the names are safe before, they are safe after and every path
    outside [P] is as it was. *)
Definition outside_safe (P : path -> Prop) (s s' : state) : Prop :=
  safe_names (fs s) -> safe_names (fs s') /\ outside P s s'.

(** The shell of the examples.  Their file systems have safe names only,
    so that it is never asked. *)
Definition system_unused (cmd : string) (f : gmap path node)
  : gmap path node := f.

(** *** A name with a dollar sign *)

(** The synced pair of [fs_synced] and, beside its destination, a file
    that has nothing under the source and a dollar sign in its name. *)
Definition fs_dollar : gmap path node :=
  <[["dst"; "a$b.py"] := File x3]> fs_synced.

(** The shell at the command line that pruning makes for this file, the
    words [rm -rf] and the path [dst/a$b.py] between double quotes: with
    no variable [b] set, [$b] stands for nothing and [rm] is given
    [dst/a.py].  No other command line comes up in the example. *)
Definition system_dollar (cmd : string) (f : gmap path node)
  : gmap path node :=
  if String.eqb cmd (rm_command ["dst"; "a$b.py"])
  then filter (fun kv => ¬ ["dst"; "a.py"] `prefix_of` kv.1) f
  else f.
(** * Properties *)

(** ** Strings *)

Section Strings.

Implicit Types s r sub suf : string.

#[local] Arguments String.append !_ _ / : simpl nomatch.

Lemma append_assoc s1 s2 s3 : (s1 +:+ s2) +:+ s3 = s1 +:+ s2 +:+ s3.
Proof. induction s1 as [|c s1 IH]; simpl; [done | by rewrite IH]. Qed.

Lemma append_nil_r s : s +:+ "" = s.
Proof. induction s as [|c s IH]; simpl; [done | by rewrite IH]. Qed.

Lemma startswith_spec s pre :
  PyStr.startswith s pre = true <-> exists r, s = pre +:+ r.
Proof.
  revert s. induction pre as [|c pre IH]; intros s; simpl.
  - split; [intros _; by exists s | done].
  - destruct s as [|c' s].
    + split; [done | intros [r Hr]; discriminate].
    + destruct (Ascii.eqb_spec c c') as [->|Hne]; simpl.
      * rewrite IH. split; intros [r Hr]; exists r; congruence.
      * split; [done | intros [r Hr]; congruence].
Qed.

Lemma contains_spec sub s :
  PyStr.contains sub s = true <-> exists a b, s = a +:+ sub +:+ b.
Proof.
  induction s as [|c s IH]; simpl.
  - rewrite orb_false_r, startswith_spec. split.
    + intros [r Hr]. exists "", r. done.
    + intros ([|? a] & b & Hab); [|discriminate]. eauto.
  - rewrite orb_true_iff, IH, startswith_spec. split.
    + intros [[r Hr]|(a & b & Hab)].
      * exists "", r. done.
      * exists (String c a), b. simpl. congruence.
    + intros ([|c' a] & b & Hab); simpl in Hab.
      * left. eauto.
      * right. exists a, b. congruence.
Qed.

Lemma endswith_spec s suf :
  PyStr.endswith s suf = true <-> exists a, s = a +:+ suf.
Proof.
  induction s as [|c s IH]; cbn [PyStr.endswith].
  - rewrite orb_false_r, String.eqb_eq. split.
    + intros <-. by exists "".
    + intros ([|? a] & Ha); [done | discriminate].
  - rewrite orb_true_iff, IH, String.eqb_eq. split.
    + intros [<-|[a Ha]]; [by exists ""|].
      exists (String c a). simpl. congruence.
    + intros ([|c' a] & Ha); simpl in Ha; [by left|].
      right. exists a. congruence.
Qed.

Lemma basename_length s : (String.length (PyStr.basename s) <= String.length s)%nat.
Proof.
  induction s as [|c s IH]; simpl; [done|].
  destruct (_ || _); simpl; lia.
Qed.

(** A name is its own basename exactly when it has no slash. *)
Lemma basename_id s :
  PyStr.basename s = s <-> PyStr.contains "/" s = false.
Proof.
  destruct s as [|c s]; [done|].
  assert (PyStr.contains "/" (String c s)
          = Ascii.eqb c "/" || PyStr.contains "/" s) as ->.
  { simpl. rewrite andb_true_r. by rewrite Ascii.eqb_sym. }
  simpl. destruct (_ || _); [|done].
  split; [|done]. intros Heq.
  pose proof (basename_length s) as Hlen. rewrite Heq in Hlen.
  simpl in Hlen. lia.
Qed.

Lemma all_chars_app P s1 s2 :
  all_chars P (s1 +:+ s2) = all_chars P s1 && all_chars P s2.
Proof.
  induction s1 as [|c s1 IH]; simpl; [done|].
  by rewrite IH, andb_assoc.
Qed.

Lemma all_chars_impl (P Q : ascii -> bool) s :
  (forall c, P c = true -> Q c = true) ->
  all_chars P s = true -> all_chars Q s = true.
Proof.
  intros HPQ. induction s as [|c s IH]; simpl; [done|].
  rewrite !andb_true_iff. intros [??]. auto.
Qed.

Lemma digits_no_linebreak s :
  all_chars is_digit s = true -> no_linebreak s = true.
Proof.
  apply all_chars_impl. intros c. unfold is_digit, PyStr.is_linebreak.
  generalize (nat_of_ascii c). intros n.
  rewrite andb_true_iff, !Nat.leb_le. intros [??].
  do 58 (destruct n as [|n]; [done || lia |]). lia.
Qed.

(** *** str.splitlines *)

Lemma cons_line_no_linebreak c ls :
  PyStr.is_linebreak c = false ->
  Forall (fun l => no_linebreak l = true) ls ->
  Forall (fun l => no_linebreak l = true) (PyStr.cons_line c ls).
Proof.
  intros Hc [|l ls' Hl Hls]; simpl.
  - constructor; [|done]. unfold no_linebreak. simpl. by rewrite Hc.
  - constructor; [|done]. unfold no_linebreak in *. simpl. by rewrite Hc.
Qed.

Lemma splitlines_from_no_linebreak b s :
  Forall (fun l => no_linebreak l = true) (PyStr.splitlines_from b s).
Proof.
  revert b. induction s as [|c s IH]; intros b; simpl; [done|].
  destruct (_ && _); [done|].
  destruct (PyStr.is_linebreak c) eqn:Hc.
  - by constructor.
  - by apply cons_line_no_linebreak.
Qed.

Lemma splitlines_line l rest :
  no_linebreak l = true ->
  PyStr.splitlines (l +:+ LF +:+ rest) = l :: PyStr.splitlines rest.
Proof.
  unfold PyStr.splitlines, no_linebreak.
  induction l as [|c l IH]; simpl in *; [done|].
  rewrite andb_true_iff, negb_true_iff. intros [Hc Hl].
  rewrite andb_false_r, Hc, IH by done. done.
Qed.

Lemma splitlines_join ls :
  Forall (fun l => no_linebreak l = true) ls -> ls <> [] ->
  PyStr.splitlines (PyStr.join LF ls +:+ LF) = ls.
Proof.
  induction 1 as [|l ls Hl Hls IH]; [done|]. intros _.
  destruct ls as [|l' ls].
  - simpl. pose proof (splitlines_line l "" Hl) as H.
    by rewrite append_nil_r in H.
  - change (PyStr.join LF (l :: l' :: ls))
      with (l +:+ LF +:+ PyStr.join LF (l' :: ls)).
    rewrite !append_assoc, splitlines_line, IH; done.
Qed.

Lemma splitlines_nonempty s : s <> "" -> PyStr.splitlines s <> [].
Proof.
  unfold PyStr.splitlines. destruct s as [|c s]; [done|]. intros _. simpl.
  rewrite andb_false_r. destruct (PyStr.is_linebreak c); [done|].
  by destruct (PyStr.splitlines_from false s).
Qed.

(** Text whose lines all end with a line feed is its own normal form. *)
Lemma normalized_lf_text s : lf_text s = true -> normalized s = s.
Proof.
  unfold lf_text, normalized, PyStr.splitlines.
  rewrite andb_true_iff. intros [Hend Hall].
  induction s as [|c s IH]; [done|].
  simpl in Hall. apply andb_true_iff in Hall as [Hc Hall].
  cbn [PyStr.endswith] in Hend. cbn [PyStr.splitlines_from]. rewrite andb_false_r.
  destruct (Ascii.eqb_spec c "010") as [->|Hne].
  - change (PyStr.is_linebreak "010") with true.
    change ("010" =? "013")%char with false. cbv iota.
    destruct s as [|c' s]; [done|].
    assert (PyStr.endswith (String c' s) LF = true) as Hend'.
    { apply orb_true_iff in Hend as [Heq|]; [|done].
      apply String.eqb_eq in Heq. unfold LF in Heq. congruence. }
    specialize (IH Hend' Hall).
    pose proof (splitlines_nonempty (String c' s) ltac:(done)) as Hne.
    unfold PyStr.splitlines in Hne.
    destruct (PyStr.splitlines_from false (String c' s)) as [|l ls]; [done|].
    change (PyStr.join LF ("" :: l :: ls)) with (LF +:+ PyStr.join LF (l :: ls)).
    rewrite append_assoc, IH. done.
  - rewrite orb_false_r, negb_true_iff in Hc. rewrite Hc.
    assert (PyStr.endswith s LF = true) as Hend'.
    { apply orb_true_iff in Hend as [Heq|]; [|done].
      apply String.eqb_eq in Heq. unfold LF in Heq. congruence. }
    specialize (IH Hend' Hall).
    assert (s <> "") as Hs by (by intros ->).
    pose proof (splitlines_nonempty s Hs) as Hne'.
    unfold PyStr.splitlines in Hne'.
    destruct (PyStr.splitlines_from false s) as [|l ls]; [done|].
    cbn [PyStr.cons_line].
    assert (PyStr.join LF (String c l :: ls)
            = String c (PyStr.join LF (l :: ls))) as ->
      by (by destruct ls).
    change (String c (PyStr.join LF (l :: ls) +:+ LF) = String c s).
    by rewrite IH.
Qed.

(** *** str.split *)

Lemma split_no_first_char sep0 sep s :
  all_chars (fun c => negb (Ascii.eqb c sep0)) s = true ->
  PyStr.split s (String sep0 sep) = [s].
Proof.
  unfold PyStr.split. induction s as [|c s IH]; [done|].
  simpl. rewrite andb_true_iff, negb_true_iff. intros [Hc Hs].
  rewrite Ascii.eqb_sym in Hc. rewrite Hc. simpl.
  by rewrite IH.
Qed.

(** *** The hash is a decimal numeral *)

Lemma string_of_uint_digits d :
  all_chars is_digit (NilEmpty.string_of_uint d) = true.
Proof. induction d; simpl; done. Qed.

Lemma string_hash_digits data : all_chars is_digit (string_hash data) = true.
Proof.
  unfold string_hash, str_of_int, NilZero.string_of_uint.
  destruct (N.to_uint _); try done; apply (string_of_uint_digits (_ _)).
Qed.

(** The number of a list of bytes, most significant first, determines the
    bytes when their count is known. *)
Lemma int_from_bytes_big_snoc bs b :
  int_from_bytes_big (bs ++ [b]) = (256 * int_from_bytes_big bs + b)%Z.
Proof. unfold int_from_bytes_big. by rewrite fold_left_app. Qed.

Lemma int_from_bytes_big_nonneg bs :
  Forall (fun b => 0 <= b < 256)%Z bs -> (0 <= int_from_bytes_big bs)%Z.
Proof.
  induction bs as [|b bs IH] using rev_ind; [done|].
  rewrite Forall_app, Forall_singleton. intros [Hbs Hb].
  rewrite int_from_bytes_big_snoc. specialize (IH Hbs). lia.
Qed.

Lemma int_from_bytes_big_inj bs cs :
  length bs = length cs ->
  Forall (fun b => 0 <= b < 256)%Z bs ->
  Forall (fun b => 0 <= b < 256)%Z cs ->
  int_from_bytes_big bs = int_from_bytes_big cs -> bs = cs.
Proof.
  revert cs. induction bs as [|b bs IH] using rev_ind; intros cs Hlen.
  - by destruct cs.
  - destruct cs as [|c cs _] using rev_ind;
      [rewrite length_app in Hlen; simpl in Hlen; lia|].
    rewrite !length_app in Hlen. simpl in Hlen.
    rewrite !Forall_app, !Forall_singleton. intros [Hbs Hb] [Hcs Hc].
    rewrite !int_from_bytes_big_snoc. intros Heq.
    assert (int_from_bytes_big bs = int_from_bytes_big cs /\ b = c)
      as [Hrec ->] by lia.
    f_equal. apply IH; [lia|done..].
Qed.

Lemma str_of_int_inj n m :
  (0 <= n)%Z -> (0 <= m)%Z -> str_of_int n = str_of_int m -> n = m.
Proof.
  unfold str_of_int. intros Hn Hm Heq.
  assert (forall k, N.to_uint k <> Nil) as Hnil.
  { intros [|p]; [done|]. apply DecimalPos.Unsigned.to_uint_nonnil. }
  assert (Some (N.to_uint (Z.to_N n)) = Some (N.to_uint (Z.to_N m))) as Hu.
  { rewrite <- !NilZero.usu by apply Hnil. by rewrite Heq. }
  injection Hu as Hu. apply DecimalN.Unsigned.to_uint_inj in Hu. lia.
Qed.

Lemma bytes_le_range n w :
  Forall (fun b => 0 <= b < 256)%Z (MD5.bytes_le n w).
Proof.
  unfold MD5.bytes_le. apply Forall_map, Forall_forall. intros i _. cbv beta.
  change 255%Z with (Z.ones 8). rewrite Z.land_ones by lia.
  apply Z.mod_pos_bound. lia.
Qed.

Lemma digest_bytes msg :
  length (MD5.digest msg) = 16%nat
  /\ Forall (fun b => 0 <= b < 256)%Z (MD5.digest msg).
Proof.
  unfold MD5.digest. destruct (fold_left _ _ _) as [a b c d]. split.
  - unfold MD5.bytes_le. by rewrite !length_app, !length_map.
  - rewrite !Forall_app. split_and!; apply bytes_le_range.
Qed.

(** The decimal string keeps all of the digest. *)
Lemma string_hash_inj a b :
  string_hash a = string_hash b ->
  MD5.digest (encode a) = MD5.digest (encode b).
Proof.
  unfold string_hash. intros Heq.
  destruct (digest_bytes (encode a)) as [Hla Hba].
  destruct (digest_bytes (encode b)) as [Hlb Hbb].
  apply int_from_bytes_big_inj; [congruence|done..|].
  apply str_of_int_inj; [by apply int_from_bytes_big_nonneg..|done].
Qed.

Lemma string_hash_eq data :
  string_hash data = str_of_int (int_from_bytes_big (MD5.digest (encode data))).
Proof. reflexivity. Qed.

End Strings.

#[global] Opaque string_hash.

(** ** The filename filter *)

Lemma plain_filename_basename fname :
  plain_filename fname -> PyStr.basename fname = fname.
Proof.
  intros Hplain. apply basename_id.
  destruct (PyStr.contains "/" fname) eqn:Hc; [|done].
  apply contains_spec in Hc as (a & b & ->). by destruct (Hplain a b).
Qed.

(** ** The marker codec *)

Lemma Ok_inj {A} (a b : A) : Ok a = Ok b -> a = b.
Proof. congruence. Qed.

Section Codec.

#[local] Arguments String.append !_ _ / : simpl nomatch.

Lemma add_marker_unmarked src_proj srcdata :
  unmarked srcdata = true ->
  add_marker src_proj srcdata
  = Ok (PyStr.join LF
          (("# Synced from " +:+ src_proj +:+ "." +:+ LF
              +:+ "# EFRO_SYNC_HASH=" +:+ string_hash srcdata +:+ LF +:+ "#")
             :: PyStr.splitlines srcdata) +:+ LF).
Proof.
  unfold unmarked, add_marker. rewrite negb_true_iff. intros ->.
  by rewrite andb_false_r.
Qed.

Lemma add_marker_marked src_proj srcdata :
  unmarked srcdata = false ->
  add_marker src_proj srcdata = Raise (RuntimeError ItselfSynced).
Proof.
  unfold unmarked, add_marker. rewrite negb_false_iff. intros Hc. rewrite Hc.
  destruct (PyStr.splitlines srcdata) as [|l0 [|l1 ls]]; try done.
Qed.

(** The lines of a file that [add_marker] wrote: the three lines of the
    header, then the lines of the text. *)
Lemma add_marker_splitlines src_proj srcdata enc :
  no_linebreak src_proj = true ->
  add_marker src_proj srcdata = Ok enc ->
  PyStr.splitlines enc
  = ("# Synced from " +:+ src_proj +:+ ".")
      :: ("# EFRO_SYNC_HASH=" +:+ string_hash srcdata)
      :: "#" :: PyStr.splitlines srcdata.
Proof.
  intros Hproj Hadd.
  destruct (unmarked srcdata) eqn:Hu;
    [|by rewrite add_marker_marked in Hadd].
  rewrite add_marker_unmarked in Hadd by done.
  apply Ok_inj in Hadd. subst enc.
  set (l0 := "# Synced from " +:+ src_proj +:+ ".").
  set (l1 := "# EFRO_SYNC_HASH=" +:+ string_hash srcdata).
  assert (no_linebreak l0 = true) as Hl0.
  { unfold l0, no_linebreak. rewrite !all_chars_app.
    unfold no_linebreak in Hproj. by rewrite Hproj. }
  assert (no_linebreak l1 = true) as Hl1.
  { unfold l1, no_linebreak. rewrite all_chars_app.
    pose proof (digits_no_linebreak _ (string_hash_digits srcdata)) as Hd.
    unfold no_linebreak in Hd. by rewrite Hd. }
  assert ("# Synced from " +:+ src_proj +:+ "." +:+ LF
            +:+ "# EFRO_SYNC_HASH=" +:+ string_hash srcdata +:+ LF +:+ "#"
          = l0 +:+ LF +:+ l1 +:+ LF +:+ "#") as ->.
  { unfold l0, l1. by rewrite !append_assoc. }
  clearbody l0 l1.
  pose proof (splitlines_from_no_linebreak false srcdata) as Hlines.
  fold (PyStr.splitlines srcdata) in Hlines.
  destruct (PyStr.splitlines srcdata) as [|l ls] eqn:Hsplit.
  - cbn [PyStr.join String.concat]. rewrite !append_assoc.
    rewrite (splitlines_line l0), (splitlines_line l1) by done.
    reflexivity.
  - change (PyStr.join LF ((l0 +:+ LF +:+ l1 +:+ LF +:+ "#") :: l :: ls))
      with ((l0 +:+ LF +:+ l1 +:+ LF +:+ "#")
              +:+ LF +:+ PyStr.join LF (l :: ls)).
    rewrite !append_assoc.
    rewrite (splitlines_line l0), (splitlines_line l1),
      (splitlines_line "#") by done.
    by rewrite splitlines_join.
Qed.

(** Taking the marker off what [add_marker] wrote: the hash of the marker
    is the hash of the text, the body is the text in normal form. *)
Lemma dst_file_info_add_marker src_proj srcdata enc dstfile :
  no_linebreak src_proj = true ->
  add_marker src_proj srcdata = Ok enc ->
  dst_file_info dstfile enc
  = Ok (string_hash srcdata, string_hash (normalized srcdata),
        normalized srcdata).
Proof.
  intros Hproj Hadd. unfold dst_file_info.
  rewrite (add_marker_splitlines _ _ _ Hproj Hadd).
  rewrite bool_decide_eq_false_2 by done.
  cbn [index lookup list_lookup mbind result_bind].
  assert (PyStr.contains "EFRO_SYNC_HASH"
            ("# EFRO_SYNC_HASH=" +:+ string_hash srcdata) = true) as ->.
  { apply contains_spec. by exists "# ", ("=" +:+ string_hash srcdata). }
  cbn [negb].
  assert (PyStr.split ("# EFRO_SYNC_HASH=" +:+ string_hash srcdata)
            "EFRO_SYNC_HASH=" = ["# "; string_hash srcdata]) as ->.
  { pose proof (split_no_first_char "E" "FRO_SYNC_HASH=" (string_hash srcdata))
      as Hsplit.
    unfold PyStr.split in *. simpl. rewrite Hsplit; [done|].
    eapply all_chars_impl, string_hash_digits.
    intros c Hc. destruct (Ascii.eqb_spec c "E") as [->|]; [|done].
    vm_compute in Hc. discriminate. }
  done.
Qed.

End Codec.

(** *** Where [get_dst_file_info] fails *)

Section Decode.

#[local] Arguments String.append !_ _ / : simpl nomatch.

Lemma split_from_nonempty sep k s : PyStr.split_from sep k s <> [].
Proof.
  revert k. induction s as [|c s IH]; intros k; simpl; [done|].
  destruct k; [|done].
  destruct (PyStr.startswith _ _).
  - by destruct (String.length sep) as [|[|?]].
  - specialize (IH 0). by destruct (PyStr.split_from sep 0 s).
Qed.

(** Without an occurrence of the separator there is one piece. *)
Lemma split_not_contains c0 sep s :
  PyStr.contains (String c0 sep) s = false ->
  PyStr.split s (String c0 sep) = [s].
Proof.
  unfold PyStr.split. induction s as [|c s IH]; [done|].
  cbn [PyStr.contains PyStr.split_from]. rewrite orb_false_iff.
  intros [-> Hc]. by rewrite IH.
Qed.

(** With an occurrence there are at least two. *)
Lemma split_contains c0 sep s :
  PyStr.contains (String c0 sep) s = true ->
  exists a b rest, PyStr.split s (String c0 sep) = a :: b :: rest.
Proof.
  unfold PyStr.split. induction s as [|c s IH]; [done|].
  cbn [PyStr.contains PyStr.split_from].
  destruct (PyStr.startswith (String c s) (String c0 sep)) eqn:Hs.
  - intros _. cbn [String.length].
    destruct (String.length sep) as [|k].
    + pose proof (split_from_nonempty (String c0 sep) 0 s) as Hne.
      destruct (PyStr.split_from (String c0 sep) 0 s) as [|b rest]; [done|].
      by exists "", b, rest.
    + pose proof (split_from_nonempty (String c0 sep) (S k) s) as Hne.
      destruct (PyStr.split_from (String c0 sep) (S k) s) as [|b rest];
        [done|].
      by exists "", b, rest.
  - intros Hc. destruct (IH Hc) as (a & b & rest & ->).
    by exists (String c a), b, rest.
Qed.

(** Every case of lines 285-295. *)
Lemma dst_file_info_cases dstfile dstdata :
  dst_file_info dstfile dstdata
  = match PyStr.splitlines dstdata with
    | [] => Raise (ValueError (NoLinesFound dstfile))
    | [_] => Raise IndexError
    | _ :: line1 :: _ =>
        if negb (PyStr.contains "EFRO_SYNC_HASH" line1)
        then Raise (ValueError (NoSyncHashFound dstfile))
        else if negb (PyStr.contains "EFRO_SYNC_HASH=" line1)
        then Raise IndexError
        else
          let body :=
            PyStr.join LF (drop 3 (PyStr.splitlines dstdata)) +:+ LF in
          Ok (nth 1 (PyStr.split line1 "EFRO_SYNC_HASH=") "",
              string_hash body, body)
    end.
Proof.
  unfold dst_file_info.
  destruct (PyStr.splitlines dstdata) as [|l0 [|l1 ls]] eqn:Hlines; try done.
  rewrite bool_decide_eq_false_2 by done.
  cbn [index lookup list_lookup mbind result_bind].
  destruct (PyStr.contains "EFRO_SYNC_HASH" l1) eqn:Hc; [|done].
  cbn [negb].
  destruct (PyStr.contains "EFRO_SYNC_HASH=" l1) eqn:Hc'; cbn [negb].
  - destruct (split_contains _ _ _ Hc') as (a & b & rest & ->). done.
  - by rewrite (split_not_contains _ _ _ Hc').
Qed.

End Decode.

(** A text in normal form comes back from under its marker as it was. *)
Lemma add_marker_lf_text dstfile src_proj content :
  no_linebreak src_proj = true ->
  lf_text content = true ->
  unmarked content = true ->
  exists enc,
    add_marker src_proj content = Ok enc /\
    dst_file_info dstfile enc
    = Ok (string_hash content, string_hash content, content).
Proof.
  intros Hproj Hlf Hun. eexists. split.
  - by apply add_marker_unmarked.
  - erewrite dst_file_info_add_marker;
      [|done|by apply add_marker_unmarked].
    by rewrite (normalized_lf_text _ Hlf).
Qed.

(** ** The monad and the file system *)

Ltac munfold := unfold mbind, M_bind, mret, M_ret; cbv beta.

Section Monad.

Context {A B : Type}.

Lemma bind_run (m : M A) (f : A -> M B) s a s' :
  m s = (Ok a, s') -> (m ≫= f) s = f a s'.
Proof. intros H. unfold mbind, M_bind. by rewrite H. Qed.

Lemma bind_raise (m : M A) (f : A -> M B) s e s' :
  m s = (Raise e, s') -> (m ≫= f) s = (Raise e, s').
Proof. intros H. unfold mbind, M_bind. by rewrite H. Qed.

Lemma bind_inv (m : M A) (f : A -> M B) s r s' :
  (m ≫= f) s = (r, s') ->
  (exists a s1, m s = (Ok a, s1) /\ f a s1 = (r, s'))
  \/ (exists e, m s = (Raise e, s') /\ r = Raise e).
Proof.
  unfold mbind, M_bind. destruct (m s) as [[a|e] s1]; intros H.
  - left. eauto.
  - right. exists e. split; congruence.
Qed.

Lemma foldM_app (body : B -> A -> M B) l1 l2 acc s :
  foldM body (l1 ++ l2) acc s
  = match foldM body l1 acc s with
    | (Ok acc', s') => foldM body l2 acc' s'
    | (Raise e, s') => (Raise e, s')
    end.
Proof.
  revert acc s. induction l1 as [|a l1 IH]; intros acc s; [done|].
  cbn [foldM app]. unfold mbind, M_bind.
  destruct (body acc a s) as [[acc'|e] s1]; [apply IH | done].
Qed.

End Monad.

Section FileSystem.

Implicit Types (s : state) (p q : path).

Lemma is_file_run p s :
  is_file p s
  = (Ok (match fs s !! p with Some (File _) => true | _ => false end), s).
Proof. done. Qed.

Lemma read_file_run p s data :
  fs s !! p = Some (File data) ->
  read_file p s = (Ok data, State (fs s) (trace s ++ [EvRead p])).
Proof. intros H. unfold read_file. by rewrite H. Qed.

Lemma state_eta s : State (fs s) (trace s) = s.
Proof. by destruct s. Qed.

(** *** mkdir *)

Lemma mkdir_from_noop s done rest :
  (forall k, fs s !! (done ++ take k rest) = Some Dir) ->
  mkdir_from done rest s = (Ok tt, s).
Proof.
  revert done. induction rest as [|c rest IH]; intros done Hdirs.
  - cbn [mkdir_from]. munfold.
    specialize (Hdirs 0). rewrite take_0, app_nil_r in Hdirs.
    by rewrite Hdirs.
  - cbn [mkdir_from]. munfold.
    pose proof (Hdirs 0) as H0. rewrite take_0, app_nil_r in H0.
    rewrite H0. apply IH. intros k. specialize (Hdirs (S k)).
    by rewrite <- app_assoc.
Qed.

Lemma mkdir_parents_noop s p :
  dirs_above (fs s) p -> mkdir_parents p s = (Ok tt, s).
Proof.
  intros Hd. apply mkdir_from_noop. intros k. apply Hd.
  cbn [app]. apply prefix_take.
Qed.

(** What [mkdir] leaves behind, whether it succeeds or not: what was
    there is still there, and what is new is a directory. *)
Lemma mkdir_from_extends s done rest r s' :
  mkdir_from done rest s = (r, s') ->
  (forall q n, fs s !! q = Some n -> fs s' !! q = Some n)
  /\ (forall q n, fs s' !! q = Some n ->
        fs s !! q = Some n \/ (fs s !! q = None /\ n = Dir))
  /\ (forall ev, ev ∈ trace s' ->
        ev ∈ trace s \/ exists q, ev = EvMkdir q /\ fs s !! q = None).
Proof.
  revert done s. induction rest as [|c rest IH]; intros done s.
  - cbn [mkdir_from]. munfold.
    destruct (fs s !! done) as [[d|]|] eqn:Hdone; intros [= <- <-];
      try (split_and!; by eauto).
    cbn [fs trace]. split_and!.
    + intros q n Hq. rewrite lookup_insert_ne; [done|congruence].
    + intros q n. rewrite lookup_insert.
      case_decide; [intros [= <-]; subst; eauto | eauto].
    + intros ev [Hev|Hev%list_elem_of_singleton]%elem_of_app; eauto.
  - cbn [mkdir_from]. munfold.
    destruct (fs s !! done) as [[d|]|] eqn:Hdone.
    + intros [= <- <-]. split_and!; by eauto.
    + intros H. apply IH in H. done.
    + intros H. apply IH in H as (H1 & H2 & H3). cbn [fs trace] in *.
      split_and!.
      * intros q n Hq. apply H1. rewrite lookup_insert_ne; [done|congruence].
      * intros q n Hq. apply H2 in Hq as [Hq|[Hq ->]].
        -- rewrite lookup_insert in Hq.
           case_decide; [injection Hq as <-; subst; eauto | eauto].
        -- rewrite lookup_insert in Hq. case_decide; [done | eauto].
      * intros ev Hev. apply H3 in Hev as [Hev|(q & -> & Hq)].
        -- apply elem_of_app in Hev as [?|Hev%list_elem_of_singleton];
             eauto.
        -- rewrite lookup_insert in Hq. case_decide; [done | eauto].
Qed.


Lemma prefix_of_take (q p : path) : q `prefix_of` p -> exists k, q = take k p.
Proof.
  intros [r ->]. exists (length q). by rewrite take_app_length.
Qed.


End FileSystem.

(** ** One pass of the loop *)

Section SyncFile.

Implicit Types (s : state) (p q srcfile dstfile : path) (mode : Mode).

Lemma get_dst_file_info_run dstfile s raw :
  fs s !! dstfile = Some (File raw) ->
  get_dst_file_info dstfile s
  = (dst_file_info dstfile raw, State (fs s) (trace s ++ [EvRead dstfile])).
Proof.
  intros H. unfold get_dst_file_info.
  rewrite (bind_run _ _ _ _ _ (read_file_run _ _ _ H)). done.
Qed.

Lemma pull_run src_proj dstfile srcdata s enc :
  fs s !! parent dstfile = Some Dir ->
  fs s !! dstfile <> Some Dir ->
  add_marker src_proj srcdata = Ok enc ->
  pull src_proj dstfile srcdata s
  = (Ok tt, State (<[dstfile := File enc]> (fs s))
                  (trace s ++ [EvOpenW dstfile; EvWrite dstfile enc])).
Proof.
  intros Hpar Hdst Hadd. unfold pull, write_file, open_w, write, put, emit, lift.
  munfold. rewrite Hpar, Hadd.
  destruct (fs s !! dstfile) as [[?|]|]; try done;
    cbn [fs trace]; by rewrite insert_insert_eq, <- app_assoc.
Qed.

(** A text that [add_marker] refuses leaves the destination empty: the file
    is opened for writing before the marker is computed (lines 135-136). *)
Lemma pull_run_refused src_proj dstfile srcdata s e :
  fs s !! parent dstfile = Some Dir ->
  fs s !! dstfile <> Some Dir ->
  add_marker src_proj srcdata = Raise e ->
  pull src_proj dstfile srcdata s
  = (Raise e, State (<[dstfile := File ""]> (fs s))
                    (trace s ++ [EvOpenW dstfile])).
Proof.
  intros Hpar Hdst Hadd. unfold pull, write_file, open_w, write, put, emit, lift.
  munfold. rewrite Hpar, Hadd.
  destruct (fs s !! dstfile) as [[?|]|]; done.
Qed.

Lemma dirs_above_parent (f : gmap path node) p :
  dirs_above f p -> f !! p = Some Dir.
Proof. intros H. by apply H. Qed.

(** The three hashes of a pair of files. *)
Lemma sync_file_start src_proj mode changed srcfile dstfile s srcdata raw :
  fs s !! srcfile = Some (File srcdata) ->
  fs s !! dstfile = Some (File raw) ->
  dirs_above (fs s) (parent dstfile) ->
  mode <> FORCE ->
  sync_file src_proj mode changed (srcfile, dstfile) s
  = (info ← lift (dst_file_info dstfile raw);
     let '(marker_hash, dst_hash, dstdata) := info in
     let src_hash := string_hash srcdata in
     if bool_decide (src_hash ≠ marker_hash)
        && bool_decide (dst_hash = marker_hash)
     then
       (if bool_decide (mode = LIST)
        then print (WouldPull src_proj dstfile)
        else print (Pulling src_proj dstfile);;
             pull src_proj dstfile srcdata);;
       mret changed
     else if bool_decide (src_hash = marker_hash)
             && bool_decide (dst_hash ≠ marker_hash)
     then
       if bool_decide (mode = LIST)
       then print (WouldPush src_proj dstfile);; mret changed
       else if bool_decide (mode = FULL)
       then
         print (Pushing src_proj dstfile);;
         write_file srcfile (mret dstdata);;
         pull src_proj dstfile dstdata;;
         mret changed
       else mret (changed ++ [dstfile])
     else if bool_decide (marker_hash ≠ src_hash)
             && bool_decide (marker_hash ≠ dst_hash)
     then
       if bool_decide (src_hash = dst_hash)
       then
         (if bool_decide (mode = LIST)
          then print (WouldUpdateHash src_proj dstfile)
          else print (UpdatingHash src_proj dstfile);;
               pull src_proj dstfile srcdata);;
         mret changed
       else raise (RuntimeError (BothChanged srcfile dstfile))
     else if bool_decide (src_hash = marker_hash)
             && bool_decide (dst_hash = marker_hash)
     then mret changed
     else raise AssertionError)
      (State (fs s) (trace s ++ [EvRead srcfile; EvRead dstfile])).
Proof.
  intros Hsrc Hdst Hdirs Hmode. unfold sync_file.
  rewrite (bind_run _ _ _ _ _ (is_file_run _ _)), Hsrc. cbn [negb].
  rewrite (bind_run _ _ _ _ _ (mkdir_parents_noop _ _ Hdirs)).
  rewrite (bind_run _ _ _ _ _ (read_file_run _ _ _ Hsrc)).
  rewrite (bind_run _ _ _ _ _ (is_file_run _ _)). cbn [fs]. rewrite Hdst.
  rewrite (bool_decide_eq_false_2 _ Hmode). cbn [negb orb].
  unfold mbind at 1, M_bind at 1.
  rewrite (get_dst_file_info_run _ _ raw) by done.
  cbn [fs trace]. rewrite <- app_assoc. cbn [app].
  unfold mbind at 1, M_bind at 1, lift at 1.
  by destruct (dst_file_info dstfile raw) as [[[??]?]|].
Qed.

End SyncFile.

(** ** The pass over a pair of files *)

Section Pairs.

Implicit Types (s : state) (p q srcfile dstfile src dst : path) (mode : Mode).

Lemma sync_paths_unfold src_proj src dst mode s0 allpaths :
  mode <> CHECK ->
  collect_paths src dst s0 = (Ok allpaths, s0) ->
  sync_paths src_proj src dst mode s0
  = match foldM (sync_file src_proj mode) allpaths [] s0 with
    | (Ok changed, s1) =>
        (prune src dst mode;;
         if negb (bool_decide (changed = []))
         then raise (RuntimeError (DstFilesChanged changed))
         else mret (length allpaths)) s1
    | (Raise e, s1) => (Raise e, s1)
    end.
Proof.
  intros Hmode Hcollect. unfold sync_paths.
  rewrite (bool_decide_eq_false_2 _ Hmode).
  rewrite (bind_run _ _ _ _ _ Hcollect). done.
Qed.

(** When the run comes to a pair, having passed the pairs before it. *)
Lemma sync_paths_raise_at src_proj src dst mode s0 pre post changed s
    srcfile dstfile e s' :
  mode <> CHECK ->
  collect_paths src dst s0 = (Ok (pre ++ (srcfile, dstfile) :: post), s0) ->
  foldM (sync_file src_proj mode) pre [] s0 = (Ok changed, s) ->
  sync_file src_proj mode changed (srcfile, dstfile) s = (Raise e, s') ->
  sync_paths src_proj src dst mode s0 = (Raise e, s').
Proof.
  intros Hmode Hcollect Hpre Hpair.
  rewrite (sync_paths_unfold _ _ _ _ _ _ Hmode Hcollect).
  rewrite foldM_app, Hpre. cbn [foldM].
  by rewrite (bind_raise _ _ _ _ _ Hpair).
Qed.

Lemma sync_file_diverged src_proj mode changed s srcfile dstfile
    srcdata marker_hash dst_hash dstdata :
  mode <> FORCE ->
  pair_state (fs s) srcfile dstfile srcdata marker_hash dst_hash dstdata ->
  marker_hash <> string_hash srcdata ->
  marker_hash <> dst_hash ->
  string_hash srcdata <> dst_hash ->
  sync_file src_proj mode changed (srcfile, dstfile) s
  = (Raise (RuntimeError (BothChanged srcfile dstfile)),
     after_reads s srcfile dstfile).
Proof.
  intros Hmode (raw & Hsrc & Hdst & Hdirs & Hinfo) Hms Hmd Hsd.
  rewrite (sync_file_start _ _ _ _ _ _ _ _ Hsrc Hdst Hdirs Hmode).
  unfold mbind at 1, M_bind at 1, lift at 1. rewrite Hinfo. cbv beta iota.
  rewrite (bool_decide_eq_false_2 (dst_hash = marker_hash)) by done.
  rewrite (bool_decide_eq_false_2 (string_hash srcdata = marker_hash))
    by done.
  rewrite (bool_decide_eq_true_2 (marker_hash ≠ string_hash srcdata))
    by done.
  rewrite (bool_decide_eq_true_2 (marker_hash ≠ dst_hash)) by done.
  rewrite (bool_decide_eq_false_2 (string_hash srcdata = dst_hash)) by done.
  rewrite andb_false_r. done.
Qed.

(** The body that [get_dst_file_info] returns is in normal form, and the
    hash it returns is the hash of that body. *)
Lemma dst_file_info_body dstfile raw marker_hash dst_hash dstdata :
  dst_file_info dstfile raw = Ok (marker_hash, dst_hash, dstdata) ->
  dst_hash = string_hash dstdata /\ normalized dstdata = dstdata.
Proof.
  rewrite dst_file_info_cases.
  set (body_lines := drop 3 (PyStr.splitlines raw)).
  assert (Forall (fun l => no_linebreak l = true) body_lines) as Hlines
    by apply Forall_drop, splitlines_from_no_linebreak.
  clearbody body_lines.
  destruct (PyStr.splitlines raw) as [|l0 [|l1 ls]]; try done.
  destruct (negb _); [done|]. destruct (negb _); [done|].
  cbv zeta. intros H. apply Ok_inj in H. injection H as _ <- <-.
  split; [done|]. unfold normalized.
  destruct body_lines as [|l ls'].
  - reflexivity.
  - by rewrite splitlines_join.
Qed.

Lemma parent_not_prefix p : p <> [] -> ~ p `prefix_of` parent p.
Proof.
  intros Hne Hpre. apply prefix_length in Hpre.
  destruct (exists_last Hne) as (q & c & ->).
  unfold parent in Hpre. rewrite removelast_last in Hpre.
  rewrite length_app in Hpre. simpl in Hpre. lia.
Qed.

Lemma mkdir_from_other s done rest r s' q :
  mkdir_from done rest s = (r, s') ->
  ~ q `prefix_of` done ++ rest ->
  fs s' !! q = fs s !! q.
Proof.
  revert done s. induction rest as [|c rest IH]; intros done s.
  - cbn [mkdir_from]. munfold. rewrite app_nil_r.
    destruct (fs s !! done) as [[d|]|] eqn:Hdone; intros [= <- <-] Hq;
      try done.
    cbn [fs]. rewrite lookup_insert_ne; [done|]. by intros ->.
  - cbn [mkdir_from]. munfold. intros H Hq.
    assert (q <> done) as Hne.
    { intros ->. apply Hq. by apply prefix_app_r. }
    destruct (fs s !! done) as [[d|]|] eqn:Hdone.
    + by injection H as <- <-.
    + apply IH in H; [done|]. by rewrite <- app_assoc.
    + apply IH in H; [|by rewrite <- app_assoc].
      rewrite H. cbn [fs]. by rewrite lookup_insert_ne.
Qed.

(** A pair whose destination alone has changed, in PULL mode: the
    destination is noted and nothing is written. *)
Lemma sync_file_conflict src_proj changed s srcfile dstfile
    srcdata marker_hash dst_hash dstdata :
  pair_state (fs s) srcfile dstfile srcdata marker_hash dst_hash dstdata ->
  string_hash srcdata = marker_hash ->
  dst_hash <> marker_hash ->
  sync_file src_proj PULL changed (srcfile, dstfile) s
  = (Ok (changed ++ [dstfile]), after_reads s srcfile dstfile).
Proof.
  intros (raw & Hsrc & Hdst & Hdirs & Hinfo) Hsm Hdm.
  rewrite (sync_file_start _ _ _ _ _ _ _ _ Hsrc Hdst Hdirs) by done.
  unfold mbind at 1, M_bind at 1, lift at 1. rewrite Hinfo. cbv beta iota.
  rewrite (bool_decide_eq_false_2 (dst_hash = marker_hash)) by done.
  rewrite (bool_decide_eq_true_2 (string_hash srcdata = marker_hash))
    by done.
  rewrite (bool_decide_eq_true_2 (dst_hash ≠ marker_hash)) by done.
  rewrite andb_false_r. done.
Qed.

(** The list of noted destinations only grows. *)
Lemma sync_file_changed src_proj mode changed pair s changed' s' :
  sync_file src_proj mode changed pair s = (Ok changed', s') ->
  changed' = changed \/ changed' = changed ++ [pair.2].
Proof.
  destruct pair as [srcfile dstfile]. unfold sync_file. intros H.
  repeat
    match type of H with
    | (_ ≫= _) _ = _ =>
        apply bind_inv in H as [(? & ? & _ & H)|(? & _ & ?)]; [|discriminate]
    | (if ?b then _ else _) _ = _ => destruct b
    | (let '(_, _) := ?x in _) _ = _ => destruct x
    | mret _ _ = _ => injection H as <- <-
    | raise _ _ = _ => discriminate
    end; auto.
Qed.

Lemma foldM_sync_file_changed src_proj mode allpaths changed s changed' s' :
  foldM (sync_file src_proj mode) allpaths changed s = (Ok changed', s') ->
  changed `prefix_of` changed'.
Proof.
  revert changed s. induction allpaths as [|pair l IH]; intros changed s.
  - cbn [foldM]. by intros [= <- <-].
  - cbn [foldM]. intros H.
    apply bind_inv in H as [(ch1 & s1 & H1 & H)|(? & _ & ?)]; [|done].
    apply IH in H. apply sync_file_changed in H1 as [->| ->]; [done|].
    etrans; [|done]. by apply prefix_app_r.
Qed.

(** Pruning never fails. *)
Lemma foldM_ok {A B} (body : B -> A -> M B) l acc s :
  (forall acc a s, exists acc' s', body acc a s = (Ok acc', s')) ->
  exists acc' s', foldM body l acc s = (Ok acc', s').
Proof.
  intros Hbody. revert acc s. induction l as [|a l IH]; intros acc s.
  - by exists acc, s.
  - cbn [foldM]. destruct (Hbody acc a s) as (acc1 & s1 & H1).
    rewrite (bind_run _ _ _ _ _ H1). apply IH.
Qed.

Lemma prune_ok src dst mode s : exists s', prune src dst mode s = (Ok tt, s').
Proof.
  unfold prune, is_dir, os_walk, for_each. munfold.
  destruct (fs s !! dst) as [[?|]|]; cbn [negb]; try by eexists.
  match goal with |- context [foldM ?b ?l ?a ?s0] =>
    destruct (foldM_ok b l a s0) as (killpaths & s1 & ->) end.
  { intros acc [[root nm] kind] s0. unfold find_orphan.
    destruct (_ || _); [by eexists _, _|].
    unfold path_exists. munfold. destruct (negb _); by eexists _, _. }
  match goal with |- context [foldM ?b ?l ?a ?s0] =>
    destruct (foldM_ok b l a s0) as ([] & s2 & ->) end.
  { intros [] killpath s0. unfold kill, path_exists. munfold.
    destruct (bool_decide _); [|by eexists _, _].
    destruct (bool_decide _); unfold print, emit, rm_rf; munfold;
      by eexists _, _. }
  by eexists.
Qed.

End Pairs.

(** ** Checks by evaluation *)

(** The conditions on a file system that quantify over the paths above a
    path are checked at a concrete file system by evaluation. *)

Lemma dirs_above_check (f : gmap path node) (p : path) :
  forallb (fun k => bool_decide (f !! take k p = Some Dir))
    (seq 0 (S (length p))) = true ->
  dirs_above f p.
Proof.
  intros H q Hq. destruct (prefix_of_take _ _ Hq) as [k ->].
  rewrite forallb_forall in H.
  destruct (decide (k <= length p)%nat) as [Hk|Hk].
  - specialize (H k). rewrite bool_decide_eq_true in H. apply H.
    apply in_seq. lia.
  - rewrite take_ge by lia. specialize (H (length p)).
    rewrite bool_decide_eq_true, firstn_all in H. apply H.
    apply in_seq. lia.
Qed.


(** A property of the files of a concrete file system, checked file by
    file. *)
Lemma files_check (f : gmap path node) (P : path -> string -> Prop)
    (b : path -> string -> bool) :
  (forall p data, b p data = true -> P p data) ->
  forallb (fun kv : path * node =>
             match kv.2 with File data => b kv.1 data | Dir => true end)
    (map_to_list f) = true ->
  forall p data, f !! p = Some (File data) -> P p data.
Proof.
  intros Hb H p data Hp. apply Hb. rewrite forallb_forall in H.
  apply (H (p, File data)).
  by apply list_elem_of_In, elem_of_map_to_list.
Qed.

(** ** Running sync twice *)

Section Silent.

Lemma silent_refl s : silent s s.
Proof. split; [done|]. exists []. by rewrite app_nil_r. Qed.

Lemma silent_trans s1 s2 s3 : silent s1 s2 -> silent s2 s3 -> silent s1 s3.
Proof.
  intros [Hf1 (e1 & Ht1 & He1)] [Hf2 (e2 & Ht2 & He2)]. split; [congruence|].
  exists (e1 ++ e2). rewrite Ht2, Ht1, app_assoc. split; [done|].
  by apply Forall_app.
Qed.

Lemma silent_events s evs :
  Forall quiet_event evs -> silent s (State (fs s) (trace s ++ evs)).
Proof. intros H. split; [done|]. by exists evs. Qed.

Lemma foldM_silent {A B} (body : B -> A -> M B) f l acc s r s' :
  (forall acc a s r s',
     a ∈ l -> fs s = f -> body acc a s = (r, s') -> silent s s') ->
  fs s = f ->
  foldM body l acc s = (r, s') -> silent s s'.
Proof.
  revert acc s. induction l as [|a l IH]; intros acc s Hbody Hf.
  - cbn [foldM]. intros [= <- <-]. apply silent_refl.
  - cbn [foldM]. intros H.
    apply bind_inv in H as [(acc1 & s1 & H1 & H)|(e & H1 & ->)].
    + assert (silent s s1) as Hs1 by (eapply Hbody; [by left|done..]).
      eapply silent_trans; [done|].
      eapply IH; [|by rewrite (proj1 Hs1)|done].
      intros ????? Hin. apply Hbody. by right.
    + eapply Hbody; [by left|done..].
Qed.

End Silent.

Ltac silent_now :=
  split; [done|]; cbn [trace]; rewrite <- ?app_assoc;
  eexists; split; [done|]; repeat constructor.

Section Inversion.

Implicit Types (st : state) (p q s d : path) (mode : Mode).

Lemma pull_inv src_proj d data st u st' :
  pull src_proj d data st = (Ok u, st') ->
  exists enc,
    add_marker src_proj data = Ok enc
    /\ fs st !! parent d = Some Dir
    /\ fs st !! d <> Some Dir
    /\ st' = State (<[d := File enc]> (fs st))
               (trace st ++ [EvOpenW d; EvWrite d enc]).
Proof.
  unfold pull, write_file, open_w, write, put, emit, lift. munfold.
  destruct (fs st !! parent d) as [[?|]|]; try done.
  destruct (add_marker src_proj data) as [enc|e] eqn:Hadd;
    destruct (fs st !! d) as [[?|]|] eqn:Hd; try done;
    cbn [fs trace]; intros [= <- <-]; exists enc;
    by rewrite insert_insert_eq, <- app_assoc.
Qed.

Lemma write_file_ret_inv p data st u st' :
  write_file p (mret data) st = (Ok u, st') ->
  fs st !! parent p = Some Dir
  /\ fs st !! p <> Some Dir
  /\ st' = State (<[p := File data]> (fs st))
             (trace st ++ [EvOpenW p; EvWrite p data]).
Proof.
  unfold write_file, open_w, write, put, emit. munfold.
  destruct (fs st !! parent p) as [[?|]|]; try done.
  destruct (fs st !! p) as [[?|]|] eqn:Hd; try done;
    cbn [fs trace]; intros [= <- <-];
    by rewrite insert_insert_eq, <- app_assoc.
Qed.

Lemma mkdir_from_ok_inv st done rest u st1 :
  mkdir_from done rest st = (Ok u, st1) ->
  forall k, fs st1 !! (done ++ take k rest) = Some Dir.
Proof.
  revert done st. induction rest as [|c rest IH]; intros done st.
  - cbn [mkdir_from]. munfold.
    destruct (fs st !! done) as [[d|]|] eqn:Hdone; intros [= <- <-] k;
      rewrite take_nil, app_nil_r; [done|].
    cbn [fs]. by rewrite lookup_insert_eq.
  - cbn [mkdir_from]. munfold. intros H.
    assert (exists st0, fs st0 !! done = Some Dir
              /\ mkdir_from (done ++ [c]) rest st0 = (Ok u, st1))
      as (st0 & Hd & Hrest).
    { destruct (fs st !! done) as [[d|]|] eqn:Hdone; [done| |].
      - by exists st.
      - eexists. split; [|exact H]. cbn [fs]. by rewrite lookup_insert_eq. }
    intros [|k].
    + rewrite take_0, app_nil_r.
      apply mkdir_from_extends in Hrest as (H1 & _). by apply H1.
    + specialize (IH _ _ Hrest k). by rewrite <- app_assoc in IH.
Qed.

Lemma mkdir_parents_ok_inv st p u st1 :
  mkdir_parents p st = (Ok u, st1) -> dirs_above (fs st1) p.
Proof.
  intros H q [k ->]%prefix_of_take.
  apply (mkdir_from_ok_inv _ _ _ _ _ H k).
Qed.

(** What a pass that succeeds has done. *)
Lemma sync_file_ok src_proj mode changed s d st changed' st' :
  mode <> FORCE ->
  sync_file src_proj mode changed (s, d) st = (Ok changed', st') ->
  exists srcdata st1,
    fs st !! s = Some (File srcdata)
    /\ mkdir_parents (parent d) st = (Ok tt, st1)
    /\ ((fs st' = fs st1
         /\ (mode = LIST
             \/ exists raw marker_hash dst_hash dstdata,
                  fs st1 !! d = Some (File raw)
                  /\ dst_file_info d raw = Ok (marker_hash, dst_hash, dstdata)
                  /\ string_hash srcdata = marker_hash
                  /\ (dst_hash = marker_hash \/ mode <> FULL)))
        \/ (mode <> LIST
            /\ exists enc,
                 add_marker src_proj srcdata = Ok enc
                 /\ fs st1 !! d <> Some Dir
                 /\ fs st' = <[d := File enc]> (fs st1))
        \/ (mode = FULL
            /\ exists raw marker_hash dst_hash dstdata enc,
                 fs st1 !! d = Some (File raw)
                 /\ dst_file_info d raw = Ok (marker_hash, dst_hash, dstdata)
                 /\ add_marker src_proj dstdata = Ok enc
                 /\ fs st' = <[d := File enc]> (<[s := File dstdata]> (fs st1)))).
Proof.
  intros Hmode H. unfold sync_file in H.
  rewrite (bind_run _ _ _ _ _ (is_file_run _ _)) in H.
  destruct (fs st !! s) as [[srcdata|]|] eqn:Hs; cbn [negb] in H; try done.
  apply bind_inv in H as [([] & st1 & Hmk & H)|(? & _ & ?)]; [|done].
  exists srcdata, st1. split; [done|]. split; [done|].
  pose proof (mkdir_from_extends _ _ _ _ _ Hmk) as (Hext & _ & _).
  pose proof (mkdir_parents_ok_inv _ _ _ _ Hmk) as Hdirs.
  rewrite (bind_run _ _ _ _ _ (read_file_run _ _ _ (Hext _ _ Hs))) in H.
  rewrite (bind_run _ _ _ _ _ (is_file_run _ _)) in H. cbn [fs] in H.
  rewrite (bool_decide_eq_false_2 _ Hmode), orb_false_r in H.
  destruct (fs st1 !! d) as [[raw|]|] eqn:Hd; cbn [negb] in H.
  - (* the destination is a file *)
    apply bind_inv in H as [(info & st2 & Hinfo & H)|(? & _ & ?)]; [|done].
    rewrite (get_dst_file_info_run _ _ raw) in Hinfo by done.
    injection Hinfo as Hinfo <-. destruct info as [[marker_hash dst_hash] dstdata].
    repeat (case_bool_decide; cbn [andb] in H).
    all: repeat
      match goal with
      | Hb : (_ ≫= _) _ = (Ok _, _) |- _ =>
          apply bind_inv in Hb as [(? & ? & ? & Hb)|(? & _ & ?)];
          [|discriminate]
      | Hb : mret _ _ = _ |- _ => injection Hb as <- <-
      | Hb : raise _ _ = _ |- _ => discriminate
      end.
    all: repeat
      match goal with
      | Hp : print _ _ = _ |- _ =>
          unfold print, emit in Hp; injection Hp as <- <-
      | Hp : pull _ _ _ _ = _ |- _ =>
          apply pull_inv in Hp as (? & ? & _ & ? & ->)
      | Hp : write_file _ (mret _) _ = _ |- _ =>
          apply write_file_ret_inv in Hp as (_ & _ & ->)
      end; cbn [fs].
    all: try (left; split; [done|]; first [by left | right; by eauto 10]).
    all: try (right; left; split; [done|]; by eauto 10).
    all: try (right; right; split; [done|]; by eauto 10).
  - (* the destination is a directory *)
    case_bool_decide.
    + apply bind_inv in H as [(? & ? & Hp & H)|(? & _ & ?)]; [|done].
      unfold print, emit in Hp. injection Hp as <- <-. injection H as <- <-.
      left. split; [done|]. by left.
    + apply bind_inv in H as [(? & ? & Hp & H)|(? & _ & ?)]; [|done].
      apply bind_inv in Hp as [(? & ? & Hp & Hq)|(? & _ & ?)]; [|done].
      unfold print, emit in Hp. injection Hp as <- <-.
      apply pull_inv in Hq as (? & ? & _ & Hnd & ->). cbn [fs] in Hnd. done.
  - (* there is no destination *)
    case_bool_decide.
    + apply bind_inv in H as [(? & ? & Hp & H)|(? & _ & ?)]; [|done].
      unfold print, emit in Hp. injection Hp as <- <-. injection H as <- <-.
      left. split; [done|]. by left.
    + apply bind_inv in H as [(? & ? & Hp & H)|(? & _ & ?)]; [|done].
      apply bind_inv in Hp as [(? & ? & Hp & Hq)|(? & _ & ?)]; [|done].
      unfold print, emit in Hp. injection Hp as <- <-.
      apply pull_inv in Hq as (enc & ? & _ & _ & ->). cbn [fs trace].
      injection H as <- <-. cbn [fs].
      right. left. split; [done|]. by exists enc.
Qed.

End Inversion.

Section Settled.

Implicit Types (st : state) (p q s d : path) (mode : Mode)
  (f : gmap path node).

#[local] Arguments String.append !_ _ / : simpl nomatch.

Lemma lf_text_join ls :
  Forall (fun l => no_linebreak l = true) ls ->
  lf_text (PyStr.join LF ls +:+ LF) = true.
Proof.
  intros Hls. unfold lf_text. apply andb_true_iff. split.
  - apply endswith_spec. by eexists.
  - rewrite all_chars_app, andb_true_iff. split; [|done].
    induction Hls as [|l ls Hl Hls IH]; [done|].
    assert (all_chars
              (fun c => negb (PyStr.is_linebreak c) || Ascii.eqb c "010") l
            = true) as Hl'.
    { revert Hl. apply all_chars_impl. by intros c ->. }
    destruct ls as [|l' ls]; [done|].
    change (PyStr.join LF (l :: l' :: ls))
      with (l +:+ LF +:+ PyStr.join LF (l' :: ls)).
    by rewrite !all_chars_app, Hl', IH.
Qed.

(** The body that [get_dst_file_info] returns ends every line with a line
    feed. *)
Lemma dst_file_info_lf_text d raw marker_hash dst_hash dstdata :
  dst_file_info d raw = Ok (marker_hash, dst_hash, dstdata) ->
  lf_text dstdata = true.
Proof.
  rewrite dst_file_info_cases.
  set (body_lines := drop 3 (PyStr.splitlines raw)).
  assert (Forall (fun l => no_linebreak l = true) body_lines) as Hlines
    by apply Forall_drop, splitlines_from_no_linebreak.
  clearbody body_lines.
  destruct (PyStr.splitlines raw) as [|l0 [|l1 ls]]; try done.
  destruct (negb _); [done|]. destruct (negb _); [done|].
  cbv zeta. intros H. apply Ok_inj in H. injection H as _ _ <-.
  by apply lf_text_join.
Qed.

Lemma parent_prefix p : parent p `prefix_of` p.
Proof.
  destruct (decide (p = [])) as [->|Hne]; [done|].
  exists [name p]. by apply app_removelast_last.
Qed.

Lemma settled_preserved mode f f' pair :
  settled mode f pair ->
  (forall p n, f !! p = Some n -> p = pair.1 \/ p `prefix_of` pair.2 ->
     f' !! p = Some n) ->
  settled mode f' pair.
Proof.
  intros (srcdata & Hs & Hdirs & Hcase) Hkeep. exists srcdata.
  split; [eauto|]. split.
  - intros q Hq. eapply Hkeep; [by apply Hdirs|]. right.
    etrans; [done|]. apply parent_prefix.
  - destruct Hcase as [?|(raw & mh & dh & body & ? & ?)]; [by left|].
    right. exists raw, mh, dh, body. split; [|done]. eapply Hkeep; eauto.
Qed.

(** A pass that succeeds leaves its pair settled. *)
Lemma sync_file_settles src_proj mode changed s d st changed' st' :
  mode <> FORCE -> s <> d -> d <> [] ->
  no_linebreak src_proj = true ->
  (mode = FULL -> forall srcdata,
     fs st !! s = Some (File srcdata) -> lf_text srcdata = true) ->
  sync_file src_proj mode changed (s, d) st = (Ok changed', st') ->
  settled mode (fs st') (s, d).
Proof.
  intros Hmode Hsd Hd Hproj Hlf H.
  apply sync_file_ok in H as (srcdata & st1 & Hs & Hmk & Hcases); [|done].
  pose proof (mkdir_from_extends _ _ _ _ _ Hmk) as (Hext & _ & _).
  pose proof (mkdir_parents_ok_inv _ _ _ _ Hmk) as Hdirs.
  pose proof (parent_not_prefix _ Hd) as Hnp.
  destruct Hcases as [[Hfs Hc]|[(Hl & enc & Hadd & Hnd & Hfs)
                     |(-> & raw & mh & dh & body & enc & Hraw & Hinfo & Hadd & Hfs)]].
  - exists srcdata. cbn [fst snd]. rewrite Hfs. auto.
  - exists srcdata. cbn [fst snd]. rewrite Hfs. split_and!.
    + rewrite lookup_insert_ne by done. auto.
    + intros q Hq. rewrite lookup_insert_ne; [by apply Hdirs|].
      by intros <-.
    + right. exists enc. eexists _, _, _. split; [by rewrite lookup_insert_eq|].
      split; [by eapply (dst_file_info_add_marker src_proj srcdata)|].
      split; [done|].
      destruct (decide (mode = FULL)) as [HF|HF]; [left|by right].
      by rewrite normalized_lf_text by eauto.
  - exists body. cbn [fst snd]. rewrite Hfs.
    pose proof (dst_file_info_body _ _ _ _ _ Hinfo) as [_ Hnorm].
    split_and!.
    + rewrite lookup_insert_ne, lookup_insert_eq by done. done.
    + intros q Hq.
      rewrite lookup_insert_ne by (by intros <-).
      rewrite lookup_insert_ne; [by apply Hdirs|].
      intros <-. apply Hdirs in Hq. apply Hext in Hs. congruence.
    + right. exists enc. eexists _, _, _. split; [by rewrite lookup_insert_eq|].
      split; [by eapply (dst_file_info_add_marker src_proj body)|].
      split; [done|].
      left. by rewrite Hnorm.
Qed.

(** What a pass that succeeds may have touched. *)
Lemma sync_file_frame src_proj mode changed s d st changed' st' :
  mode <> FORCE ->
  sync_file src_proj mode changed (s, d) st = (Ok changed', st') ->
  (forall p n, p <> s -> p <> d -> fs st !! p = Some n ->
     fs st' !! p = Some n)
  /\ (forall p, fs st !! p = Some Dir -> fs st' !! p = Some Dir)
  /\ (forall p x, p <> d -> fs st' !! p = Some (File x) ->
        fs st !! p = Some (File x) \/ (p = s /\ lf_text x = true))
  /\ (exists y, fs st !! s = Some (File y)).
Proof.
  intros Hmode H.
  apply sync_file_ok in H as (srcdata & st1 & Hs & Hmk & Hcases); [|done].
  enough ((forall p n, p <> s -> p <> d -> fs st !! p = Some n ->
             fs st' !! p = Some n)
          /\ (forall p, fs st !! p = Some Dir -> fs st' !! p = Some Dir)
          /\ (forall p x, p <> d -> fs st' !! p = Some (File x) ->
                fs st !! p = Some (File x) \/ (p = s /\ lf_text x = true)))
    as (? & ? & ?) by (split_and!; eauto).
  pose proof (mkdir_from_extends _ _ _ _ _ Hmk) as (Hext & Hnew & _).
  assert (forall p x, fs st1 !! p = Some (File x) -> fs st !! p = Some (File x))
    as Hfiles.
  { intros p x Hp. by apply Hnew in Hp as [?|[_ ?]]. }
  destruct Hcases as [[Hfs Hc]|[(Hl & enc & Hadd & Hnd & Hfs)
                     |(-> & raw & mh & dh & body & enc & Hraw & Hinfo & Hadd & Hfs)]];
    rewrite Hfs; split_and!.
  - auto.
  - auto.
  - auto.
  - intros p n ? ? Hp. rewrite lookup_insert_ne by done. auto.
  - intros p Hp. apply Hext in Hp. rewrite lookup_insert_ne; [done|].
    intros <-. done.
  - intros p x Hpd. rewrite lookup_insert_ne by done. auto.
  - intros p n ? ? Hp. rewrite !lookup_insert_ne by done. auto.
  - intros p Hp. apply Hext in Hp. apply Hext in Hs.
    rewrite !lookup_insert_ne; [done| |]; intros <-; congruence.
  - intros p x Hpd. rewrite lookup_insert_ne by done.
    rewrite lookup_insert. case_decide as Hps.
    + intros [= <-]. right. split; [done|].
      by eapply dst_file_info_lf_text.
    + auto.
Qed.

(** A pass over a settled pair writes nothing, whatever its outcome. *)
Lemma settled_silent src_proj mode changed pair st r st' :
  mode <> FORCE ->
  settled mode (fs st) pair ->
  sync_file src_proj mode changed pair st = (r, st') ->
  silent st st'.
Proof.
  intros Hmode (srcdata & Hs & Hdirs & Hcase). destruct pair as [s d].
  cbn [fst snd] in *.
  destruct (fs st !! d) as [[raw|]|] eqn:Hd.
  - rewrite (sync_file_start _ _ _ _ _ _ _ _ Hs Hd Hdirs Hmode).
    unfold mbind at 1, M_bind at 1, lift at 1.
    destruct (dst_file_info d raw) as [[[mh dh] body]|e] eqn:Hinfo.
    2:{ intros [= <- <-]. silent_now. }
    cbv beta iota.
    destruct Hcase as [->|(raw' & mh' & dh' & body' & [= <-] & Hinfo' & Hsm & Hdm)].
    + rewrite (bool_decide_eq_true_2 (LIST = LIST)) by done.
      unfold print, emit, raise. munfold.
      repeat (case_bool_decide; cbn [andb]); intros [= <- <-]; silent_now.
    + rewrite Hinfo in Hinfo'. injection Hinfo' as <- <- <-.
      rewrite (bool_decide_eq_false_2 (string_hash srcdata ≠ mh))
        by (by intros ?).
      rewrite (bool_decide_eq_true_2 (string_hash srcdata = mh)) by done.
      rewrite (bool_decide_eq_false_2 (mh ≠ string_hash srcdata))
        by (by intros ?).
      cbn [andb]. unfold print, emit, raise. munfold.
      destruct Hdm as [Hdm|Hdm].
      * rewrite (bool_decide_eq_false_2 (dh ≠ mh)) by (by intros ?).
        rewrite (bool_decide_eq_true_2 (dh = mh)) by done.
        intros [= <- <-]. silent_now.
      * rewrite (bool_decide_eq_false_2 (mode = FULL)) by done.
        repeat (case_bool_decide; cbn [andb]); intros [= <- <-]; silent_now.
  - destruct Hcase as [->|(? & ? & ? & ? & ? & _)]; [|done].
    unfold sync_file.
    rewrite (bind_run _ _ _ _ _ (is_file_run _ _)), Hs. cbn [negb].
    rewrite (bind_run _ _ _ _ _ (mkdir_parents_noop _ _ Hdirs)).
    rewrite (bind_run _ _ _ _ _ (read_file_run _ _ _ Hs)).
    rewrite (bind_run _ _ _ _ _ (is_file_run _ _)). cbn [fs]. rewrite Hd.
    cbn [negb orb]. rewrite (bool_decide_eq_true_2 (LIST = LIST)) by done.
    unfold print, emit. munfold. intros [= <- <-]. silent_now.
  - destruct Hcase as [->|(? & ? & ? & ? & ? & _)]; [|done].
    unfold sync_file.
    rewrite (bind_run _ _ _ _ _ (is_file_run _ _)), Hs. cbn [negb].
    rewrite (bind_run _ _ _ _ _ (mkdir_parents_noop _ _ Hdirs)).
    rewrite (bind_run _ _ _ _ _ (read_file_run _ _ _ Hs)).
    rewrite (bind_run _ _ _ _ _ (is_file_run _ _)). cbn [fs]. rewrite Hd.
    cbn [negb orb]. rewrite (bool_decide_eq_true_2 (LIST = LIST)) by done.
    unfold print, emit. munfold. intros [= <- <-]. silent_now.
Qed.

End Settled.

(** *** The walk and the pairs it finds *)

Section Walk.

Implicit Types (st : state) (p q top src dst : path).

Lemma parent_name p : p <> [] -> parent p ++ [name p] = p.
Proof. intros Hne. symmetry. by apply app_removelast_last. Qed.

(** The walk reads the tree and leaves the state as it is; its entries are
    the entries of the file system strictly below [top]. *)
Lemma os_walk_inv top st r st' :
  os_walk top st = (r, st') ->
  st' = st
  /\ exists entries, r = Ok entries
     /\ forall root nm kind,
          (root, nm, kind) ∈ entries <->
          exists p, fs st !! p = Some kind /\ top `prefix_of` p /\ p <> top
                    /\ root = parent p /\ nm = name p.
Proof.
  unfold os_walk. intros [= <- <-]. split; [done|]. eexists. split; [done|].
  intros root nm kind. rewrite list_elem_of_omap. split.
  - intros ([p k] & Hin & Hf). apply elem_of_map_to_list in Hin.
    cbn [fst snd] in Hf. case_bool_decide as Hp; [|done].
    injection Hf as <- <- <-. exists p. by destruct Hp.
  - intros (p & Hp & Htop & Hne & -> & ->). exists (p, kind). split.
    + by apply elem_of_map_to_list.
    + cbn [fst snd]. by rewrite bool_decide_eq_true_2.
Qed.

Lemma walk_files_inv {A} (keep : path -> A) entries acc st r st' :
  foldM (walk_file keep) entries acc st = (r, st') ->
  st' = st
  /\ forall l, r = Ok l ->
       forall x, x ∈ l <->
         x ∈ acc
         \/ exists root fname data,
              (root, fname, File data) ∈ entries
              /\ _valid_filename fname = Ok true
              /\ x = keep (root ++ [fname]).
Proof.
  revert acc st. induction entries as [|[[root fname] kind] entries IH];
    intros acc st.
  - cbn [foldM]. intros [= <- <-]. split; [done|]. intros l [= <-] x.
    split; [by left|]. intros [?|(? & ? & ? & Hin & _)]; [done|].
    by apply elem_of_nil in Hin.
  - cbn [foldM]. intros H.
    assert (forall acc1,
              foldM (walk_file keep) entries acc1 st = (r, st') ->
              (forall x, x ∈ acc1 <->
                 x ∈ acc \/ (exists data, kind = File data
                             /\ _valid_filename fname = Ok true
                             /\ x = keep (root ++ [fname]))) ->
              st' = st
              /\ forall l, r = Ok l ->
                   forall x, x ∈ l <->
                     x ∈ acc
                     \/ exists root' fname' data,
                          (root', fname', File data)
                            ∈ (root, fname, kind) :: entries
                          /\ _valid_filename fname' = Ok true
                          /\ x = keep (root' ++ [fname'])) as Hstep.
    { intros acc1 Hrest Hacc1. apply IH in Hrest as [-> Hl].
      split; [done|]. intros l Hr x. rewrite (Hl l Hr), Hacc1.
      setoid_rewrite elem_of_cons. split.
      - intros [[?|(data & -> & ? & ?)]|(r' & f' & data & ? & ?)]; eauto 10.
      - intros [?|(r' & f' & data & [[= -> -> <-]|?] & ? & ?)]; eauto 10. }
    apply bind_inv in H as [(acc1 & st1 & H1 & H)|(e & H1 & ->)].
    + unfold walk_file, lift in H1. destruct kind as [data|].
      * revert H1. munfold.
        destruct (_valid_filename fname) as [[|]|e] eqn:Hv; [| |done];
          intros [= <- <-]; apply (Hstep _ H); intros x.
        -- rewrite elem_of_app, list_elem_of_singleton. split.
           ++ intros [?|?]; eauto 10.
           ++ intros [?|(? & _ & _ & ?)]; eauto.
        -- split; [by left|].
           intros [?|(? & _ & ? & _)]; [done|congruence].
      * injection H1 as <- <-. apply (Hstep _ H). intros x.
        split; [by left|]. intros [?|(? & ? & _)]; done.
    + unfold walk_file, lift in H1. destruct kind as [data|]; [|done].
      revert H1. munfold.
      destruct (_valid_filename fname) as [[|]|e']; try done.
      intros [= <- <-]. split; [done|]. by intros l.
Qed.

Lemma valid_files_inv {A} top (keep : path -> A) st r st' :
  valid_files top keep st = (r, st') ->
  st' = st
  /\ forall l, r = Ok l ->
       forall x, x ∈ l <->
         exists p data,
           fs st !! p = Some (File data) /\ top `prefix_of` p /\ p <> top
           /\ _valid_filename (name p) = Ok true /\ x = keep p.
Proof.
  unfold valid_files. intros H.
  apply bind_inv in H as [(entries & st1 & Hw & H)|(e & Hw & ->)].
  - apply os_walk_inv in Hw as (-> & entries' & [= <-] & Hentries).
    apply walk_files_inv in H as [-> Hl]. split; [done|].
    intros l Hr x. rewrite (Hl l Hr). split.
    + intros [Hx|(root & fname & data & Hin & Hv & ->)];
        [by apply elem_of_nil in Hx|].
      apply Hentries in Hin as (p & Hp & Htop & Hne & -> & ->).
      exists p, data. rewrite parent_name; [done|].
      intros ->. apply prefix_nil_inv in Htop. done.
    + intros (p & data & Hp & Htop & Hne & Hv & ->). right.
      exists (parent p), (name p), data. split; [|split; [done|]].
      * apply Hentries. by exists p.
      * rewrite parent_name; [done|].
        intros ->. apply prefix_nil_inv in Htop. done.
  - apply os_walk_inv in Hw as (_ & ? & ? & _). done.
Qed.

Lemma collect_paths_inv src dst st r st' :
  collect_paths src dst st = (r, st') ->
  st' = st
  /\ forall l, r = Ok l ->
       (exists data, fs st !! src = Some (File data) /\ l = [(src, dst)])
       \/ (fs st !! src = Some Dir
           /\ forall x, x ∈ l <->
                exists p data,
                  fs st !! p = Some (File data) /\ src `prefix_of` p
                  /\ p <> src /\ _valid_filename (name p) = Ok true
                  /\ x = (p, dst ++ relative_to p src)).
Proof.
  unfold collect_paths, is_dir, is_file, raise, lift. munfold.
  destruct (fs st !! src) as [[data|]|] eqn:Hsrc; cbn [negb orb].
  - destruct (_valid_filename (name src)) as [[|]|e]; cbn [negb];
      intros [= <- <-]; (split; [done|]); intros l [= <-].
    left. by exists data.
  - intros H. apply valid_files_inv in H as [-> Hl]. split; [done|].
    intros l Hr. right. split; [done|]. apply (Hl l Hr).
  - intros [= <- <-]. split; [done|]. by intros l.
Qed.

End Walk.

(** *** Pruning *)

Section Prune.

Implicit Types (st : state) (p q k src dst : path) (mode : Mode).

Lemma find_orphans_inv src dst entries acc st r st' :
  foldM (find_orphan src dst) entries acc st = (r, st') ->
  st' = st
  /\ exists l, r = Ok l
     /\ forall k, k ∈ l <->
          k ∈ acc
          \/ exists root nm kind,
               (root, nm, kind) ∈ entries /\ k = root ++ [nm]
               /\ (PyStr.startswith nm "."
                   || PyStr.contains "__pycache__" (path_str root)
                   || PyStr.contains "__pycache__" nm) = false
               /\ fs st !! (src ++ relative_to k dst) = None.
Proof.
  revert acc st. induction entries as [|[[root nm] kind] entries IH];
    intros acc st.
  - cbn [foldM]. intros [= <- <-]. split; [done|]. exists acc.
    split; [done|]. intros k. split; [by left|].
    intros [?|(? & ? & ? & Hin & _)]; [done|]. by apply elem_of_nil in Hin.
  - cbn [foldM]. intros H.
    apply bind_inv in H as [(acc1 & st1 & H1 & H)|(e & H1 & ->)].
    + assert (st1 = st
              /\ forall k, k ∈ acc1 <->
                   k ∈ acc
                   \/ (k = root ++ [nm]
                       /\ (PyStr.startswith nm "."
                           || PyStr.contains "__pycache__" (path_str root)
                           || PyStr.contains "__pycache__" nm) = false
                       /\ fs st !! (src ++ relative_to k dst) = None))
        as [-> Hacc1].
      { unfold find_orphan, path_exists in H1. revert H1. munfold.
        destruct (_ || _) eqn:Hc.
        - intros [= <- <-]. split; [done|]. intros k. split; [by left|].
          by intros [?|(_ & ? & _)].
        - case_bool_decide as Hex; cbn [negb]; intros [= <- <-];
            (split; [done|]); intros k.
          + split; [by left|]. intros [?|(-> & _ & Hn)]; [done|].
            rewrite Hn in Hex. by destruct Hex.
          + rewrite elem_of_app, list_elem_of_singleton. split.
            * intros [? | ->]; [by left|]. right. split_and!; [done..|].
              by apply eq_None_not_Some.
            * intros [?|(-> & _)]; auto. }
      apply IH in H as (-> & l & -> & Hl). split; [done|]. exists l.
      split; [done|]. intros k. rewrite Hl, Hacc1.
      setoid_rewrite elem_of_cons. split.
      * intros [[?|(-> & ? & ?)]|(r' & n' & k' & ? & ?)]; eauto 10.
      * intros [?|(r' & n' & k' & [[= -> -> ->]|?] & -> & ? & ?)]; eauto 10.
    + unfold find_orphan, path_exists in H1. revert H1. munfold.
      destruct (_ || _); [done|]. by destruct (negb _).
Qed.

(** The shell takes the path of every orphan as it is. *)
Lemma kill_inv mode k st r st' :
  kill mode k st = (r, st') ->
  mode = LIST \/ shell_safe k = true ->
  r = Ok tt
  /\ (forall q n, fs st' !! q = Some n -> fs st !! q = Some n)
  /\ (forall q n, fs st !! q = Some n -> ~ k `prefix_of` q ->
        fs st' !! q = Some n)
  /\ (mode <> LIST -> fs st' !! k = None)
  /\ (mode = LIST -> silent st st').
Proof.
  unfold kill, path_exists, print, emit, rm_rf. munfold.
  intros H Hsafe. revert H. case_bool_decide as Hex.
  - case_bool_decide as Hl; intros [= <- <-]; cbn [fs].
    + split_and!; try done. intros _. silent_now.
    + destruct Hsafe as [? | ->]; [done|]. split_and!; try done.
      * intros q n Hq. by apply map_lookup_filter_Some in Hq as [? _].
      * intros q n Hq Hk. by apply map_lookup_filter_Some.
      * intros _. apply map_lookup_filter_None. right. intros x _ Hk.
        by apply Hk.
  - intros [= <- <-]. split_and!; try done.
    + intros _. by apply eq_None_not_Some.
    + intros _. apply silent_refl.
Qed.

Lemma kill_loop_inv mode killpaths st r st' :
  for_each killpaths (kill mode) st = (r, st') ->
  mode = LIST \/ (forall k, k ∈ killpaths -> shell_safe k = true) ->
  r = Ok tt
  /\ (forall q n, fs st' !! q = Some n -> fs st !! q = Some n)
  /\ (forall q n, fs st !! q = Some n ->
        (forall k, k ∈ killpaths -> ~ k `prefix_of` q) ->
        fs st' !! q = Some n)
  /\ (mode <> LIST -> forall k, k ∈ killpaths -> fs st' !! k = None)
  /\ (mode = LIST -> silent st st').
Proof.
  unfold for_each. revert st.
  induction killpaths as [|k killpaths IH]; intros st.
  - cbn [foldM]. intros [= <- <-] _. split_and!; try done.
    + intros _ k Hk. by apply elem_of_nil in Hk.
    + intros _. apply silent_refl.
  - cbn [foldM]. intros H Hsafe.
    assert (mode = LIST \/ shell_safe k = true) as Hsafe1.
    { destruct Hsafe as [?|Hsafe]; [by left|]. right. apply Hsafe. by left. }
    assert (mode = LIST
            \/ (forall k', k' ∈ killpaths -> shell_safe k' = true)) as Hsafe2.
    { destruct Hsafe as [?|Hsafe]; [by left|]. right. intros k' Hk'.
      apply Hsafe. by right. }
    apply bind_inv in H as [([] & st1 & H1 & H)|(e & H1 & ->)].
    + apply kill_inv in H1 as (_ & Hsub1 & Hkeep1 & Hgone1 & Hsil1); [|done].
      apply IH in H as (-> & Hsub & Hkeep & Hgone & Hsil); [|done].
      split_and!; [done|..].
      * eauto.
      * intros q n Hq Hk. apply Hkeep.
        -- apply Hkeep1; [done|]. apply Hk. by left.
        -- intros k' Hk'. apply Hk. by right.
      * intros Hl k' [->|Hk']%elem_of_cons; [|by apply Hgone].
        specialize (Hgone1 Hl).
        destruct (fs st' !! k) eqn:Hk; [|done].
        apply Hsub in Hk. congruence.
      * intros Hl. eapply silent_trans; eauto.
    + apply kill_inv in H1 as (? & _); done.
Qed.

(** The paths to go are the orphans. *)
Lemma prune_killpaths src dst st (entries : list (path * string * node))
    (killpaths : list path) :
  (forall root nm kind,
     (root, nm, kind) ∈ entries <->
     exists p, fs st !! p = Some kind /\ dst `prefix_of` p /\ p <> dst
               /\ root = parent p /\ nm = name p) ->
  (forall k, k ∈ killpaths <->
     k ∈ []
     \/ exists root nm kind,
          (root, nm, kind) ∈ entries /\ k = root ++ [nm]
          /\ (PyStr.startswith nm "."
              || PyStr.contains "__pycache__" (path_str root)
              || PyStr.contains "__pycache__" nm) = false
          /\ fs st !! (src ++ relative_to k dst) = None) ->
  forall k, k ∈ killpaths <-> orphan src dst (fs st) k.
Proof.
  intros Hentries Hkill k. rewrite Hkill. unfold orphan, prunable. split.
  - intros [Hk|(root & nm & kind & Hin & -> & Hc & Hn)];
      [by apply elem_of_nil in Hk|].
    apply Hentries in Hin as (p & Hp & Htop & Hne & -> & ->).
    assert (p <> []) as Hp0
      by (intros ->; by apply prefix_nil_inv in Htop).
    rewrite parent_name in * by done.
    split_and!; try done. by rewrite Hc.
  - intros ([kind Hk] & Htop & Hne & Hc & Hn). right.
    assert (k <> []) as Hp0
      by (intros ->; by apply prefix_nil_inv in Htop).
    exists (parent k), (name k), kind. rewrite parent_name by done.
    split_and!; try done.
    + apply Hentries. by exists k.
    + by apply negb_true_iff in Hc.
Qed.

Lemma prune_inv src dst mode st r st' :
  prune src dst mode st = (r, st') ->
  mode = LIST \/ (forall k, orphan src dst (fs st) k -> shell_safe k = true) ->
  (forall q n, fs st' !! q = Some n -> fs st !! q = Some n)
  /\ (forall q n, fs st !! q = Some n ->
        (forall k, orphan src dst (fs st) k -> ~ k `prefix_of` q) ->
        fs st' !! q = Some n)
  /\ (mode <> LIST -> fs st !! dst = Some Dir ->
        forall k, orphan src dst (fs st) k -> fs st' !! k = None)
  /\ (mode = LIST -> silent st st')
  /\ ((forall k, ~ orphan src dst (fs st) k) -> silent st st')
  /\ (fs st !! dst <> Some Dir -> silent st st').
Proof.
  unfold prune. intros H Hsafe.
  apply bind_inv in H as [(b & st0 & Hd & H)|(e & Hd & ->)]; [|done].
  unfold is_dir in Hd. injection Hd as <- <-.
  destruct (fs st !! dst) as [[?|]|] eqn:Hdst; cbn [negb] in H;
    try (injection H as <- <-; split_and!; try done; intros;
         apply silent_refl).
  apply bind_inv in H as [(entries & st1 & Hw & H)|(e & Hw & ->)];
    [|by apply os_walk_inv in Hw as (_ & ? & ? & _)].
  apply os_walk_inv in Hw as (-> & ? & [= <-] & Hentries).
  apply bind_inv in H as [(killpaths & st1 & Hk & H)|(e & Hk & ->)];
    [|by apply find_orphans_inv in Hk as (_ & ? & ? & _)].
  apply find_orphans_inv in Hk as (-> & ? & [= <-] & Hkill).
  pose proof (prune_killpaths _ _ _ _ _ Hentries Hkill) as Horphan.
  pose proof H as Hloop.
  apply kill_loop_inv in H as (-> & Hsub & Hkeep & Hgone & Hsil).
  2:{ destruct Hsafe as [?|Hsafe]; [by left|]. right. intros k Hk.
      by apply Hsafe, Horphan. }
  split_and!; try done.
  - intros q n Hq Hno. apply Hkeep; [done|]. intros k Hk.
    by apply Hno, Horphan.
  - intros Hl _ k Hk. by apply Hgone, Horphan.
  - intros Hnone. destruct killpaths as [|k ?].
    + injection Hloop as <-. apply silent_refl.
    + destruct (Hnone k). apply Horphan. by left.
Qed.

(** With safe names every orphan reaches [rm] as the path it is. *)
Lemma safe_names_orphan src dst (f : gmap path node) k :
  safe_names f -> orphan src dst f k -> shell_safe k = true.
Proof.
  intros Hsafe ([n Hk] & Hpre & Hne & _). unfold shell_safe.
  rewrite (Hsafe _ _ Hk), andb_true_r. apply negb_true_iff.
  apply bool_decide_eq_false. intros ->. by apply prefix_nil_inv in Hpre.
Qed.

Lemma prune_safe src dst mode st :
  safe_names (fs st) ->
  mode = LIST \/ (forall k, orphan src dst (fs st) k -> shell_safe k = true).
Proof. intros Hsafe. right. intros k. by apply safe_names_orphan. Qed.

(** Pruning leaves safe names safe. *)
Lemma prune_safe_names src dst mode st r st' :
  prune src dst mode st = (r, st') ->
  safe_names (fs st) -> safe_names (fs st').
Proof.
  intros H Hsafe p n Hp.
  apply prune_inv in H as (Hsub & _); [|by apply prune_safe].
  eapply Hsafe. by apply Hsub.
Qed.

End Prune.

(** *** The exceptions of the loop *)

Section Raise.

Implicit Types (st : state) (p q s d : path) (mode : Mode).

Lemma mkdir_from_raise done rest st e st' :
  mkdir_from done rest st = (Raise e, st') -> not_aggregate e.
Proof.
  revert done st. induction rest as [|c rest IH]; intros done st;
    cbn [mkdir_from]; munfold.
  - destruct (fs st !! done) as [[?|]|]; by intros [= <- <-].
  - destruct (fs st !! done) as [[?|]|]; [by intros [= <- <-]|..]; apply IH.
Qed.

Lemma read_file_raise p st e st' :
  read_file p st = (Raise e, st') -> not_aggregate e.
Proof.
  unfold read_file. destruct (fs st !! p) as [[?|]|]; by intros [= <- <-].
Qed.

Lemma print_raise r st e st' : print r st = (Raise e, st') -> False.
Proof. done. Qed.

Lemma dst_file_info_raise d raw e :
  dst_file_info d raw = Raise e -> not_aggregate e.
Proof.
  rewrite dst_file_info_cases.
  destruct (PyStr.splitlines raw) as [|l0 [|l1 ls]]; [by intros [= <-]..|].
  destruct (negb _); [by intros [= <-]|].
  destruct (negb _); [by intros [= <-]|done].
Qed.

Lemma get_dst_file_info_raise d st e st' :
  get_dst_file_info d st = (Raise e, st') -> not_aggregate e.
Proof.
  unfold get_dst_file_info. intros H.
  apply bind_inv in H as [(raw & st1 & _ & H)|(e' & H & [= ->])].
  - unfold lift in H. injection H as H _. by eapply dst_file_info_raise.
  - by eapply read_file_raise.
Qed.

Lemma add_marker_raise src_proj data e :
  add_marker src_proj data = Raise e -> not_aggregate e.
Proof. unfold add_marker. destruct (_ && _); by intros [= <-]. Qed.

Lemma write_file_raise p (data : M string) st e st' :
  (forall st e st', data st = (Raise e, st') -> not_aggregate e) ->
  write_file p data st = (Raise e, st') -> not_aggregate e.
Proof.
  intros Hdata. unfold write_file. intros H.
  apply bind_inv in H as [([] & st1 & _ & H)|(e' & H & [= ->])].
  - apply bind_inv in H as [(dat & st2 & _ & H)|(e' & H & [= ->])];
      [done|by eapply Hdata].
  - revert H. unfold open_w.
    destruct (fs st !! parent p) as [[?|]|]; try by intros [= <- <-].
    destruct (fs st !! p) as [[?|]|]; by intros [= <- <-].
Qed.

Lemma pull_raise src_proj d data st e st' :
  pull src_proj d data st = (Raise e, st') -> not_aggregate e.
Proof.
  apply write_file_raise. intros st0 e0 st0' [= H _].
  by eapply add_marker_raise.
Qed.

Lemma not_aggregate_other e : 
  match e with RuntimeError (DstFilesChanged _) => False | _ => True end ->
  not_aggregate e.
Proof. intros H l ->. done. Qed.

(** The pass over a pair never raises the exception of line 229. *)
Lemma sync_file_raise src_proj mode changed pair st e st' :
  sync_file src_proj mode changed pair st = (Raise e, st') ->
  not_aggregate e.
Proof.
  destruct pair as [s d]. unfold sync_file. intros H.
  repeat
    match goal with
    | Hb : (_ ≫= _) _ = (Raise _, _) |- _ =>
        apply bind_inv in Hb as [(? & ? & _ & Hb)|(? & Hb & [= ->])]
    | Hb : (if ?b then _ else _) _ = _ |- _ => destruct b
    | Hb : (let '(_, _) := ?x in _) _ = _ |- _ => destruct x
    | Hb : mret _ _ = (Raise _, _) |- _ => discriminate Hb
    | Hb : is_file _ _ = (Raise _, _) |- _ => discriminate Hb
    | Hb : print _ _ = (Raise _, _) |- _ => discriminate Hb
    | Hb : raise _ _ = (Raise _, _) |- _ =>
        injection Hb as <- <-; by apply not_aggregate_other
    | Hb : mkdir_parents _ _ = _ |- _ => by eapply mkdir_from_raise
    | Hb : read_file _ _ = _ |- _ => by eapply read_file_raise
    | Hb : get_dst_file_info _ _ = _ |- _ =>
        by eapply get_dst_file_info_raise
    | Hb : pull _ _ _ _ = _ |- _ => by eapply pull_raise
    | Hb : write_file _ _ _ = _ |- _ =>
        eapply write_file_raise; [|exact Hb]; by intros ????
    end.
Qed.

Lemma foldM_sync_file_raise src_proj mode allpaths changed st e st' :
  foldM (sync_file src_proj mode) allpaths changed st = (Raise e, st') ->
  not_aggregate e.
Proof.
  revert changed st. induction allpaths as [|pair l IH]; intros changed st;
    cbn [foldM]; [done|]. intros H.
  apply bind_inv in H as [(? & ? & _ & H)|(? & H & [= ->])]; [eauto|].
  by eapply sync_file_raise.
Qed.

Lemma collect_paths_raise src dst st e st' :
  collect_paths src dst st = (Raise e, st') -> not_aggregate e.
Proof.
  unfold collect_paths, is_dir, is_file, raise, lift, valid_files. munfold.
  destruct (fs st !! src) as [[data|]|] eqn:Hsrc; cbn [negb orb].
  - unfold _valid_filename.
    repeat (match goal with |- context [if ?b then _ else _] =>
              destruct b end; cbn [negb]);
      intros [= <- <-]; by apply not_aggregate_other.
  - destruct (os_walk src st) as [[entries|?] st1] eqn:Hw;
      [|by apply os_walk_inv in Hw as (_ & ? & ? & _)].
    generalize (@nil (path * path)). clear Hw. revert st1.
    induction entries as [|[[root fname] kind] entries IH]; intros st1 acc;
      cbn [foldM]; [done|]. munfold.
    unfold walk_file at 1, lift. munfold. destruct kind as [data|].
    + unfold _valid_filename at 1.
      repeat (match goal with |- context [if ?b then _ else _] =>
                destruct b end; cbn [negb]);
        first [apply IH | intros [= <- <-]; by apply not_aggregate_other].
    + apply IH.
  - intros [= <- <-]. by apply not_aggregate_other.
Qed.

(** A run that completed has got through the walk, the loop and the
    pruning. *)
Lemma sync_paths_completed src_proj src dst mode st0 r1 st1 :
  sync_paths src_proj src dst mode st0 = (r1, st1) ->
  completed r1 ->
  exists allpaths changed st1',
    mode <> CHECK
    /\ collect_paths src dst st0 = (Ok allpaths, st0)
    /\ foldM (sync_file src_proj mode) allpaths [] st0 = (Ok changed, st1')
    /\ prune src dst mode st1' = (Ok tt, st1).
Proof.
  intros H Hdone.
  assert (forall e, r1 = Raise e -> ~ not_aggregate e) as Hagg.
  { intros e -> Hna. destruct Hdone as [[n [=]]|[l [= ->]]]. by eapply Hna. }
  unfold sync_paths in H. case_bool_decide as Hmode.
  { injection H as <- <-. destruct (Hagg _ eq_refl).
    by apply not_aggregate_other. }
  apply bind_inv in H as [(allpaths & st0' & Hc & H)|(e & Hc & ->)].
  2:{ destruct (Hagg _ eq_refl). by eapply collect_paths_raise. }
  pose proof (collect_paths_inv _ _ _ _ _ Hc) as [-> _].
  apply bind_inv in H as [(changed & st1' & Hl & H)|(e & Hl & ->)].
  2:{ destruct (Hagg _ eq_refl). by eapply foldM_sync_file_raise. }
  destruct (prune_ok src dst mode st1') as [st2 Hp].
  rewrite (bind_run _ _ _ _ _ Hp) in H.
  exists allpaths, changed, st1'. split_and!; try done.
  rewrite Hp. f_equal.
  destruct (negb _); by injection H as _ <-.
Qed.

End Raise.

(** *** The second run *)

Section Twice.

Variables (src_proj : string) (src dst : path) (mode : Mode).

Hypothesis Hmode : mode <> FORCE.
Hypothesis Hsrc_dst : ~ src `prefix_of` dst.
Hypothesis Hdst_src : ~ dst `prefix_of` src.
Hypothesis Hproj : no_linebreak src_proj = true.

Lemma apart (p : path) : src `prefix_of` p -> dst `prefix_of` p -> False.
Proof.
  intros H1 H2. destruct (prefix_weak_total _ _ _ H1 H2); done.
Qed.

Lemma paired_facts (pair : path * path) :
  paired src dst pair ->
  src `prefix_of` pair.1 /\ dst `prefix_of` pair.2
  /\ pair.1 <> pair.2 /\ pair.2 <> [].
Proof.
  intros (rel & H1 & H2). rewrite H1, H2.
  assert (src `prefix_of` src ++ rel) as Hs by by apply prefix_app_r.
  assert (dst `prefix_of` dst ++ rel) as Hd by by apply prefix_app_r.
  split_and!; try done.
  - intros Heq. apply (apart (src ++ rel)); [done|]. by rewrite Heq.
  - intros Heq. apply Hdst_src. apply app_eq_nil in Heq as [-> _].
    apply prefix_nil.
Qed.

Lemma paired_distinct (pair pair' : path * path) :
  paired src dst pair -> paired src dst pair' -> pair' <> pair ->
  pair'.1 <> pair.1 /\ pair'.1 <> pair.2
  /\ pair'.2 <> pair.1 /\ pair'.2 <> pair.2.
Proof.
  intros (rel & H1 & H2) (rel' & H1' & H2') Hne.
  destruct pair as [s d], pair' as [s' d']. cbn [fst snd] in *. subst.
  assert (rel' <> rel) as Hrel by congruence.
  split_and!.
  - by intros ?%app_inv_head.
  - intros Heq. apply (apart (src ++ rel')); [by apply prefix_app_r|].
    rewrite Heq. by apply prefix_app_r.
  - intros Heq. apply (apart (src ++ rel)); [by apply prefix_app_r|].
    rewrite <- Heq. by apply prefix_app_r.
  - by intros ?%app_inv_head.
Qed.

Lemma prefix_parent (p d : path) :
  p `prefix_of` d -> p <> d -> p `prefix_of` parent d.
Proof.
  intros [r Hr] Hne. destruct (decide (r = [])) as [->|Hr0].
  - rewrite app_nil_r in Hr. congruence.
  - destruct (exists_last Hr0) as (r' & c & ->). subst d.
    unfold parent. rewrite app_assoc, removelast_last. by apply prefix_app_r.
Qed.

(** A settled pair stays settled when the loop passes another pair. *)
Lemma settled_other changed s d st changed' st' (pair : path * path) :
  sync_file src_proj mode changed (s, d) st = (Ok changed', st') ->
  paired src dst (s, d) -> paired src dst pair -> pair <> (s, d) ->
  settled mode (fs st) pair ->
  settled mode (fs st') pair.
Proof.
  intros Hrun Hp Hp' Hne Hset.
  apply sync_file_frame in Hrun as (Hkeep & Hdirs & _); [|done].
  destruct (paired_distinct _ _ Hp Hp' Hne) as (H1 & H2 & H3 & H4).
  cbn [fst snd] in *.
  eapply settled_preserved; [done|]. intros p n Hpn Hwhere.
  destruct n as [x|]; [|by apply Hdirs].
  apply Hkeep; [..|done].
  - destruct Hwhere as [->|Hpre]; [done|].
    destruct (decide (p = pair.2)) as [->|Hp2]; [done|].
    destruct Hset as (_ & _ & Hd & _).
    apply (prefix_parent _ _ Hpre) in Hp2. apply Hd in Hp2. congruence.
  - destruct Hwhere as [->|Hpre]; [done|].
    destruct (decide (p = pair.2)) as [->|Hp2]; [done|].
    destruct Hset as (_ & _ & Hd & _).
    apply (prefix_parent _ _ Hpre) in Hp2. apply Hd in Hp2. congruence.
Qed.

(** After the loop every pair it passed is settled. *)
Lemma loop_settles (l : list (path * path)) changed st changed' st' :
  foldM (sync_file src_proj mode) l changed st = (Ok changed', st') ->
  Forall (paired src dst) l ->
  (mode = FULL -> forall pair data,
     pair ∈ l -> fs st !! pair.1 = Some (File data) -> lf_text data = true) ->
  (forall pair, paired src dst pair ->
     pair ∈ l \/ settled mode (fs st) pair -> settled mode (fs st') pair)
  /\ (forall p, fs st !! p = Some Dir -> fs st' !! p = Some Dir)
  /\ (forall p x, src `prefix_of` p -> fs st' !! p = Some (File x) ->
        exists y, fs st !! p = Some (File y)).
Proof.
  revert changed st. induction l as [|[s d] l IH]; intros changed st.
  - cbn [foldM]. intros [= <- <-] _ _. split_and!.
    + intros pair _ [Hin|?]; [by apply elem_of_nil in Hin|done].
    + done.
    + eauto.
  - cbn [foldM]. intros H Hpaired Hlf.
    apply bind_inv in H as [(changed1 & st1 & H1 & H)|(? & _ & ?)]; [|done].
    apply Forall_cons in Hpaired as [Hp Hpaired].
    destruct (paired_facts _ Hp) as (Hs & Hd & Hsd & Hd0). cbn [fst snd] in *.
    pose proof (sync_file_frame _ _ _ _ _ _ _ _ Hmode H1)
      as (Hkeep & Hdirs & Hfiles & [y Hy]).
    assert (settled mode (fs st1) (s, d)) as Hset.
    { eapply sync_file_settles; try done. intros HF data Hdata.
      eapply (Hlf HF (s, d)); [by left|done]. }
    destruct (IH _ _ H Hpaired) as (IH1 & IH2 & IH3).
    { intros HF pair data Hin Hdata.
      rewrite Forall_forall in Hpaired.
      destruct (paired_facts _ (Hpaired _ Hin)) as (Hs' & _).
      apply Hfiles in Hdata as [Hdata|[_ ?]]; [|done|].
      - eapply (Hlf HF pair); [by right|done].
      - intros Heq. apply (apart pair.1); [done|]. by rewrite Heq. }
    split_and!.
    + intros pair Hpair [[->|Hin]%elem_of_cons|Hsettled]; apply IH1; auto.
      destruct (decide (pair = (s, d))) as [->|Hne]; [by right|].
      right. by eapply settled_other.
    + auto.
    + intros p x Hp' Hpx. apply IH3 in Hpx as [x' Hpx]; [|done].
      apply Hfiles in Hpx as [?|[-> _]]; eauto.
      intros ->. by apply (apart d).
Qed.

(** Pruning leaves a settled pair settled, when what is above its source
    is there. *)
Lemma settled_prune st r st' (pair : path * path) :
  prune src dst mode st = (r, st') ->
  safe_names (fs st) ->
  paired src dst pair ->
  (forall q, src `prefix_of` q -> q `prefix_of` pair.1 ->
     is_Some (fs st !! q)) ->
  settled mode (fs st) pair ->
  settled mode (fs st') pair.
Proof.
  intros Hrun Hsafe (rel & H1 & H2) Habove Hset.
  apply prune_inv in Hrun as (_ & Hkeep & _); [|by apply prune_safe].
  eapply settled_preserved; [done|]. intros p n Hpn Hwhere.
  apply Hkeep; [done|]. intros k (_ & Hk & Hne & _ & Hnone) Hkp.
  destruct Hwhere as [->|Hpre].
  - apply (apart pair.1); [rewrite H1; by apply prefix_app_r|].
    by etrans.
  - destruct Hk as [relk ->].
    assert (relk `prefix_of` rel) as Hrel.
    { apply (prefix_app_inv dst). rewrite <- H2. by repeat (etrans; [done|]). }
    unfold relative_to in Hnone. rewrite drop_app_length in Hnone.
    destruct (Habove (src ++ relk)) as [n' Hn'].
    + by apply prefix_app_r.
    + rewrite H1. by apply prefix_app.
    + congruence.
Qed.



End Twice.

Lemma wf_fs_check (f : gmap path node) :
  forallb (fun kv : path * node =>
             forallb (fun k => bool_decide (f !! take k kv.1 = Some Dir))
               (seq 0 (length kv.1)))
    (map_to_list f) = true ->
  wf_fs f.
Proof.
  intros H p q n Hp Hq Hne. destruct (prefix_of_take _ _ Hq) as [k ->].
  rewrite forallb_forall in H.
  specialize (H (p, n)). cbn [fst] in H.
  rewrite forallb_forall in H.
  assert (k < length p)%nat as Hk.
  { destruct (decide (k < length p)%nat); [done|].
    rewrite take_ge in Hne by lia. done. }
  eapply bool_decide_eq_true_1, H.
  - apply list_elem_of_In, elem_of_map_to_list. done.
  - apply in_seq. lia.
Qed.

(** The names of a concrete file system, checked entry by entry. *)
Lemma safe_names_check (f : gmap path node) :
  forallb (fun kv : path * node => forallb safe_component kv.1)
    (map_to_list f) = true ->
  safe_names f.
Proof.
  intros H p n Hp. rewrite forallb_forall in H.
  apply (H (p, n)). by apply list_elem_of_In, elem_of_map_to_list.
Qed.

(** ** LIST mode and CHECK mode *)

Section ListCheck.

Implicit Types (st : state) (p q s d src dst : path).

Lemma grows_refl st : grows st st.
Proof. split_and!; auto. Qed.

Lemma grows_trans st1 st2 st3 : grows st1 st2 -> grows st2 st3 -> grows st1 st3.
Proof.
  intros (A1 & B1 & C1) (A2 & B2 & C2). split_and!.
  - auto.
  - intros p n Hp. apply B2 in Hp as [Hp|?]; auto.
  - intros ev Hev. apply C2 in Hev as [Hev|?]; auto.
Qed.

Lemma silent_grows st st' : silent st st' -> grows st st'.
Proof.
  intros [Hfs (evs & Htr & Hq)]. rewrite Forall_forall in Hq.
  split_and!; rewrite ?Hfs; auto.
  intros ev. rewrite Htr, elem_of_app. intros [?|?]; auto.
Qed.

Lemma foldM_grows {A B} (body : B -> A -> M B) l acc st r st' :
  (forall acc a st r st', body acc a st = (r, st') -> grows st st') ->
  foldM body l acc st = (r, st') -> grows st st'.
Proof.
  intros Hbody. revert acc st. induction l as [|a l IH]; intros acc st.
  - cbn [foldM]. intros [= <- <-]. apply grows_refl.
  - cbn [foldM]. intros H.
    apply bind_inv in H as [(acc1 & st1 & H1 & H)|(e & H1 & ->)]; [|eauto].
    eapply grows_trans; eauto.
Qed.

Lemma mkdir_parents_grows p st r st' :
  mkdir_parents p st = (r, st') -> grows st st'.
Proof.
  intros H. apply mkdir_from_extends in H as (A & B & C). split_and!.
  - done.
  - intros q n Hq. apply B in Hq as [?|[_ ?]]; auto.
  - intros ev Hev. apply C in Hev as [?|(q & -> & _)]; eauto.
Qed.

(** In LIST mode a pass makes the directory of the destination, if it is
    not there, and writes nothing. *)
Lemma sync_file_LIST src_proj changed pair st r st' :
  sync_file src_proj LIST changed pair st = (r, st') -> grows st st'.
Proof.
  destruct pair as [s d]. intros H.
  destruct (fs st !! s) as [[srcdata|]|] eqn:Hs.
  2,3: unfold sync_file in H;
       rewrite (bind_run _ _ _ _ _ (is_file_run _ _)), Hs in H;
       injection H as <- <-; apply grows_refl.
  destruct (mkdir_parents (parent d) st) as [[[]|e] st1] eqn:Hmk.
  - pose proof (mkdir_parents_grows _ _ _ _ Hmk) as Hg.
    eapply grows_trans; [exact Hg|]. apply silent_grows.
    eapply (settled_silent src_proj LIST changed (s, d)); [done| |].
    + exists srcdata. split_and!; [by apply Hg| |by left].
      by eapply mkdir_parents_ok_inv.
    + rewrite <- H. unfold sync_file.
      rewrite !(bind_run _ _ _ _ _ (is_file_run _ _)), Hs.
      rewrite (proj1 Hg _ _ Hs). cbn [negb].
      rewrite (bind_run _ _ _ _ _ Hmk).
      rewrite (bind_run _ _ _ _ _
                 (mkdir_parents_noop _ _ (mkdir_parents_ok_inv _ _ _ _ Hmk))).
      done.
  - unfold sync_file in H.
    rewrite (bind_run _ _ _ _ _ (is_file_run _ _)), Hs in H. cbn [negb] in H.
    rewrite (bind_raise _ _ _ _ _ Hmk) in H. injection H as <- <-.
    by eapply mkdir_parents_grows.
Qed.

(** What a run in LIST mode does to the file system: it may make
    directories, and that is all. *)
Lemma sync_paths_LIST src_proj src dst st r st' :
  sync_paths src_proj src dst LIST st = (r, st') -> grows st st'.
Proof.
  unfold sync_paths. rewrite bool_decide_eq_false_2 by done. intros H.
  apply bind_inv in H as [(allpaths & st0 & Hc & H)|(e & Hc & ->)];
    apply collect_paths_inv in Hc as [-> _]; [|apply grows_refl].
  apply bind_inv in H as [(changed & st1 & Hl & H)|(e & Hl & ->)];
    apply (foldM_grows _ _ _ _ _ _ (sync_file_LIST src_proj)) in Hl; [|done].
  eapply grows_trans; [done|].
  apply bind_inv in H as [([] & st2 & Hp & H)|(e & Hp & ->)];
    (apply prune_inv in Hp as (_ & _ & _ & Hsilent & _); [|by left]);
    apply silent_grows; [|by auto].
  destruct (negb _); injection H as _ <-; auto.
Qed.

Lemma get_dst_file_info_silent d st r st' :
  get_dst_file_info d st = (r, st') -> silent st st'.
Proof.
  unfold get_dst_file_info, read_file, lift. munfold.
  destruct (fs st !! d) as [[raw|]|]; intros [= <- <-];
    [silent_now|apply silent_refl..].
Qed.

(** [check_path] only reads. *)
Lemma check_path_silent dst st r st' :
  check_path dst st = (r, st') -> silent st st'.
Proof.
  unfold check_path. intros H.
  apply bind_inv in H as [(allpaths & st0 & Hv & H)|(e & Hv & ->)];
    apply valid_files_inv in Hv as [-> _]; [|apply silent_refl].
  assert (forall r1 st1,
            for_each allpaths (fun dstfile =>
              '(marker_hash, dst_hash, _) ← get_dst_file_info dstfile;
              if bool_decide (marker_hash ≠ dst_hash)
              then raise (RuntimeError (DstFileChanged dstfile))
              else mret tt) st = (r1, st1) -> silent st st1) as Hloop.
  { intros r1 st1. apply (foldM_silent _ (fs st)); [|done].
    intros [] dstfile st2 r2 st2' _ _ Hstep.
    apply bind_inv in Hstep as [([[mh dh] body] & st3 & Hi & Hstep)
                               |(e & Hi & ->)];
      apply get_dst_file_info_silent in Hi; [|done].
    destruct (bool_decide _); injection Hstep as _ <-; done. }
  apply bind_inv in H as [([] & st1 & Hl & H)|(e & Hl & ->)]; [|eauto].
  injection H as _ <-. eauto.
Qed.

(** In CHECK mode [run_standard_syncs] goes through [check_path] and so
    only reads and reports. *)
Lemma run_standard_syncs_CHECK localconfig syncitems st r st' :
  run_standard_syncs localconfig CHECK syncitems st = (r, st') ->
  silent st st'.
Proof.
  unfold run_standard_syncs, for_each.
  apply (foldM_silent _ (fs st)); [|done].
  intros [] item st1 r1 st1' _ _.
  rewrite bool_decide_eq_true_2 by done. intros H.
  apply bind_inv in H as [([] & st2 & Hp & H)|(e & Hp & ->)]; [|done].
  unfold print, emit in Hp. injection Hp as <-.
  match type of H with _ (State _ (_ ++ ?evs)) = _ =>
    eapply silent_trans; [apply (silent_events st1 evs); repeat constructor|]
  end.
  apply bind_inv in H as [(count & st3 & Hc & H)|(e & Hc & ->)];
    apply check_path_silent in Hc; [|done].
  eapply silent_trans; [done|].
  unfold print, emit in H. injection H as _ <-.
  apply (silent_events st3 [EvPrint (CheckPassed count)]).
  repeat constructor.
Qed.

End ListCheck.

(** ** The branches of a pass *)

(** The body of a file, marked again, reads back as itself. *)
Lemma decode_encode_codec (dstfile : path)
    (raw marker_hash dst_hash dstdata src_proj : string) :
  dst_file_info dstfile raw = Ok (marker_hash, dst_hash, dstdata) ->
  no_linebreak src_proj = true ->
  unmarked dstdata = true ->
  exists enc,
    add_marker src_proj dstdata = Ok enc
    /\ dst_file_info dstfile enc = Ok (dst_hash, dst_hash, dstdata).
Proof.
  intros Hinfo Hproj Hun.
  pose proof (dst_file_info_lf_text _ _ _ _ _ Hinfo) as Hlf.
  apply dst_file_info_body in Hinfo as [-> _].
  by apply add_marker_lf_text.
Qed.

Section Branches.

Implicit Types (s : state) (srcfile dstfile : path) (mode : Mode).


(** Lines 120-137: without a destination file, or in FORCE mode, the pass
    goes to the pull as soon as the source is read. *)
Lemma sync_file_pull_start src_proj mode changed srcfile dstfile s srcdata :
  fs s !! srcfile = Some (File srcdata) ->
  dirs_above (fs s) (parent dstfile) ->
  mode = FORCE \/ (forall raw, fs s !! dstfile <> Some (File raw)) ->
  sync_file src_proj mode changed (srcfile, dstfile) s
  = ((if bool_decide (mode = LIST)
      then print (WouldPull src_proj dstfile)
      else print (Pulling src_proj dstfile);;
           pull src_proj dstfile srcdata);;
     mret changed) (State (fs s) (trace s ++ [EvRead srcfile])).
Proof.
  intros Hsrc Hdirs Hcase. unfold sync_file.
  rewrite (bind_run _ _ _ _ _ (is_file_run _ _)), Hsrc. cbn [negb].
  rewrite (bind_run _ _ _ _ _ (mkdir_parents_noop _ _ Hdirs)).
  rewrite (bind_run _ _ _ _ _ (read_file_run _ _ _ Hsrc)).
  rewrite (bind_run _ _ _ _ _ (is_file_run _ _)). cbn [fs].
  destruct Hcase as [->|Hdst].
  - rewrite (bool_decide_eq_true_2 (FORCE = FORCE)) by done.
    by rewrite orb_true_r.
  - destruct (fs s !! dstfile) as [[raw|]|] eqn:Hd; [by destruct (Hdst raw)|..];
      done.
Qed.

End Branches.

(** ** What a computation keeps and how it fails *)

Section Keeps.

Context (R : state -> state -> Prop).
Hypothesis R_refl : forall s, R s s.
Hypothesis R_trans : forall s1 s2 s3, R s1 s2 -> R s2 s3 -> R s1 s3.

Lemma keeps_bind {A B} (m : M A) (f : A -> M B) :
  keeps R m -> (forall a, keeps R (f a)) -> keeps R (m ≫= f).
Proof.
  intros Hm Hf s r s' H.
  apply bind_inv in H as [(a & s1 & H1 & H)|(e & H1 & _)].
  - eapply R_trans; [by eapply Hm|by eapply Hf].
  - by eapply Hm.
Qed.

Lemma keeps_same_fs {A} (m : M A) :
  (forall s s', fs s' = fs s -> R s s') ->
  (forall s r s', m s = (r, s') -> fs s' = fs s) -> keeps R m.
Proof. intros HR Hm s r s' H. eapply HR, Hm, H. Qed.

Lemma keeps_ret {A} (a : A) : keeps R (mret a).
Proof. intros s r s' [= <- <-]. apply R_refl. Qed.

Lemma keeps_raise {A} e : keeps R (raise e : M A).
Proof. intros s r s' [= <- <-]. apply R_refl. Qed.

Lemma keeps_lift {A} (x : result A) : keeps R (lift x).
Proof. intros s r s' [= <- <-]. apply R_refl. Qed.

Lemma keeps_is_file p : keeps R (is_file p).
Proof. intros s r s' [= <- <-]. apply R_refl. Qed.

Lemma keeps_is_dir p : keeps R (is_dir p).
Proof. intros s r s' [= <- <-]. apply R_refl. Qed.

Lemma keeps_path_exists p : keeps R (path_exists p).
Proof. intros s r s' [= <- <-]. apply R_refl. Qed.

Lemma keeps_os_walk p : keeps R (os_walk p).
Proof. intros s r s' [= <- <-]. apply R_refl. Qed.

Lemma keeps_foldM {A B} (body : B -> A -> M B) (l : list A) acc :
  (forall acc a, a ∈ l -> keeps R (body acc a)) ->
  keeps R (foldM body l acc).
Proof.
  revert acc. induction l as [|a l IH]; intros acc Hbody; cbn [foldM].
  - apply keeps_ret.
  - apply keeps_bind; [apply Hbody; by left|].
    intros acc'. apply IH. intros acc'' a' Hin. apply Hbody. by right.
Qed.

End Keeps.

Section Outside.

Context (P : path -> Prop).

Lemma outside_refl s : outside P s s.
Proof. done. Qed.

Lemma outside_trans s1 s2 s3 :
  outside P s1 s2 -> outside P s2 s3 -> outside P s1 s3.
Proof. intros H1 H2 p Hp. by rewrite H2, H1. Qed.

Lemma outside_same_fs s s' : fs s' = fs s -> outside P s s'.
Proof. intros H p _. by rewrite H. Qed.

Lemma outside_impl (Q : path -> Prop) s s' :
  (forall p, Q p -> P p) -> outside Q s s' -> outside P s s'.
Proof. intros HQ H p Hp. apply H. intros Hq. by apply Hp, HQ. Qed.

Lemma outside_bind {A B} (m : M A) (f : A -> M B) :
  keeps (outside P) m -> (forall a, keeps (outside P) (f a)) ->
  keeps (outside P) (m ≫= f).
Proof. apply keeps_bind, outside_trans. Qed.

Lemma outside_pure {A} (m : M A) :
  (forall s r s', m s = (r, s') -> fs s' = fs s) -> keeps (outside P) m.
Proof. apply keeps_same_fs, outside_same_fs. Qed.

Lemma outside_foldM {A B} (body : B -> A -> M B) (l : list A) acc :
  (forall acc a, a ∈ l -> keeps (outside P) (body acc a)) ->
  keeps (outside P) (foldM body l acc).
Proof. apply keeps_foldM; [apply outside_refl|apply outside_trans]. Qed.

Lemma keeps_emit ev : keeps (outside P) (emit ev).
Proof. intros s r s' [= <- <-]. by apply outside_same_fs. Qed.

Lemma keeps_print r : keeps (outside P) (print r).
Proof. apply keeps_emit. Qed.

Lemma keeps_read_file p : keeps (outside P) (read_file p).
Proof.
  intros s r s'. unfold read_file.
  destruct (fs s !! p) as [[?|]|]; intros [= <- <-]; by apply outside_same_fs.
Qed.

Lemma keeps_get_dst_file_info p : keeps (outside P) (get_dst_file_info p).
Proof.
  apply outside_bind.
  - apply keeps_read_file.
  - intros a. apply keeps_lift, outside_refl.
Qed.

Lemma keeps_open_w p : P p -> keeps (outside P) (open_w p).
Proof.
  intros Hp s r s'. unfold open_w.
  destruct (fs s !! parent p) as [[?|]|]; try by intros [= <- <-].
  destruct (fs s !! p) as [[?|]|]; intros [= <- <-]; try done;
    intros q Hq; cbn [fs]; rewrite lookup_insert_ne; by try (intros ->).
Qed.

Lemma keeps_write p data : P p -> keeps (outside P) (write p data).
Proof.
  intros Hp s r s'. unfold write, put, emit. munfold. intros [= <- <-].
  intros q Hq. cbn [fs]. rewrite lookup_insert_ne; by try (intros ->).
Qed.

Lemma keeps_write_file p (data : M string) :
  P p -> keeps (outside P) data -> keeps (outside P) (write_file p data).
Proof.
  intros Hp Hdata. unfold write_file.
  apply outside_bind.
  - by apply keeps_open_w.
  - intros _. apply outside_bind; [done|].
    intros d. by apply keeps_write.
Qed.

Lemma keeps_pull src_proj d data :
  P d -> keeps (outside P) (pull src_proj d data).
Proof.
  intros Hd. apply keeps_write_file; [done|]. apply keeps_lift, outside_refl.
Qed.

Lemma keeps_mkdir_from done rest :
  (forall q, q `prefix_of` done ++ rest -> P q) ->
  keeps (outside P) (mkdir_from done rest).
Proof.
  intros HP s r s' H q Hq. eapply mkdir_from_other; [done|].
  intros Hpre. by apply Hq, HP.
Qed.

Lemma keeps_rm_rf k :
  shell_safe k = true ->
  (forall q, k `prefix_of` q -> P q) -> keeps (outside P) (rm_rf k).
Proof.
  intros Hsafe HP s r s'. unfold rm_rf. rewrite Hsafe.
  intros [= <- <-] q Hq. cbn [fs].
  destruct (fs s !! q) as [n|] eqn:Hn.
  - apply map_lookup_filter_Some. split; [done|]. cbn. intros Hk.
    by apply Hq, HP.
  - apply map_lookup_filter_None. by left.
Qed.

End Outside.

(** ** What a run leaves alone *)

Section Frame.

Implicit Types (s : state) (p q src dst : path) (mode : Mode).

Lemma keeps_outside_impl {A} (Q P : path -> Prop) (m : M A) :
  (forall p, Q p -> P p) -> keeps (outside Q) m -> keeps (outside P) m.
Proof. intros HQ Hm s r s' H. eapply outside_impl; [done|]. by eapply Hm. Qed.

(** A pass writes below the directory of its destination, to the
    destination and, in FULL mode, to its source. *)
Lemma sync_file_outside src_proj mode changed srcfile dstfile :
  keeps (outside (fun q => q `prefix_of` dstfile \/ (mode = FULL /\ q = srcfile)))
    (sync_file src_proj mode changed (srcfile, dstfile)).
Proof.
  unfold sync_file.
  repeat
    match goal with
    | |- keeps _ (_ ≫= _) => apply outside_bind; [|intros ?]
    | |- keeps _ (mret _) => apply keeps_ret, outside_refl
    | |- keeps _ (raise _) => apply keeps_raise, outside_refl
    | |- keeps _ (is_file _) => apply keeps_is_file, outside_refl
    | |- keeps _ (print _) => apply keeps_print
    | |- keeps _ (read_file _) => apply keeps_read_file
    | |- keeps _ (get_dst_file_info _) => apply keeps_get_dst_file_info
    | |- keeps _ (if bool_decide _ then _ else _) => case_bool_decide
    | |- keeps _ (if ?b then _ else _) => destruct b
    | |- keeps _ (let '(_, _) := ?x in _) => destruct x
    | |- keeps _ (pull _ _ _) => apply keeps_pull; by left
    | |- keeps _ (write_file _ _) => apply keeps_write_file; [by right|]
    | |- keeps _ (mkdir_parents _) => apply keeps_mkdir_from
    end.
  intros q Hq. left. etrans; [done|]. apply parent_prefix.
Qed.

(** *** Safe names *)

Lemma safe_prefix p q :
  p `prefix_of` q -> forallb safe_component q = true ->
  forallb safe_component p = true.
Proof. intros [t ->]. rewrite forallb_app. by intros [? _]%andb_prop. Qed.

Lemma safe_drop n p :
  forallb safe_component p = true ->
  forallb safe_component (drop n p) = true.
Proof.
  intros H. rewrite <- (take_drop n p), forallb_app in H.
  by apply andb_prop in H as [_ ?].
Qed.

Lemma outside_safe_refl P s : outside_safe P s s.
Proof. by intros ?. Qed.

Lemma outside_safe_trans P s1 s2 s3 :
  outside_safe P s1 s2 -> outside_safe P s2 s3 -> outside_safe P s1 s3.
Proof.
  intros H1 H2 Hs. destruct (H1 Hs) as [Hs2 Ho1].
  destruct (H2 Hs2) as [Hs3 Ho2]. split; [done|]. by eapply outside_trans.
Qed.

Lemma outside_safe_impl (Q P : path -> Prop) s s' :
  (forall p, Q p -> P p) -> outside_safe Q s s' -> outside_safe P s s'.
Proof.
  intros HQ H Hs. destruct (H Hs) as [? ?]. split; [done|].
  by eapply outside_impl.
Qed.

Lemma keeps_outside_safe_impl {A} (Q P : path -> Prop) (m : M A) :
  (forall p, Q p -> P p) -> keeps (outside_safe Q) m ->
  keeps (outside_safe P) m.
Proof.
  intros HQ Hm s r s' H. eapply outside_safe_impl; [done|]. by eapply Hm.
Qed.

Lemma outside_safe_bind {A B} P (m : M A) (f : A -> M B) :
  keeps (outside_safe P) m -> (forall a, keeps (outside_safe P) (f a)) ->
  keeps (outside_safe P) (m ≫= f).
Proof. apply keeps_bind, outside_safe_trans. Qed.

Lemma outside_safe_pure {A} P (m : M A) :
  (forall s r s', m s = (r, s') -> fs s' = fs s) ->
  keeps (outside_safe P) m.
Proof.
  intros Hm s r s' H Hs. apply Hm in H. split; [by rewrite H|].
  by apply outside_same_fs.
Qed.

Lemma outside_safe_print P r : keeps (outside_safe P) (print r).
Proof. apply outside_safe_pure. by intros s r' s' [= <- <-]. Qed.

(** A pass between files of safe names leaves safe names. *)
Lemma sync_file_outside_safe src_proj mode changed srcfile dstfile :
  forallb safe_component srcfile = true ->
  forallb safe_component dstfile = true ->
  keeps (outside_safe
           (fun q => q `prefix_of` dstfile \/ (mode = FULL /\ q = srcfile)))
    (sync_file src_proj mode changed (srcfile, dstfile)).
Proof.
  intros Hsrc Hdst s r s' H Hsafe.
  apply sync_file_outside in H. split; [|done].
  intros q n Hq.
  destruct (decide (q `prefix_of` dstfile)) as [Hpre|Hpre];
    [by eapply safe_prefix|].
  destruct (decide (q = srcfile)) as [->|Hne]; [done|].
  rewrite H in Hq; [by eapply Hsafe|]. intros [?|[_ ?]]; done.
Qed.

(** Pruning removes below the destination only, where the names are
    safe. *)
Lemma prune_outside src dst mode :
  keeps (outside_safe (fun q => dst `prefix_of` q)) (prune src dst mode).
Proof.
  intros s r s' H Hsafe. split; [by eapply prune_safe_names|].
  intros q Hq.
  apply prune_inv in H as (Hsub & Hkeep & _); [|by apply prune_safe].
  destruct (fs s !! q) as [n|] eqn:Hn.
  - apply Hkeep; [done|]. intros k (_ & Hk & _) Hkq. apply Hq. by etrans.
  - destruct (fs s' !! q) as [n|] eqn:Hn'; [|done].
    apply Hsub in Hn'. congruence.
Qed.

(** The pairs of a run lie under the source and under the destination. *)
Lemma collect_paths_under src dst s l s' :
  collect_paths src dst s = (Ok l, s') ->
  s' = s
  /\ forall pair, pair ∈ l ->
       src `prefix_of` pair.1 /\ dst `prefix_of` pair.2.
Proof.
  intros H. apply collect_paths_inv in H as [-> Hl]. split; [done|].
  intros pair Hin.
  destruct (Hl _ eq_refl) as [(data & _ & ->)|[_ Hall]].
  - by apply list_elem_of_singleton in Hin as ->.
  - apply Hall in Hin as (p & data & _ & Hp & _ & _ & ->).
    split; [done|]. by apply prefix_app_r.
Qed.

(** With safe names in the tree and in [dst], the pairs have safe names. *)
Lemma collect_paths_safe src dst s l s' :
  collect_paths src dst s = (Ok l, s') ->
  safe_names (fs s) -> forallb safe_component dst = true ->
  forall pair, pair ∈ l ->
    forallb safe_component pair.1 = true
    /\ forallb safe_component pair.2 = true.
Proof.
  intros H Hsafe Hdst pair Hin.
  apply collect_paths_inv in H as [-> Hl].
  destruct (Hl _ eq_refl) as [(data & Hsrc & ->)|[_ Hall]].
  - apply list_elem_of_singleton in Hin as ->. split; [|done].
    by eapply Hsafe.
  - apply Hall in Hin as (p & data & Hp & _ & _ & _ & ->).
    apply Hsafe in Hp. split; [done|]. cbn [snd].
    rewrite forallb_app, Hdst. by apply safe_drop.
Qed.

(** The loop over pairs of safe names leaves safe names. *)
Lemma loop_safe_names src_proj mode (l : list (path * path)) acc s r s' :
  foldM (sync_file src_proj mode) l acc s = (r, s') ->
  (forall pair, pair ∈ l ->
     forallb safe_component pair.1 = true
     /\ forallb safe_component pair.2 = true) ->
  safe_names (fs s) -> safe_names (fs s').
Proof.
  intros H Hl Hsafe.
  enough (keeps (outside_safe (fun _ => True))
            (foldM (sync_file src_proj mode) l acc)) as Hk
    by by destruct (Hk _ _ _ H Hsafe).
  apply keeps_foldM; [apply outside_safe_refl|apply outside_safe_trans|].
  intros acc' [sp d] Hin. destruct (Hl _ Hin) as [? ?].
  eapply keeps_outside_safe_impl; [|by apply sync_file_outside_safe]. done.
Qed.

Lemma sync_paths_outside src_proj src dst mode :
  forallb safe_component dst = true ->
  keeps (outside_safe (fun q => q `prefix_of` dst \/ dst `prefix_of` q
                                \/ (mode = FULL /\ src `prefix_of` q)))
    (sync_paths src_proj src dst mode).
Proof.
  intros Hdst s r s' H. unfold sync_paths in H.
  case_bool_decide; [injection H as <- <-; apply outside_safe_refl|].
  apply bind_inv in H as [(l & s1 & Hc & H)|(e & Hc & _)].
  2:{ apply collect_paths_inv in Hc as [-> _]. apply outside_safe_refl. }
  intros Hsafe.
  pose proof (collect_paths_safe _ _ _ _ _ Hc Hsafe Hdst) as Hnames.
  apply collect_paths_under in Hc as [-> Hl].
  refine (_ s r s' H Hsafe). clear s r s' H Hsafe.
  apply (outside_safe_bind _ (foldM (sync_file src_proj mode) l [])).
  - apply keeps_foldM; [apply outside_safe_refl|apply outside_safe_trans|].
    intros acc [sp d] Hin.
    destruct (Hl _ Hin) as [Hsp Hd].
    destruct (Hnames _ Hin) as [Hn1 Hn2]. cbn [fst snd] in *.
    eapply keeps_outside_safe_impl; [|by apply sync_file_outside_safe].
    intros q [Hq|[-> ->]]; [|auto].
    destruct (prefix_weak_total _ _ _ Hq Hd); auto.
  - intros changed. apply outside_safe_bind.
    + eapply keeps_outside_safe_impl, prune_outside. auto.
    + intros _. destruct (negb _);
        [apply keeps_raise|apply keeps_ret]; apply outside_safe_refl.
Qed.

(** A run with safe names in the tree and in [dst] leaves safe names. *)
Lemma sync_paths_safe_names src_proj src dst mode s r s' :
  sync_paths src_proj src dst mode s = (r, s') ->
  forallb safe_component dst = true ->
  safe_names (fs s) -> safe_names (fs s').
Proof.
  intros H Hdst Hsafe.
  by destruct (sync_paths_outside src_proj src dst mode Hdst _ _ _ H Hsafe).
Qed.

End Frame.

(** ** How a run fails *)

Section Raises.

Context (E : exn -> Prop).

Lemma raises_bind {A B} (m : M A) (f : A -> M B) :
  raises_in E m -> (forall a, raises_in E (f a)) -> raises_in E (m ≫= f).
Proof.
  intros Hm Hf s e s' H.
  apply bind_inv in H as [(a & s1 & _ & H)|(e' & H1 & [= ->])].
  - by eapply Hf.
  - by eapply Hm.
Qed.

Lemma raises_ret {A} (a : A) : raises_in E (mret a).
Proof. by intros s e s'. Qed.

Lemma raises_raise {A} e : E e -> raises_in E (raise e : M A).
Proof. by intros He s e' s' [= <- _]. Qed.

Lemma raises_lift {A} (x : result A) :
  (forall e, x = Raise e -> E e) -> raises_in E (lift x).
Proof. intros Hx s e s' [= H _]. by apply Hx. Qed.

Lemma raises_is_file p : raises_in E (is_file p).
Proof. by intros s e s'. Qed.

Lemma raises_is_dir p : raises_in E (is_dir p).
Proof. by intros s e s'. Qed.

Lemma raises_path_exists p : raises_in E (path_exists p).
Proof. by intros s e s'. Qed.

Lemma raises_os_walk p : raises_in E (os_walk p).
Proof. by intros s e s'. Qed.

Lemma raises_print r : raises_in E (print r).
Proof. by intros s e s'. Qed.

Lemma raises_rm_rf p : raises_in E (rm_rf p).
Proof. by intros s e s'. Qed.

Lemma raises_foldM {A B} (body : B -> A -> M B) (l : list A) acc :
  (forall acc a, raises_in E (body acc a)) -> raises_in E (foldM body l acc).
Proof.
  intros Hbody. revert acc. induction l as [|a l IH]; intros acc; cbn [foldM].
  - apply raises_ret.
  - by apply raises_bind.
Qed.

Hypothesis E_os : forall k p, E (OSError k p).

Lemma raises_read_file p : raises_in E (read_file p).
Proof.
  intros s e s'. unfold read_file.
  destruct (fs s !! p) as [[?|]|]; intros [= <- <-]; apply E_os.
Qed.

Lemma raises_open_w p : raises_in E (open_w p).
Proof.
  intros s e s'. unfold open_w.
  destruct (fs s !! parent p) as [[?|]|]; try (intros [= <- <-]; apply E_os).
  destruct (fs s !! p) as [[?|]|]; try done. intros [= <- <-]. apply E_os.
Qed.

Lemma raises_write_file p (data : M string) :
  raises_in E data -> raises_in E (write_file p data).
Proof.
  intros Hdata. unfold write_file. apply raises_bind; [apply raises_open_w|].
  intros _. apply raises_bind; [done|]. by intros d s e s'.
Qed.

Lemma raises_mkdir_from done rest : raises_in E (mkdir_from done rest).
Proof.
  revert done. induction rest as [|c rest IH]; intros done s e s';
    cbn [mkdir_from]; munfold.
  - destruct (fs s !! done) as [[?|]|]; try done. intros [= <- <-].
    apply E_os.
  - destruct (fs s !! done) as [[?|]|];
      [intros [= <- <-]; apply E_os|apply IH..].
Qed.

End Raises.

Lemma raises_bind_impl {A} (E E' : exn -> Prop) (m : M A) :
  (forall e, E e -> E' e) -> raises_in E m -> raises_in E' m.
Proof. intros HE Hm s e s' H. by eapply HE, Hm. Qed.

Section RunRaises.

Implicit Types (s : state) (mode : Mode).

Lemma dst_file_info_raises d raw e :
  dst_file_info d raw = Raise e ->
  e = ValueError (NoLinesFound d) \/ e = ValueError (NoSyncHashFound d)
  \/ e = IndexError.
Proof.
  rewrite dst_file_info_cases.
  destruct (PyStr.splitlines raw) as [|l0 [|l1 ls]]; [by intros [= <-]; auto..|].
  destruct (negb _); [intros [= <-]; auto|].
  destruct (negb _); [intros [= <-]; auto|done].
Qed.

Lemma add_marker_raises src_proj data e :
  add_marker src_proj data = Raise e -> e = RuntimeError ItselfSynced.
Proof. unfold add_marker. destruct (_ && _); by intros [= <-]. Qed.

(** The exceptions of a pass, by mode; the assertion of line 198 is not
    among them. *)
Lemma sync_file_raises src_proj mode changed pair :
  mode <> CHECK ->
  raises_in (fun e => may_raise mode e = true
                      /\ forall l, e <> RuntimeError (DstFilesChanged l))
    (sync_file src_proj mode changed pair).
Proof.
  intros Hcheck. destruct pair as [srcfile dstfile]. unfold sync_file.
  assert (forall k p,
            may_raise mode (OSError k p) = true
            /\ forall l, OSError k p <> RuntimeError (DstFilesChanged l))
    as Hos.
  { intros k p. split; [|done]. cbn. by rewrite bool_decide_eq_false_2. }
  repeat
    match goal with
    | |- raises_in _ (_ ≫= _) => apply raises_bind; [|intros ?]
    | |- raises_in _ (mret _) => apply raises_ret
    | |- raises_in _ (is_file _) => apply raises_is_file
    | |- raises_in _ (print _) => apply raises_print
    | |- raises_in _ (read_file _) => apply raises_read_file, Hos
    | |- raises_in _ (mkdir_parents _) => apply raises_mkdir_from, Hos
    | |- raises_in _ (get_dst_file_info _) => unfold get_dst_file_info
    | |- raises_in _ (pull _ _ _) => unfold pull
    | |- raises_in _ (write_file _ _) => apply raises_write_file; [apply Hos|]
    | |- raises_in _ (if bool_decide _ then _ else _) => case_bool_decide
    | |- raises_in _ (if ?b then _ else _) => destruct b eqn:?
    | |- raises_in _ (let '(_, _) := ?x in _) => destruct x
    | |- raises_in _ (lift (dst_file_info _ _)) =>
        apply raises_lift; intros ? [->|[->| ->]]%dst_file_info_raises
    | |- raises_in _ (lift (add_marker _ _)) =>
        apply raises_lift; intros ? ->%add_marker_raises
    | |- raises_in _ (raise _) => apply raises_raise
    end;
    repeat
      match goal with
      | H : _ || _ = false |- _ => apply orb_false_iff in H as [? ?]
      | H : _ && _ = false |- _ => apply andb_false_iff in H
      | H : bool_decide _ = false |- _ => apply bool_decide_eq_false in H
      | H : bool_decide _ = true |- _ => apply bool_decide_eq_true in H
      end;
    try (split; [|done]; by destruct mode).
  exfalso.
  repeat
    match goal with
    | H : _ \/ _ |- _ => destruct H as [H|H]; apply bool_decide_eq_false in H
    | H : ¬ (_ ≠ _) |- _ => apply dec_stable in H
    end; congruence.
Qed.

Lemma valid_filename_raise fname e :
  _valid_filename fname = Raise e -> e = ValueError (NotSimpleFilename fname).
Proof.
  unfold _valid_filename. destruct (negb _); [by intros [= <-]|].
  by destruct (existsb _ _).
Qed.

Lemma collect_paths_raises src dst :
  raises_in (fun e => e = ValueError (SrcNotDirOrFile src)
                      \/ e = ValueError (NotSyncable src)
                      \/ exists fname, e = ValueError (NotSimpleFilename fname))
    (collect_paths src dst).
Proof.
  unfold collect_paths, valid_files.
  repeat
    match goal with
    | |- raises_in _ (_ ≫= _) => apply raises_bind; [|intros ?]
    | |- raises_in _ (mret _) => apply raises_ret
    | |- raises_in _ (is_file _) => apply raises_is_file
    | |- raises_in _ (is_dir _) => apply raises_is_dir
    | |- raises_in _ (os_walk _) => apply raises_os_walk
    | |- raises_in _ (if ?b then _ else _) => destruct b eqn:?
    | |- raises_in _ (lift (_valid_filename _)) =>
        apply raises_lift; intros ? ->%valid_filename_raise
    | |- raises_in _ (raise _) => apply raises_raise
    | |- raises_in _ (foldM _ _ _) =>
        apply raises_foldM; intros ? [[? ?] [?|]]; cbn [walk_file]
    end; eauto.
Qed.

(** Only a pass in PULL mode notes a destination. *)
Lemma sync_file_notes src_proj mode changed pair s changed' s' :
  sync_file src_proj mode changed pair s = (Ok changed', s') ->
  changed' = changed \/ mode = PULL \/ mode = CHECK.
Proof.
  destruct pair as [srcfile dstfile]. unfold sync_file. intros H.
  repeat
    match type of H with
    | (_ ≫= _) _ = _ =>
        apply bind_inv in H as [(? & ? & _ & H)|(? & _ & ?)]; [|discriminate]
    | (if bool_decide _ then _ else _) _ = _ => case_bool_decide
    | (if ?b then _ else _) _ = _ => destruct b eqn:?
    | (let '(_, _) := ?x in _) _ = _ => destruct x
    | mret _ _ = _ => injection H as <- <-
    | raise _ _ = _ => discriminate
    end; auto.
  right.
  repeat
    match goal with
    | H : _ || _ = false |- _ => apply orb_false_iff in H as [? ?]
    | H : bool_decide _ = false |- _ => apply bool_decide_eq_false in H
    end.
  by destruct mode; auto.
Qed.

Lemma foldM_sync_file_notes src_proj mode l changed s changed' s' :
  foldM (sync_file src_proj mode) l changed s = (Ok changed', s') ->
  changed' = changed \/ mode = PULL \/ mode = CHECK.
Proof.
  revert changed s. induction l as [|pair l IH]; intros changed s.
  - intros [= <- <-]. by left.
  - cbn [foldM]. intros H.
    apply bind_inv in H as [(ch1 & s1 & H1 & H)|(? & _ & ?)]; [|done].
    apply sync_file_notes in H1 as [->|?]; [|by right]. by apply IH in H.
Qed.

(** Every exception of a run is one of the table. *)
Lemma sync_paths_raises src_proj src dst mode :
  raises_in (fun e => may_raise mode e = true)
    (sync_paths src_proj src dst mode).
Proof.
  intros s e s' H. unfold sync_paths in H.
  case_bool_decide as Hmode.
  { injection H as <- _. subst mode. done. }
  assert (negb (bool_decide (mode = CHECK)) = true) as Hneg
    by by rewrite bool_decide_eq_false_2.
  apply bind_inv in H as [(l & s1 & _ & H)|(e' & Hc & [= ->])].
  2:{ pose proof (collect_paths_raises _ _ _ _ _ Hc) as Hc'.
      cbv beta in Hc'. by destruct Hc' as [->|[->|[fname ->]]]. }
  apply bind_inv in H as [(changed & s2 & Hloop & H)|(e' & Hloop & [= ->])].
  2:{ apply (raises_foldM (fun e => may_raise mode e = true)
               (sync_file src_proj mode) l [] ) in Hloop; [done|].
      intros acc a. eapply raises_bind_impl; [|by apply sync_file_raises].
      by intros ? [? _]. }
  apply bind_inv in H as [([] & s3 & _ & H)|(e' & Hp & _)].
  2:{ destruct (prune_ok src dst mode s2) as [s3 Hp']. congruence. }
  clear Hneg. case_bool_decide as Hchanged; cbn [negb] in H; [done|].
  unfold raise in H. injection H as <- _. cbn.
  apply foldM_sync_file_notes in Hloop as [->|[->|?]]; [done| |done].
  rewrite (bool_decide_eq_true_2 (PULL = PULL)) by done.
  by rewrite (bool_decide_eq_false_2 (changed = [])).
Qed.

End RunRaises.

(** ** What pruning removes *)

Section PruneMore.

Implicit Types (st : state) (p q k src dst : path) (mode : Mode).

Lemma kill_gone mode k st r st' q :
  kill mode k st = (r, st') ->
  mode <> LIST -> shell_safe k = true ->
  is_Some (fs st !! k) -> k `prefix_of` q ->
  fs st' !! q = None.
Proof.
  unfold kill, path_exists, print, emit, rm_rf. munfold.
  intros H Hmode Hsafe Hk Hq. rewrite Hsafe in H.
  rewrite (bool_decide_eq_true_2 _ Hk) in H.
  rewrite (bool_decide_eq_false_2 _ Hmode) in H.
  injection H as <- <-. cbn [fs].
  apply map_lookup_filter_None. right. intros n _ Hn. by apply Hn.
Qed.

(** After the loop of lines 216-224 nothing is left at or below a path
    that was to go. *)
Lemma kill_loop_gone mode killpaths st r st' :
  for_each killpaths (kill mode) st = (r, st') ->
  mode <> LIST ->
  (forall k, k ∈ killpaths -> shell_safe k = true) ->
  (forall k, k ∈ killpaths ->
     is_Some (fs st !! k) \/ forall q, k `prefix_of` q -> fs st !! q = None) ->
  forall k q, k ∈ killpaths -> k `prefix_of` q -> fs st' !! q = None.
Proof.
  unfold for_each. intros H Hmode. revert st H.
  induction killpaths as [|k0 killpaths IH];
    intros st H Hsafe Hinv k q Hk Hq.
  { by apply elem_of_nil in Hk. }
  cbn [foldM] in H.
  apply bind_inv in H as [([] & st1 & H1 & H)|(e & H1 & ->)];
    [|apply kill_inv in H1 as (? & _); [done|right; apply Hsafe; by left]].
  assert (shell_safe k0 = true) as Hsafe0 by (apply Hsafe; by left).
  assert (forall k, k ∈ killpaths -> shell_safe k = true) as Hsafe'
    by (intros ? ?; apply Hsafe; by right).
  pose proof (kill_inv _ _ _ _ _ H1 (or_intror Hsafe0))
    as (_ & Hsub1 & Hkeep1 & _).
  pose proof (kill_loop_inv _ _ _ _ _ H (or_intror Hsafe'))
    as (_ & Hsub & _).
  assert (forall p, fs st1 !! p = None -> fs st' !! p = None) as Hnone.
  { intros p Hp. destruct (fs st' !! p) as [n|] eqn:Hn; [|done].
    apply Hsub in Hn. congruence. }
  assert (forall p, fs st !! p = None -> fs st1 !! p = None) as Hnone1.
  { intros p Hp. destruct (fs st1 !! p) as [n|] eqn:Hn; [|done].
    apply Hsub1 in Hn. congruence. }
  apply elem_of_cons in Hk as [->|Hk].
  - apply Hnone. destruct (Hinv k0) as [Hex|Hgone]; [by left| |].
    + by eapply kill_gone.
    + by apply Hnone1, Hgone.
  - eapply (IH st1); [done|done| |done|done].
    intros k' Hk'. destruct (Hinv k') as [[n Hex]|Hgone]; [by right| |].
    + destruct (decide (k0 `prefix_of` k')) as [Hpre|Hpre].
      * right. intros q' Hq'. destruct (Hinv k0) as [Hex0|Hgone0]; [by left| |].
        -- eapply kill_gone; [done..|]. by etrans.
        -- apply Hnone1, Hgone0. by etrans.
      * left. exists n. by apply Hkeep1.
    + right. intros q' Hq'. by apply Hnone1, Hgone.
Qed.

(** Lines 201-224 in a mode that removes: what is left of the tree. *)
Lemma prune_lookup src dst mode st r st' q n :
  prune src dst mode st = (r, st') ->
  mode <> LIST -> fs st !! dst = Some Dir ->
  (forall k, orphan src dst (fs st) k -> shell_safe k = true) ->
  fs st' !! q = Some n <->
  fs st !! q = Some n
  /\ forall k, orphan src dst (fs st) k -> ~ k `prefix_of` q.
Proof.
  intros H Hmode Hdst Hsafe.
  pose proof (prune_inv _ _ _ _ _ _ H (or_intror Hsafe)) as (Hsub & Hkeep & _).
  split; [|intros [Hq Hno]; by apply Hkeep].
  intros Hq. split; [by apply Hsub|]. intros k Hk Hkq.
  enough (fs st' !! q = None) by congruence.
  clear Hsub Hkeep Hq. unfold prune in H.
  apply bind_inv in H as [(b & st0 & Hd & H)|(e & Hd & ->)]; [|done].
  unfold is_dir in Hd. injection Hd as <- <-. rewrite Hdst in H.
  cbn [negb] in H.
  apply bind_inv in H as [(entries & st1 & Hw & H)|(e & Hw & ->)];
    [|by apply os_walk_inv in Hw as (_ & ? & ? & _)].
  apply os_walk_inv in Hw as (-> & ? & [= <-] & Hentries).
  apply bind_inv in H as [(killpaths & st1 & Hf & H)|(e & Hf & ->)];
    [|by apply find_orphans_inv in Hf as (_ & ? & ? & _)].
  apply find_orphans_inv in Hf as (-> & ? & [= <-] & Hkill).
  assert (forall k, k ∈ killpaths -> is_Some (fs st !! k)) as Hex.
  { intros k' Hk'. apply Hkill in Hk' as [Hk'|(root & nm & kind & Hin & -> & _)];
      [by apply elem_of_nil in Hk'|].
    apply Hentries in Hin as (p & Hp & Htop & Hne & -> & ->).
    assert (p <> []) as Hp0
      by (intros ->; by apply prefix_nil_inv in Htop).
    rewrite parent_name by done. by exists kind. }
  eapply (kill_loop_gone mode killpaths st); [done|done| | | |done].
  - intros k' Hk'. by eapply Hsafe, prune_killpaths.
  - intros k' Hk'. left. by apply Hex.
  - destruct Hk as ([kind Hk] & Htop & Hne & Hc & Hn).
    apply Hkill. right.
    assert (k <> []) as Hk0
      by (intros ->; by apply prefix_nil_inv in Htop).
    exists (parent k), (name k), kind. rewrite parent_name by done.
    split_and!; try done.
    + apply Hentries. by exists k.
    + unfold prunable in Hc. by apply negb_true_iff in Hc.
Qed.

End PruneMore.

(** ** The check *)

Section Check.

Implicit Types (st : state) (p q dst : path).

(** The body of the loop of lines 243-250. *)
Local Abbreviation check_file :=
  (fun dstfile : path =>
     '(marker_hash, dst_hash, _) ← get_dst_file_info dstfile;
     if bool_decide (marker_hash ≠ dst_hash)
     then raise (RuntimeError (DstFileChanged dstfile))
     else mret tt).

Lemma check_file_inv p st r st' :
  check_file p st = (r, st') ->
  fs st' = fs st
  /\ (r = Ok tt ->
        exists raw m body,
          fs st !! p = Some (File raw)
          /\ dst_file_info p raw = Ok (m, m, body))
  /\ (forall q, r = Raise (RuntimeError (DstFileChanged q)) ->
        q = p
        /\ exists raw m h body,
             fs st !! p = Some (File raw)
             /\ dst_file_info p raw = Ok (m, h, body) /\ m <> h).
Proof.
  cbv beta. unfold get_dst_file_info, read_file, lift, raise. munfold.
  destruct (fs st !! p) as [[raw|]|] eqn:Hp; try by intros [= <- <-].
  destruct (dst_file_info p raw) as [[[m h] body]|e] eqn:Hinfo.
  - case_bool_decide as Hmh; intros [= <- <-]; cbn [fs].
    + split_and!; [done|done|]. intros q [= <-]. split; [done|].
      by exists raw, m, h, body.
    + subst m. split_and!; [done| |done].
      intros _. by exists raw, h, body.
  - intros [= <- <-]. split_and!; [done|done|]. intros q [= ->].
    apply dst_file_info_raises in Hinfo as [?|[?|?]]; done.
Qed.

Lemma check_loop_inv (l : list path) st r st' :
  for_each l check_file st = (r, st') ->
  fs st' = fs st
  /\ (r = Ok tt ->
        forall p, p ∈ l ->
          exists raw m body,
            fs st !! p = Some (File raw)
            /\ dst_file_info p raw = Ok (m, m, body))
  /\ (forall q, r = Raise (RuntimeError (DstFileChanged q)) ->
        q ∈ l
        /\ exists raw m h body,
             fs st !! q = Some (File raw)
             /\ dst_file_info q raw = Ok (m, h, body) /\ m <> h).
Proof.
  unfold for_each. revert st. induction l as [|p l IH]; intros st.
  - intros [= <- <-]. split_and!; [done| |done].
    intros _ p Hp. by apply elem_of_nil in Hp.
  - cbn [foldM]. intros H.
    apply bind_inv in H as [([] & st1 & H1 & H)|(e & H1 & ->)].
    + apply check_file_inv in H1 as (Hfs1 & Hok1 & _).
      apply IH in H as (Hfs & Hok & Hbad). rewrite Hfs1 in *.
      split_and!; [done| |].
      * intros Hr q [->|Hq]%elem_of_cons; [by apply Hok1|by apply Hok].
      * intros q Hr. destruct (Hbad q Hr) as [Hq ?]. split; [by right|done].
    + apply check_file_inv in H1 as (Hfs1 & _ & Hbad1).
      split_and!; [done|done|].
      intros q Hr. destruct (Hbad1 q Hr) as [-> ?]. split; [by left|done].
Qed.

Lemma check_loop_ok (l : list path) st :
  (forall p, p ∈ l ->
     exists raw m body,
       fs st !! p = Some (File raw) /\ dst_file_info p raw = Ok (m, m, body)) ->
  exists st', for_each l check_file st = (Ok tt, st') /\ fs st' = fs st.
Proof.
  unfold for_each. revert st. induction l as [|p l IH]; intros st Hl.
  - by exists st.
  - cbn [foldM]. destruct (Hl p) as (raw & m & body & Hp & Hinfo); [by left|].
    assert (check_file p st
            = (Ok tt, State (fs st) (trace st ++ [EvRead p]))) as H1.
    { cbv beta. unfold get_dst_file_info, read_file, lift. munfold.
      rewrite Hp, Hinfo. by rewrite bool_decide_eq_false_2 by (by intros ?). }
    rewrite (bind_run _ _ _ _ _ H1).
    destruct (IH (State (fs st) (trace st ++ [EvRead p]))) as (st' & -> & Hfs).
    + intros q Hq. cbn [fs]. apply Hl. by right.
    + by exists st'.
Qed.

(** The walk answers when no file below [top] has a slash in its name. *)
Lemma walk_files_ok {A} (keep : path -> A) entries acc st :
  (forall root fname data,
     (root, fname, File data) ∈ entries -> plain_filename fname) ->
  exists l, foldM (walk_file keep) entries acc st = (Ok l, st).
Proof.
  revert acc. induction entries as [|[[root fname] kind] entries IH];
    intros acc Hplain.
  - by exists acc.
  - cbn [foldM]. destruct kind as [data|].
    + assert (exists b, _valid_filename fname = Ok b) as [b Hb].
      { destruct (_valid_filename fname) as [b|e] eqn:Hv; [by exists b|].
        exfalso. unfold _valid_filename in Hv.
        rewrite plain_filename_basename, String.eqb_refl in Hv
          by (eapply Hplain; by left).
        cbn [negb] in Hv. by destruct (existsb _ _). }
      assert (walk_file keep acc (root, fname, File data) st
              = (Ok (if b then acc ++ [keep (root ++ [fname])] else acc), st))
        as H1.
      { unfold walk_file, lift. munfold. rewrite Hb. by destruct b. }
      rewrite (bind_run _ _ _ _ _ H1).
      apply IH; intros ? ? ? Hin; eapply Hplain; by right.
    + assert (walk_file keep acc (root, fname, Dir) st = (Ok acc, st))
        as H1 by done.
      rewrite (bind_run _ _ _ _ _ H1).
      apply IH; intros ? ? ? Hin; eapply Hplain; by right.
Qed.

Lemma valid_files_ok {A} top (keep : path -> A) st :
  (forall p data, fs st !! p = Some (File data) -> top `prefix_of` p ->
     p <> top -> plain_filename (name p)) ->
  exists l, valid_files top keep st = (Ok l, st).
Proof.
  intros Hplain. unfold valid_files.
  destruct (os_walk top st) as [r st0] eqn:Hw.
  pose proof (os_walk_inv _ _ _ _ Hw) as (-> & entries & -> & Hentries).
  rewrite (bind_run _ _ _ _ _ Hw). apply walk_files_ok.
  intros root fname data Hin.
  apply Hentries in Hin as (p & Hp & Htop & Hne & -> & ->). eauto.
Qed.

(** Nothing below [dst]: nothing to check. *)
Lemma check_path_nothing dst st :
  (forall p, dst `prefix_of` p -> p <> dst -> fs st !! p = None) ->
  check_path dst st = (Ok 0%nat, st).
Proof.
  intros Hnone. unfold check_path.
  destruct (valid_files_ok dst (fun dstfile => dstfile) st) as [l Hl].
  { intros p data Hp Hpre Hne. rewrite Hnone in Hp; done. }
  rewrite (bind_run _ _ _ _ _ Hl).
  apply valid_files_inv in Hl as [_ Hl]. specialize (Hl l eq_refl).
  destruct l as [|p l].
  - done.
  - destruct (proj1 (Hl p)) as (q & data & Hq & Hpre & Hne & _); [by left|].
    rewrite Hnone in Hq; done.
Qed.

End Check.

(** ** PULL and FULL *)

Section PullFull.

Implicit Types (st : state) (mode : Mode).

(** A pass in PULL mode that notes nothing does what a pass in FULL mode
    does: the two differ at line 161 only. *)
Lemma sync_file_pull_full src_proj changed pair st st' :
  sync_file src_proj PULL changed pair st = (Ok changed, st') ->
  sync_file src_proj FULL changed pair st = (Ok changed, st').
Proof.
  destruct pair as [s d]. unfold sync_file.
  rewrite !(bool_decide_eq_false_2 (PULL = FORCE)),
    !(bool_decide_eq_false_2 (PULL = LIST)),
    !(bool_decide_eq_false_2 (PULL = FULL)),
    !(bool_decide_eq_false_2 (FULL = FORCE)),
    !(bool_decide_eq_false_2 (FULL = LIST)),
    !(bool_decide_eq_true_2 (FULL = FULL)) by done.
  munfold.
  repeat
    match goal with
    | |- context [match ?x with _ => _ end] =>
        lazymatch x with
        | context [match _ with _ => _ end] => fail
        | _ => destruct x eqn:?
        end
    end; try done.
  all: intros [= Hch _]; apply (f_equal length) in Hch;
    rewrite length_app in Hch; cbn [length] in Hch; lia.
Qed.

Lemma foldM_pull_full src_proj l changed st st' :
  foldM (sync_file src_proj PULL) l changed st = (Ok changed, st') ->
  foldM (sync_file src_proj FULL) l changed st = (Ok changed, st').
Proof.
  revert st. induction l as [|pair l IH]; intros st; [done|].
  cbn [foldM]. intros H.
  apply bind_inv in H as [(ch1 & st1 & H1 & H)|(? & _ & ?)]; [|done].
  assert (ch1 = changed) as ->.
  { apply foldM_sync_file_changed in H as [t Ht].
    apply sync_file_changed in H1 as [->| ->]; [done|].
    apply (f_equal length) in Ht. rewrite !length_app in Ht.
    cbn [length] in Ht. lia. }
  apply sync_file_pull_full in H1. rewrite (bind_run _ _ _ _ _ H1). by apply IH.
Qed.

Lemma prune_mode src dst mode mode' st :
  mode <> LIST -> mode' <> LIST ->
  prune src dst mode st = prune src dst mode' st.
Proof.
  intros Hm Hm'. unfold prune, kill.
  by rewrite (bool_decide_eq_false_2 _ Hm), (bool_decide_eq_false_2 _ Hm').
Qed.

(** A run in PULL mode that returns did what a run in FULL mode does. *)
Lemma sync_paths_pull_as_full src_proj src dst st n st' :
  sync_paths src_proj src dst PULL st = (Ok n, st') ->
  sync_paths src_proj src dst FULL st = (Ok n, st').
Proof.
  unfold sync_paths.
  rewrite (bool_decide_eq_false_2 (PULL = CHECK)),
    (bool_decide_eq_false_2 (FULL = CHECK)) by done.
  intros H.
  apply bind_inv in H as [(l & st1 & Hc & H)|(? & _ & ?)]; [|done].
  rewrite (bind_run _ _ _ _ _ Hc).
  apply bind_inv in H as [(changed & st2 & Hloop & H)|(? & _ & ?)]; [|done].
  apply bind_inv in H as [([] & st3 & Hp & H)|(? & _ & ?)]; [|done].
  case_bool_decide as Hch; cbn [negb] in H; [|done]. subst changed.
  apply foldM_pull_full in Hloop. rewrite (bind_run _ _ _ _ _ Hloop).
  rewrite (prune_mode _ _ PULL FULL) in Hp by done.
  rewrite (bind_run _ _ _ _ _ Hp). by rewrite bool_decide_eq_true_2.
Qed.

End PullFull.

(** ** Sync, then check *)

Section SyncCheck.

Implicit Types (st : state) (p q k src dst : path) (mode : Mode).

Lemma valid_filename_plain fname b :
  _valid_filename fname = Ok b -> plain_filename fname.
Proof.
  intros Hv a c ->. unfold _valid_filename in Hv.
  assert ((PyStr.basename (a +:+ "/" +:+ c) =? a +:+ "/" +:+ c)%string = false)
    as Hb.
  { apply String.eqb_neq. intros Hb. apply basename_id in Hb.
    assert (PyStr.contains "/" (a +:+ "/" +:+ c) = true)
      by (apply contains_spec; eauto).
    congruence. }
  by rewrite Hb in Hv.
Qed.

Lemma name_app p rel : rel <> [] -> name (p ++ rel) = name rel.
Proof.
  intros Hrel. unfold name. induction p as [|c p IH]; [done|].
  cbn [app]. destruct (p ++ rel) eqn:Hp; [|done].
  by apply app_eq_nil in Hp as [_ ->].
Qed.

Lemma relative_to_app p rel : relative_to (p ++ rel) p = rel.
Proof. unfold relative_to. by rewrite drop_app_length. Qed.

(** The files after a loop: those of before, and the files of its pairs. *)
Lemma loop_files src_proj mode l changed st changed' st' k x :
  mode <> FORCE ->
  foldM (sync_file src_proj mode) l changed st = (Ok changed', st') ->
  fs st' !! k = Some (File x) ->
  (exists pair, pair ∈ l /\ (k = pair.1 \/ k = pair.2))
  \/ fs st !! k = Some (File x).
Proof.
  intros Hmode. revert changed st.
  induction l as [|[s d] l IH]; intros changed st.
  - intros [= <- <-]. by right.
  - cbn [foldM]. intros H Hk.
    apply bind_inv in H as [(ch1 & st1 & H1 & H)|(? & _ & ?)]; [|done].
    destruct (IH _ _ H Hk) as [(pair & Hin & Hp)|Hk1].
    + left. exists pair. split; [by right|done].
    + destruct (decide (k = d)) as [->|Hkd].
      { left. exists (s, d). split; [by left|by right]. }
      apply sync_file_frame in H1 as (_ & _ & Hfiles & _); [|done].
      destruct (Hfiles k x Hkd Hk1) as [?|[-> _]]; [by right|].
      left. exists (s, d). split; [by left|by left].
Qed.

(** A loop makes nothing at a place that is not on the way to one of its
    destinations. *)
Lemma loop_keeps_none src_proj mode l changed st changed' st' c :
  mode <> FORCE ->
  foldM (sync_file src_proj mode) l changed st = (Ok changed', st') ->
  (forall pair, pair ∈ l -> ~ c `prefix_of` pair.2) ->
  fs st !! c = None -> fs st' !! c = None.
Proof.
  intros Hmode. revert changed st.
  induction l as [|[s d] l IH]; intros changed st.
  - by intros [= <- <-].
  - cbn [foldM]. intros H Hl Hc.
    apply bind_inv in H as [(ch1 & st1 & H1 & H)|(? & _ & ?)]; [|done].
    eapply IH; [done|intros pair Hin; apply Hl; by right|].
    pose proof (sync_file_frame _ _ _ _ _ _ _ _ Hmode H1) as (_ & _ & _ & [y Hs]).
    rewrite (sync_file_outside _ _ _ _ _ _ _ _ H1); [done|].
    intros [Hcd|[_ ->]]; [|congruence].
    by apply (Hl (s, d)); [left|].
Qed.

(** After a run in FULL mode that returns, the check of the destination
    passes. *)
Lemma sync_full_checks src_proj src dst s0 n s1 :
  ~ src `prefix_of` dst -> ~ dst `prefix_of` src ->
  wf_fs (fs s0) -> no_linebreak src_proj = true ->
  (forall p data, src `prefix_of` p -> fs s0 !! p = Some (File data) ->
     lf_text data = true) ->
  checkable src dst (fs s0) ->
  safe_names (fs s0) -> forallb safe_component dst = true ->
  sync_paths src_proj src dst FULL s0 = (Ok n, s1) ->
  exists m s2, check_path dst s1 = (Ok m, s2).
Proof.
  intros Hsd Hds Hwf Hproj Hlf Hchk Hsafe0 Hsafe_dst Hrun.
  assert (FULL <> FORCE) as Hmode by done.
  destruct (sync_paths_completed _ _ _ _ _ _ _ Hrun)
    as (allpaths & changed & s1' & Hcheck & Hcollect & Hloop & Hprune);
    [left; by exists n|].
  pose proof (collect_paths_inv _ _ _ _ _ Hcollect) as [_ Hpaths].
  specialize (Hpaths _ eq_refl).
  assert (safe_names (fs s1')) as Hsafe1.
  { eapply loop_safe_names; [exact Hloop| |done].
    by eapply collect_paths_safe. }
  (* the pairs of the run *)
  assert (forall pair, pair ∈ allpaths ->
            paired src dst pair
            /\ exists data, fs s0 !! pair.1 = Some (File data)) as Hpairs.
  { intros pair Hin.
    destruct Hpaths as [(data & Hsrc & ->)|[Hsrc Hall]].
    - apply list_elem_of_singleton in Hin as ->. split; [|by exists data].
      exists []. by rewrite !app_nil_r.
    - apply Hall in Hin as (p & data & Hp & [rel ->] & _ & _ & ->).
      split; [|by exists data]. exists rel. split; [done|].
      by rewrite relative_to_app. }
  assert (Forall (paired src dst) allpaths) as Hpaired.
  { apply Forall_forall. intros pair Hin. by apply Hpairs. }
  destruct (loop_settles src_proj src dst FULL Hmode Hsd Hds Hproj
              allpaths [] s0 changed s1' Hloop Hpaired)
    as (Hsettled & Hdirs & Hfiles).
  { intros _ pair data Hin Hdata. apply (Hlf pair.1); [|done].
    destruct (Hpairs _ Hin) as [(rel & -> & _) _]. by apply prefix_app_r. }
  assert (forall pair, pair ∈ allpaths -> settled FULL (fs s1) pair)
    as Hsettled1.
  { intros pair Hin. destruct (Hpairs _ Hin) as [Hp [data Hdata]].
    assert (settled FULL (fs s1') pair) as Hset by auto.
    eapply (settled_prune src dst FULL Hsd Hds); try done.
    intros q Hsrc Hq. destruct (decide (q = pair.1)) as [->|Hne].
    - destruct Hset as (? & -> & _). done.
    - exists Dir. apply Hdirs. by eapply Hwf. }
  pose proof (prune_inv _ _ _ _ _ _ Hprune (prune_safe _ _ _ _ Hsafe1))
    as (Hsub & _ & Hgone & _).
  (* the files below the destination after the run *)
  assert (forall k data,
            fs s1 !! k = Some (File data) -> dst `prefix_of` k ->
            (exists pair, pair ∈ allpaths /\ k = pair.2)
            \/ fs s0 !! k = Some (File data)) as Hbelow.
  { intros k data Hk Hdk. apply Hsub in Hk.
    destruct (loop_files _ _ _ _ _ _ _ _ _ Hmode Hloop Hk)
      as [(pair & Hin & [->| ->])|?]; [|by eauto|by right].
    destruct (Hpairs _ Hin) as [(rel & Hp1 & _) _].
    destruct (apart src dst Hsd Hds pair.1); [|done].
    rewrite Hp1. by apply prefix_app_r. }
  assert (forall pair, pair ∈ allpaths -> pair.2 <> dst ->
            plain_filename (name pair.2)) as Hnames.
  { intros pair Hin Hne.
    destruct Hpaths as [(data & Hsrc & ->)|[Hsrc Hall]].
    - by apply list_elem_of_singleton in Hin as ->.
    - apply Hall in Hin as (p & data & Hp & [rel ->] & Hps & Hvalid & ->).
      cbn [snd] in *. rewrite relative_to_app in *.
      assert (rel <> []) as Hrel by (intros ->; by rewrite app_nil_r in Hps).
      rewrite name_app in * by done. by eapply valid_filename_plain. }
  destruct (valid_files_ok dst (fun dstfile => dstfile) s1) as [l Hl].
  { intros p data Hp Hdp Hne.
    destruct (Hbelow _ _ Hp Hdp) as [(pair & Hin & ->)|Hp0]; [by apply Hnames|].
    by apply (Hchk p data). }
  unfold check_path. rewrite (bind_run _ _ _ _ _ Hl).
  pose proof (valid_files_inv _ _ _ _ _ Hl) as [_ Hlist].
  specialize (Hlist l eq_refl).
  destruct (check_loop_ok l s1) as (s2 & Hloop2 & _).
  { intros p Hin.
    apply Hlist in Hin as (q & data & Hq & Hdq & Hne & Hvalid & ->).
    assert (exists pair, pair ∈ allpaths /\ q = pair.2) as (pair & Hin & ->).
    { destruct (Hbelow _ _ Hq Hdq) as [?|Hq0]; [done|].
      destruct (Hchk q data Hdq Hne Hq0) as [_ Hc].
      specialize (Hc Hvalid).
      pose proof Hdq as [rel ->]. rewrite relative_to_app in Hc.
      assert (rel <> []) as Hrel by (intros ->; by rewrite app_nil_r in Hne).
      destruct (fs s0 !! (src ++ rel)) as [[y|]|] eqn:Hc0; [|done|].
      - exists (src ++ rel, dst ++ rel). split; [|done].
        destruct Hpaths as [(data0 & Hsrc0 & ->)|[Hsrc0 Hall]].
        + assert (fs s0 !! src = Some Dir); [|congruence].
          eapply (Hwf (src ++ rel)); [exact Hc0|by apply prefix_app_r|].
          intros Heq. apply Hrel. apply (f_equal length) in Heq.
          rewrite length_app in Heq. destruct rel; [done|].
          cbn [length] in Heq. lia.
        + apply Hall. exists (src ++ rel), y.
          split_and!; [done|by apply prefix_app_r| | |].
          * intros Heq. apply Hrel. apply (f_equal length) in Heq.
            rewrite length_app in Heq. destruct rel; [done|].
            cbn [length] in Heq. lia.
          * rewrite name_app in * by done. done.
          * by rewrite relative_to_app.
      - exfalso.
        assert (fs s1' !! (src ++ rel) = None) as Hc1.
        { eapply loop_keeps_none; [done|exact Hloop| |done].
          intros pair Hin Hpre.
          destruct (Hpairs _ Hin) as [(rel' & _ & Hp2) _].
          destruct (apart src dst Hsd Hds pair.2); [|rewrite Hp2; by apply prefix_app_r].
          etrans; [|exact Hpre]. by apply prefix_app_r. }
        assert (fs s1 !! (dst ++ rel) = None) as Hnone; [|congruence].
        apply Hgone; [done| |].
        + apply Hdirs. eapply Hwf; [exact Hq0|by apply prefix_app_r|done].
        + split_and!; [by eexists; apply Hsub|done|done|done|].
          by rewrite relative_to_app. }
    destruct (Hsettled1 pair Hin)
      as (srcdata & _ & _ & [?|(raw & mh & dh & body & Hraw & Hinfo & _ & [->|?])]);
      try done.
    by exists raw, mh, body. }
  rewrite (bind_run _ _ _ _ _ Hloop2). by eexists _, _.
Qed.

End SyncCheck.

(** ** The files of a walk *)

Section Count.

Implicit Types (st : state) (p top : path).

Lemma walk_files_eq {A} (keep : path -> A) entries acc st l st' :
  foldM (walk_file keep) entries acc st = (Ok l, st') ->
  l = acc ++ omap (fun e : path * string * node =>
                     match e.2 with
                     | File _ =>
                         match _valid_filename e.1.2 with
                         | Ok true => Some (keep (e.1.1 ++ [e.1.2]))
                         | _ => None
                         end
                     | Dir => None
                     end) entries.
Proof.
  revert acc st. induction entries as [|[[root fname] kind] entries IH];
    intros acc st.
  - cbn [foldM omap]. intros [= <- _]. by rewrite app_nil_r.
  - cbn [foldM]. intros H.
    apply bind_inv in H as [(acc1 & st1 & H1 & H)|(? & _ & ?)]; [|done].
    apply IH in H as ->. cbn [omap list_omap fst snd].
    unfold walk_file, lift in H1. destruct kind as [data|].
    + revert H1. munfold.
      destruct (_valid_filename fname) as [[|]|e]; [| |done];
        intros [= <- _]; [by rewrite <- app_assoc|done].
    + by injection H1 as <- _.
Qed.

(** The files that a walk collects. *)
Lemma valid_files_eq {A} top (keep : path -> A) st l st' :
  valid_files top keep st = (Ok l, st') ->
  l = map keep (valid_paths top (fs st)).
Proof.
  unfold valid_files, os_walk. munfold. intros H.
  apply walk_files_eq in H as ->. cbn [app]. unfold valid_paths.
  generalize (map_to_list (fs st)). intros kvs.
  induction kvs as [|[p n] kvs IH]; [done|].
  cbn [omap list_omap fst snd]. case_bool_decide as Hp; [|done].
  cbn [omap list_omap fst snd].
  assert (parent p ++ [name p] = p) as Hpn.
  { apply parent_name. intros ->. destruct Hp as [Hpre Hne].
    by apply prefix_nil_inv in Hpre. }
  rewrite Hpn.
  destruct n as [data|]; [|done].
  destruct (_valid_filename (name p)) as [[|]|e]; [|done..].
  cbn [map]. by rewrite IH.
Qed.

End Count.

(** * The claims *)

(** C1, as amended.  In PULL mode, when the run comes to a pair whose source
    still has the hash of the marker while the destination body has not,
    the destination is noted and nothing is written for the pair; and when
    the loop gets through all pairs, the run, after pruning, fails with the
    RuntimeError that lists the noted destinations, this one among them. *)
Theorem sync_paths_pull_conflict (src_proj : string) (src dst : path)
    (s0 s : state) (pre post : list (path * path)) (changed : list path)
    (srcfile dstfile : path) (srcdata marker_hash dst_hash dstdata : string) :
  collect_paths src dst s0 = (Ok (pre ++ (srcfile, dstfile) :: post), s0) ->
  foldM (sync_file src_proj PULL) pre [] s0 = (Ok changed, s) ->
  pair_state (fs s) srcfile dstfile srcdata marker_hash dst_hash dstdata ->
  string_hash srcdata = marker_hash ->
  dst_hash <> marker_hash ->
  sync_file src_proj PULL changed (srcfile, dstfile) s
  = (Ok (changed ++ [dstfile]), after_reads s srcfile dstfile)
  /\ forall changed' s1,
       foldM (sync_file src_proj PULL) (pre ++ (srcfile, dstfile) :: post)
         [] s0 = (Ok changed', s1) ->
       dstfile ∈ changed'
       /\ exists s2,
            prune src dst PULL s1 = (Ok tt, s2)
            /\ sync_paths src_proj src dst PULL s0
               = (Raise (RuntimeError (DstFilesChanged changed')), s2).
Proof.
  intros Hcollect Hpre Hpair Hsm Hdm.
  pose proof (sync_file_conflict src_proj changed s srcfile dstfile
                _ _ _ _ Hpair Hsm Hdm) as Hfile.
  split; [done|]. intros changed' s1 Hall.
  assert (dstfile ∈ changed') as Hin.
  { rewrite foldM_app, Hpre in Hall. cbn [foldM] in Hall.
    rewrite (bind_run _ _ _ _ _ Hfile) in Hall.
    apply foldM_sync_file_changed in Hall as [rest ->].
    rewrite !elem_of_app, list_elem_of_singleton. auto. }
  split; [done|].
  destruct (prune_ok src dst PULL s1) as [s2 Hprune]. exists s2.
  split; [done|].
  rewrite (sync_paths_unfold src_proj src dst PULL s0 _ ltac:(done) Hcollect).
  rewrite Hall.
  rewrite (bind_run _ _ _ _ _ Hprune).
  rewrite bool_decide_eq_false_2; [done|]. by intros ->; inversion Hin.
Qed.

(** C2, as amended.  In PULL, FULL and LIST mode, when the run comes to a
    pair whose marker hash is neither the hash of the source nor the hash
    of the destination body, and these two differ, the pass over the pair
    and with it the whole run fail with the RuntimeError that names both
    files; the files have been read and nothing has been written. *)
Theorem sync_paths_diverged (src_proj : string) (src dst : path)
    (mode : Mode) (s0 s : state) (pre post : list (path * path))
    (changed : list path) (srcfile dstfile : path)
    (srcdata marker_hash dst_hash dstdata : string) :
  mode = PULL \/ mode = FULL \/ mode = LIST ->
  collect_paths src dst s0 = (Ok (pre ++ (srcfile, dstfile) :: post), s0) ->
  foldM (sync_file src_proj mode) pre [] s0 = (Ok changed, s) ->
  pair_state (fs s) srcfile dstfile srcdata marker_hash dst_hash dstdata ->
  marker_hash <> string_hash srcdata ->
  marker_hash <> dst_hash ->
  string_hash srcdata <> dst_hash ->
  sync_file src_proj mode changed (srcfile, dstfile) s
  = (Raise (RuntimeError (BothChanged srcfile dstfile)),
     after_reads s srcfile dstfile)
  /\ sync_paths src_proj src dst mode s0
     = (Raise (RuntimeError (BothChanged srcfile dstfile)),
        after_reads s srcfile dstfile).
Proof.
  intros Hmode Hcollect Hpre Hpair Hms Hmd Hsd.
  assert (mode <> FORCE /\ mode <> CHECK) as [HF HC]
    by (by destruct Hmode as [->|[->| ->]]).
  pose proof (sync_file_diverged src_proj mode changed s srcfile dstfile
                _ _ _ _ HF Hpair Hms Hmd Hsd) as Hfile.
  split; [done|].
  by apply (sync_paths_raise_at _ _ _ _ _ pre post changed s srcfile dstfile).
Qed.

(** C3, as amended.  For a project id without line boundary and a text that
    ends with a line feed, has no other kind of line boundary and no sync
    hash on its second line, [add_marker] succeeds and taking the marker
    off again gives the hash of the text twice and the text itself. *)
Theorem marker_roundtrip (dstfile : path) (src_proj content : string) :
  no_linebreak src_proj = true ->
  lf_text content = true ->
  unmarked content = true ->
  exists enc,
    add_marker src_proj content = Ok enc /\
    dst_file_info dstfile enc
    = Ok (string_hash content, string_hash content, content).
Proof.
  intros Hproj Hlf Hun. by apply add_marker_lf_text.
Qed.



(** In FULL mode the second run writes when a source file has no final
    line feed: the first run pulls it, the destination body reads back
    with the line feed, and the second run pushes that body to the source. *)
Lemma sync_paths_twice_full_no_newline :
  let s0 := State fs_no_newline [] in
  let run1 := sync_paths "proj" src_a dst_a FULL s0 in
  let run2 := sync_paths "proj" src_a dst_a FULL (State (fs run1.2) []) in
  run1.1 = Ok 1%nat
  /\ run2.1 = Ok 1%nat
  /\ trace run2.2
     = [EvRead src_a; EvRead dst_a; EvPrint (Pushing "proj" dst_a);
        EvOpenW src_a; EvWrite src_a x1; EvOpenW dst_a;
        EvWrite dst_a (marked "proj" (string_hash x1) x1)].
Proof. split_and!; vm_compute; reflexivity. Qed.

(** C6, as amended.  In every mode but CHECK, for a pair of distinct files
    where the source text and the destination body are the same text, so
    that their hashes agree, while the marker has another hash, a project
    id without line boundary and a text without sync hash on its second
    line: the pass succeeds, touches no path but the destination, and,
    unless the mode is LIST, leaves a destination whose marker hash is the
    hash of the text and whose body is the body it had.  In LIST mode the
    file system stays as it is. *)
Theorem sync_file_same_change (src_proj : string) (mode : Mode)
    (changed : list path) (s : state) (srcfile dstfile : path)
    (srcdata marker_hash dst_hash dstdata : string) :
  mode <> CHECK ->
  srcfile <> dstfile ->
  pair_state (fs s) srcfile dstfile srcdata marker_hash dst_hash dstdata ->
  string_hash srcdata = dst_hash ->
  marker_hash <> dst_hash ->
  srcdata = dstdata ->
  no_linebreak src_proj = true ->
  unmarked srcdata = true ->
  exists s',
    sync_file src_proj mode changed (srcfile, dstfile) s = (Ok changed, s')
    /\ fs s' !! srcfile = Some (File srcdata)
    /\ (forall p, p <> dstfile -> fs s' !! p = fs s !! p)
    /\ if bool_decide (mode = LIST) then fs s' = fs s
       else exists enc,
         fs s' !! dstfile = Some (File enc)
         /\ dst_file_info dstfile enc = Ok (dst_hash, dst_hash, dstdata).
Proof.
  intros _ Hdistinct (raw & Hsrc & Hdst & Hdirs & Hinfo) Hsd Hmd <- Hproj Hun.
  pose proof (dst_file_info_body _ _ _ _ _ Hinfo) as [_ Hnorm].
  assert (exists enc, add_marker src_proj srcdata = Ok enc) as [enc Hadd]
    by (eexists; by apply add_marker_unmarked).
  pose proof (dst_file_info_add_marker _ _ _ dstfile Hproj Hadd) as Hdec.
  rewrite Hnorm, Hsd in Hdec.
  assert (forall tr,
            pull src_proj dstfile srcdata (State (fs s) tr)
            = (Ok tt, State (<[dstfile := File enc]> (fs s))
                        (tr ++ [EvOpenW dstfile; EvWrite dstfile enc])))
    as Hpull.
  { intros tr. rewrite (pull_run _ _ _ _ enc); cbn [fs];
      [done| |by rewrite Hdst|done].
    by apply dirs_above_parent. }
  destruct (decide (mode = FORCE)) as [->|Hmode].
  - eexists. split; [|split; [|split]].
    + unfold sync_file.
      rewrite (bind_run _ _ _ _ _ (is_file_run _ _)), Hsrc. cbn [negb].
      rewrite (bind_run _ _ _ _ _ (mkdir_parents_noop _ _ Hdirs)).
      rewrite (bind_run _ _ _ _ _ (read_file_run _ _ _ Hsrc)).
      rewrite (bind_run _ _ _ _ _ (is_file_run _ _)). cbn [fs].
      rewrite Hdst. cbn [negb orb bool_decide decide_rel].
      rewrite (bool_decide_eq_true_2 (FORCE = FORCE)) by done.
      rewrite (bool_decide_eq_false_2 (FORCE = LIST)) by done.
      unfold print, emit. munfold. cbn [fs trace].
      by rewrite Hpull.
    + cbn [fs]. by rewrite lookup_insert_ne.
    + intros p Hp. cbn [fs]. by rewrite lookup_insert_ne.
    + rewrite (bool_decide_eq_false_2 (FORCE = LIST)) by done.
      eexists. split; [|exact Hdec]. cbn [fs]. by rewrite lookup_insert_eq.
  - rewrite (sync_file_start _ _ _ _ _ _ _ _ Hsrc Hdst Hdirs Hmode).
    unfold mbind at 1, M_bind at 1, lift at 1. rewrite Hinfo.
    cbv beta iota.
    rewrite (bool_decide_eq_false_2 (dst_hash = marker_hash)) by done.
    rewrite (bool_decide_eq_false_2 (string_hash srcdata = marker_hash))
      by congruence.
    rewrite (bool_decide_eq_true_2 (marker_hash ≠ string_hash srcdata))
      by congruence.
    rewrite (bool_decide_eq_true_2 (marker_hash ≠ dst_hash)) by done.
    rewrite (bool_decide_eq_true_2 (string_hash srcdata = dst_hash)) by done.
    rewrite andb_false_r. cbn [andb].
    destruct (bool_decide (mode = LIST)) eqn:Hlist.
    + eexists. split; [|split; [|split]].
      * unfold print, emit, after_reads. munfold. done.
      * done.
      * done.
      * done.
    + eexists. split; [|split; [|split]].
      * unfold print, emit, after_reads. munfold. cbn [fs trace].
        by rewrite Hpull.
      * cbn [fs]. by rewrite lookup_insert_ne.
      * intros p Hp. cbn [fs]. by rewrite lookup_insert_ne.
      * eexists. split; [|exact Hdec]. cbn [fs]. by rewrite lookup_insert_eq.
Qed.

(** C7, at a source file whose destination directory is not there yet: in
    LIST mode the run makes the directory (line 122 comes before any look
    at the mode) and then only reports the pull. *)
Theorem sync_paths_LIST_makes_directory :
  let s0 := State fs_new [] in
  fs s0 !! ["dst"] = None
  /\ exists s',
       sync_paths "proj" src_a dst_a LIST s0 = (Ok 1%nat, s')
       /\ fs s' !! ["dst"] = Some Dir
       /\ trace s'
          = [EvMkdir ["dst"]; EvRead src_a;
             EvPrint (WouldPull "proj" dst_a)].
Proof.
  split; [vm_compute; reflexivity|].
  eexists. split_and!.
  - vm_compute. reflexivity.
  - vm_compute. reflexivity.
  - vm_compute. reflexivity.
Qed.

(** C8, at a file of one line: there is no second line to look at, and the
    failure is an [IndexError], not the [ValueError] of a file without
    marker. *)
Theorem dst_file_info_one_line :
  dst_file_info ["dst"; "a.py"] ("# Synced from proj." +:+ LF)
  = Raise IndexError.
Proof. reflexivity. Qed.

(** The same happens when the second line has [EFRO_SYNC_HASH] without the
    equals sign: line 288 lets it pass and line 290 finds nothing to take. *)
Lemma dst_file_info_no_equals_sign :
  dst_file_info ["dst"; "a.py"]
    ("# Synced from proj." +:+ LF +:+ "# EFRO_SYNC_HASH 12" +:+ LF
       +:+ "#" +:+ LF +:+ "x=1" +:+ LF)
  = Raise IndexError.
Proof. reflexivity. Qed.

(** C9.  A simple filename passes the filter exactly when it is one of the
    seven listed names, or ends in [.py] or [.pyi] and does not contain
    [flycheck_]. *)
Theorem valid_filename_spec (fname : string) :
  plain_filename fname ->
  exists ok, _valid_filename fname = Ok ok /\
    (ok = true <->
     In fname ["requirements.txt"; "pylintrc"; "clang-format"; "pycheckers";
               "style.yapf"; "test_task_bin"; ".editorconfig"]
     \/ ((exists stem, fname = stem +:+ ".py")
         \/ (exists stem, fname = stem +:+ ".pyi"))
        /\ ~ (exists a b, fname = a +:+ "flycheck_" +:+ b)).
Proof.
  intros Hplain. unfold _valid_filename.
  rewrite (plain_filename_basename _ Hplain), String.eqb_refl.
  cbn [negb].
  match goal with |- context [existsb ?f ?l] =>
    destruct (existsb f l) eqn:Hin end.
  - exists true. split; [done|]. split; [|done]. intros _. left.
    apply existsb_exists in Hin as (x & Hx & Heq).
    apply String.eqb_eq in Heq. by subst.
  - eexists. split; [done|].
    rewrite andb_true_iff, negb_true_iff. cbn [existsb].
    rewrite orb_false_r, orb_true_iff, !endswith_spec.
    split.
    + intros [Hext Hfly]. right. split; [done|].
      intros Hex. apply contains_spec in Hex. congruence.
    + intros [Hl|[Hext Hfly]].
      * assert (existsb (String.eqb fname)
                  ["requirements.txt"; "pylintrc"; "clang-format";
                   "pycheckers"; "style.yapf"; "test_task_bin";
                   ".editorconfig"] = true) as Hin'.
        { apply existsb_exists. exists fname. split; [done|].
          apply String.eqb_refl. }
        congruence.
      * split; [done|].
        destruct (PyStr.contains "flycheck_" fname) eqn:Hc; [|done].
        destruct Hfly. by apply contains_spec.
Qed.

(** C10.  In CHECK mode [sync_paths] raises its ValueError at once: the
    state, file system and trace of reads and writes alike, is the one it
    was called in. *)
Theorem sync_paths_check_mode (src_proj : string) (src dst : path)
    (s : state) :
  sync_paths src_proj src dst CHECK s = (Raise (ValueError CheckModeCall), s).
Proof. reflexivity. Qed.

(** * Further properties of the code *)

(** ** The filename filter and the codec *)

(** X1.  [_valid_filename] fails exactly for a name with a slash in it, and
    then with the ValueError of line 38; for every other name it answers. *)
Theorem valid_filename_raises_iff (fname : string) (e : exn) :
  _valid_filename fname = Raise e <->
  e = ValueError (NotSimpleFilename fname)
  /\ exists a b, fname = a +:+ "/" +:+ b.
Proof.
  unfold _valid_filename.
  destruct (PyStr.contains "/" fname) eqn:Hc.
  - assert ((PyStr.basename fname =? fname)%string = false) as ->.
    { apply String.eqb_neq. intros Hb. apply basename_id in Hb. congruence. }
    cbn [negb]. split.
    + intros [= <-]. split; [done|]. by apply contains_spec.
    + by intros [-> _].
  - assert ((PyStr.basename fname =? fname)%string = true) as ->.
    { apply String.eqb_eq. by apply basename_id. }
    cbn [negb]. split.
    + by destruct (existsb _ _).
    + intros [_ Hex]. apply contains_spec in Hex. congruence.
Qed.

(** X2.  [add_marker] refuses what [add_marker] wrote (for a project id
    without line boundary): a synced file is never marked a second time,
    whatever project it is then pulled for. *)
Theorem add_marker_twice (src_proj src_proj' srcdata enc : string) :
  no_linebreak src_proj = true ->
  add_marker src_proj srcdata = Ok enc ->
  add_marker src_proj' enc = Raise (RuntimeError ItselfSynced).
Proof.
  intros Hproj Hadd. apply add_marker_marked. unfold unmarked.
  rewrite (add_marker_splitlines _ _ _ Hproj Hadd). cbn [nth].
  apply negb_false_iff, contains_spec.
  by exists "# ", (string_hash srcdata).
Qed.

(** X3.  Taking the marker off what [add_marker] wrote, for any text it
    accepts: the hash of the marker is the hash of the text as it was, the
    body is the text with every line ended by one line feed, and the second
    hash is the hash of that body.  This form of a text is stable: it ends
    with a line feed, has no other line boundary, and is its own normal
    form. *)
Theorem marker_decode_normalizes (dstfile : path)
    (src_proj srcdata enc : string) :
  no_linebreak src_proj = true ->
  add_marker src_proj srcdata = Ok enc ->
  dst_file_info dstfile enc
  = Ok (string_hash srcdata, string_hash (normalized srcdata),
        normalized srcdata)
  /\ lf_text (normalized srcdata) = true
  /\ normalized (normalized srcdata) = normalized srcdata.
Proof.
  intros Hproj Hadd.
  assert (lf_text (normalized srcdata) = true) as Hlf
    by apply lf_text_join, splitlines_from_no_linebreak.
  split_and!; [|done|by apply normalized_lf_text].
  by apply (dst_file_info_add_marker src_proj).
Qed.

(** X4.  Every outcome of [get_dst_file_info] on the text of a file, by its
    lines: the ValueError of line 287 for the empty text, the ValueError of
    line 289 when there is a second line without [EFRO_SYNC_HASH], an
    IndexError when there is one line only or when the second line has
    [EFRO_SYNC_HASH] but not [EFRO_SYNC_HASH=], and a result exactly when
    the second line has [EFRO_SYNC_HASH=]; the body is then everything
    after the third line, each line ended by a line feed, and the second
    hash is the hash of this body. *)
Theorem dst_file_info_outcome (dstfile : path) (dstdata : string) :
  let lines := PyStr.splitlines dstdata in
  let line1 := nth 1 lines "" in
  let body := PyStr.join LF (drop 3 lines) +:+ LF in
  (dst_file_info dstfile dstdata = Raise (ValueError (NoLinesFound dstfile))
   <-> dstdata = "")
  /\ (dst_file_info dstfile dstdata
      = Raise (ValueError (NoSyncHashFound dstfile))
      <-> (2 <= length lines)%nat
          /\ PyStr.contains "EFRO_SYNC_HASH" line1 = false)
  /\ (dst_file_info dstfile dstdata = Raise IndexError
      <-> length lines = 1%nat
          \/ PyStr.contains "EFRO_SYNC_HASH" line1 = true
             /\ PyStr.contains "EFRO_SYNC_HASH=" line1 = false)
  /\ ((exists marker_hash,
         dst_file_info dstfile dstdata
         = Ok (marker_hash, string_hash body, body))
      <-> PyStr.contains "EFRO_SYNC_HASH=" line1 = true)
  /\ (forall r, dst_file_info dstfile dstdata = Ok r ->
        r.1.2 = string_hash body /\ r.2 = body).
Proof.
  intros lines line1 body.
  assert (forall l, PyStr.contains "EFRO_SYNC_HASH=" l = true ->
            PyStr.contains "EFRO_SYNC_HASH" l = true) as Hsub.
  { intros l Hl. apply contains_spec in Hl as (a & b & ->).
    apply contains_spec. by exists a, ("=" +:+ b). }
  assert (dstdata = "" <-> lines = []) as Hempty.
  { split; [by intros ->|]. intros Hl.
    destruct (decide (dstdata = "")) as [|Hne]; [done|].
    by apply splitlines_nonempty in Hne. }
  rewrite dst_file_info_cases. subst body line1 lines.
  destruct (PyStr.splitlines dstdata) as [|l0 [|l1 ls]] eqn:Hlines;
    cbn [nth length]; rewrite Hempty;
    [| |destruct (PyStr.contains "EFRO_SYNC_HASH=" l1) eqn:Hc;
        [rewrite (Hsub _ Hc)
        |destruct (PyStr.contains "EFRO_SYNC_HASH" l1) eqn:Hc']];
    cbn [negb];
    (split_and!;
     [split; intros; by simplify_eq
     |split; intros; destruct_and?;
        first [by simplify_eq | lia | split; [cbn [length]; lia|done]]
     |split; intros; destruct_or?; destruct_and?; simplify_eq/=;
        (done || lia || auto)
     |split; [intros [? ?]|intros ?]; simplify_eq/=; (done || by eexists)
     |intros r ?; by simplify_eq]).
Qed.

(** X5.  What [get_dst_file_info] gives as the body of a file, marked
    again, reads back as itself with both hashes equal to the hash it
    had: the rewrite of line 168 leaves a destination that is in sync with
    the body pushed to the source. *)
Theorem decode_encode_roundtrip (dstfile : path)
    (raw marker_hash dst_hash dstdata src_proj : string) :
  dst_file_info dstfile raw = Ok (marker_hash, dst_hash, dstdata) ->
  no_linebreak src_proj = true ->
  unmarked dstdata = true ->
  exists enc,
    add_marker src_proj dstdata = Ok enc
    /\ dst_file_info dstfile enc = Ok (dst_hash, dst_hash, dstdata).
Proof.
  apply decode_encode_codec.
Qed.

(** X6.  [string_hash] is the MD5 digest written as a decimal number: a
    non-empty string of digits that keeps all of the digest, so that two
    texts have the same hash string exactly when they have the same
    digest. *)
Theorem string_hash_digest (a b : string) :
  (string_hash a = string_hash b
   <-> MD5.digest (encode a) = MD5.digest (encode b))
  /\ all_chars is_digit (string_hash a) = true
  /\ string_hash a <> "".
Proof.
  split_and!.
  - split; [apply string_hash_inj|].
    intros Heq. by rewrite !string_hash_eq, Heq.
  - apply string_hash_digits.
  - rewrite string_hash_eq. unfold str_of_int, NilZero.string_of_uint.
    destruct (N.to_uint _) as [|d|d|d|d|d|d|d|d|d|d]; done.
Qed.

(** Known answers of [hashlib.md5], among them the test suite of RFC 1321
    (the empty message, one block, two blocks) and a character that takes
    two bytes in UTF-8. *)
Lemma string_hash_known_answers :
  string_hash "" = "281949768489412648962353822266799178366"
  /\ string_hash "a" = "16955237001963240173058271559858726497"
  /\ string_hash "abc" = "191415658344158766168031473277922803570"
  /\ string_hash "message digest" = "331535486309434048055371704012530344400"
  /\ string_hash
       ("1234567890123456789012345678901234567890"
          +:+ "1234567890123456789012345678901234567890")
     = "116878371745249285768420430739153598074"
  /\ string_hash (String (ascii_of_nat 233) "")
     = "136732923097551493579404309126273812335"
  /\ string_hash x1 = "331522703481584221736678623746454329871".
Proof. split_and!; vm_compute; reflexivity. Qed.

(** ** One pass of the loop *)




(** X10.  A pair in sync, the hash of the source and the hash of the
    destination body both equal to the hash of the marker, is left as it
    is in every mode but FORCE: both files are read, nothing is written,
    noted or reported (the end of the loop body, line 198). *)
Theorem sync_file_in_sync (src_proj : string) (mode : Mode)
    (changed : list path) (s : state) (srcfile dstfile : path)
    (srcdata marker_hash dst_hash dstdata : string) :
  mode <> FORCE ->
  pair_state (fs s) srcfile dstfile srcdata marker_hash dst_hash dstdata ->
  string_hash srcdata = marker_hash ->
  dst_hash = marker_hash ->
  sync_file src_proj mode changed (srcfile, dstfile) s
  = (Ok changed, after_reads s srcfile dstfile).
Proof.
  intros Hmode (raw & Hsrc & Hdst & Hdirs & Hinfo) Hsm Hdm.
  rewrite (sync_file_start _ _ _ _ _ _ _ _ Hsrc Hdst Hdirs) by done.
  unfold mbind at 1, M_bind at 1, lift at 1. rewrite Hinfo. cbv beta iota.
  rewrite (bool_decide_eq_false_2 (string_hash srcdata ≠ marker_hash))
    by (intros H; by apply H).
  rewrite (bool_decide_eq_false_2 (dst_hash ≠ marker_hash))
    by (intros H; by apply H).
  rewrite (bool_decide_eq_false_2 (marker_hash ≠ string_hash srcdata))
    by (intros H; by apply H).
  rewrite (bool_decide_eq_true_2 (string_hash srcdata = marker_hash))
    by done.
  rewrite (bool_decide_eq_true_2 (dst_hash = marker_hash)) by done.
  done.
Qed.

(** X11.  A source that is itself a synced file (its second line carries
    a sync hash) cannot be pulled, and the attempt costs the destination:
    the file is opened for writing before [add_marker] is called (lines
    135-136), so the pass fails with the RuntimeError of line 262 and
    leaves an empty destination file.  The next pass over the pair, in any
    mode but FORCE, then fails on the empty file with the ValueError of
    line 287. *)
Theorem sync_file_pull_refused (src_proj : string) (mode : Mode)
    (changed : list path) (s : state) (srcfile dstfile : path)
    (srcdata : string) :
  mode = PULL \/ mode = FULL \/ mode = FORCE ->
  srcfile <> dstfile ->
  fs s !! srcfile = Some (File srcdata) ->
  dirs_above (fs s) (parent dstfile) ->
  fs s !! dstfile = None ->
  unmarked srcdata = false ->
  let s' := State (<[dstfile := File ""]> (fs s))
              (trace s ++ [EvRead srcfile;
                           EvPrint (Pulling src_proj dstfile);
                           EvOpenW dstfile]) in
  sync_file src_proj mode changed (srcfile, dstfile) s
  = (Raise (RuntimeError ItselfSynced), s')
  /\ forall mode' changed',
       mode' <> FORCE ->
       sync_file src_proj mode' changed' (srcfile, dstfile) s'
       = (Raise (ValueError (NoLinesFound dstfile)),
          after_reads s' srcfile dstfile).
Proof.
  intros Hmode Hne Hsrc Hdirs Hdst Hun s'. split.
  - rewrite (sync_file_pull_start _ _ _ _ _ _ _ Hsrc Hdirs)
      by (right; intros raw; by rewrite Hdst).
    rewrite (bool_decide_eq_false_2 (mode = LIST))
      by (by destruct Hmode as [->|[->| ->]]).
    unfold print, emit. munfold. cbn [fs trace].
    rewrite (pull_run_refused _ _ _ _ (RuntimeError ItselfSynced));
      cbn [fs trace];
      [|by apply dirs_above_parent|by rewrite Hdst
       |by apply add_marker_marked].
    unfold s'. by rewrite <- !app_assoc.
  - intros mode' changed' Hmode'.
    rewrite (sync_file_start _ _ _ _ _ _ srcdata "");
      [done| | | |done]; unfold s'; cbn [fs].
    + by rewrite lookup_insert_ne.
    + by rewrite lookup_insert_eq.
    + intros q Hq. destruct (decide (q = dstfile)) as [->|Hqd].
      * destruct (parent_not_prefix dstfile); [|done].
        intros ->. pose proof (Hdirs [] (prefix_nil _)) as Hroot.
        by rewrite Hdst in Hroot.
      * rewrite lookup_insert_ne by done. by apply Hdirs.
Qed.

(** ** The run *)

(** X12.  What a run of [sync_paths] can touch, however it ends, where
    the names are such that the shell of line 224 takes them as they are
    (no component of a path of the file system or of the destination is
    empty, [.] or [..], begins with a dash or holds a slash, a dollar
    sign, a backquote, a backslash or a double quote): a path that is
    neither the destination, nor below it, nor above it is after the run
    what it was before; in FULL mode this holds for the paths that are not
    below the source either.  So with such names the source tree is never
    written to outside FULL mode. *)
Theorem sync_paths_frame (src_proj : string) (src dst : path) (mode : Mode)
    (s : state) (p : path) :
  safe_names (fs s) ->
  forallb safe_component dst = true ->
  ~ p `prefix_of` dst ->
  ~ dst `prefix_of` p ->
  (mode = FULL -> ~ src `prefix_of` p) ->
  fs (sync_paths src_proj src dst mode s).2 !! p = fs s !! p.
Proof.
  intros Hsafe Hdst Hp Hd Hs.
  eapply (sync_paths_outside src_proj src dst mode Hdst s);
    [apply surjective_pairing|done|].
  intros [?|[?|[? ?]]]; [done|done|by apply Hs].
Qed.

(** X13.  The exceptions of [sync_paths], by mode.  The errors of a
    destination that cannot be read as a synced file (ValueError of lines
    287 and 289, IndexError) and the error of a pair changed on both sides
    come in PULL, FULL and LIST mode only, never in FORCE mode; the error
    of a source that is itself synced comes in PULL, FULL and FORCE mode,
    never in LIST mode; the list of changed destinations is raised in PULL
    mode only, and is not empty; in CHECK mode there is the ValueError of
    line 98 and nothing else. *)
Theorem sync_paths_errors (src_proj : string) (src dst : path) (mode : Mode)
    (s : state) (e : exn) :
  (sync_paths src_proj src dst mode s).1 = Raise e ->
  may_raise mode e = true.
Proof.
  intros H. eapply (sync_paths_raises src_proj src dst mode s).
  rewrite <- H. apply surjective_pairing.
Qed.

(** X14.  The assertion of line 198 holds whenever it is reached: no run
    of [sync_paths] ends in an AssertionError. *)
Theorem sync_paths_assertion_holds (src_proj : string) (src dst : path)
    (mode : Mode) (s : state) :
  (sync_paths src_proj src dst mode s).1 <> Raise AssertionError.
Proof.
  intros H.
  assert (may_raise mode AssertionError = true); [|done].
  eapply (sync_paths_raises src_proj src dst mode s).
  rewrite <- H. apply surjective_pairing.
Qed.

(** X15.  A source that is not there, or a source file that the filter
    does not accept, is refused before anything is read, made or written:
    the run fails with the ValueError of line 100 or of line 109 and the
    state is the one it started in. *)
Theorem sync_paths_bad_source (src_proj : string) (src dst : path)
    (mode : Mode) (s : state) :
  mode <> CHECK ->
  (fs s !! src = None ->
   sync_paths src_proj src dst mode s
   = (Raise (ValueError (SrcNotDirOrFile src)), s))
  /\ (forall data,
        fs s !! src = Some (File data) ->
        _valid_filename (name src) = Ok false ->
        sync_paths src_proj src dst mode s
        = (Raise (ValueError (NotSyncable src)), s)).
Proof.
  intros Hmode. unfold sync_paths, collect_paths, is_dir, is_file, raise, lift.
  rewrite (bool_decide_eq_false_2 _ Hmode). munfold. split.
  - by intros ->.
  - intros data Hsrc Hvalid. rewrite Hsrc. cbn [negb orb].
    by rewrite Hvalid.
Qed.

(** X16.  In LIST mode a run of [sync_paths] changes no file and removes
    nothing, however it ends: every entry of the file system is still
    there as it was, and whatever is new is a directory (made by line
    122). *)
Theorem sync_paths_list_only_mkdir (src_proj : string) (src dst : path)
    (s : state) :
  grows s (sync_paths src_proj src dst LIST s).2.
Proof. eapply sync_paths_LIST, surjective_pairing. Qed.

(** X17.  What the pruning of lines 201-224 leaves, in a mode that
    removes, for a destination that is a directory and a file system whose
    names the shell of line 224 takes as they are (no component of a path
    is empty, [.] or [..], begins with a dash or holds a slash, a dollar
    sign, a backquote, a backslash or a double quote): exactly the entries
    that are neither an orphan nor below one, where an orphan is an entry
    below the destination whose name does not start with a dot, with no
    [__pycache__] in its name or in the path of its directory, and with
    nothing at its place under the source.  The filename filter plays no
    part: files that are never synced are pruned as well. *)
Theorem prune_leaves (src dst : path) (mode : Mode) (st : state)
    (q : path) (n : node) :
  mode <> LIST ->
  fs st !! dst = Some Dir ->
  safe_names (fs st) ->
  fs (prune src dst mode st).2 !! q = Some n
  <-> fs st !! q = Some n
      /\ forall k, orphan src dst (fs st) k -> ~ k `prefix_of` q.
Proof.
  intros Hmode Hdst Hsafe.
  eapply prune_lookup; [apply surjective_pairing|done|done|].
  intros k Hk. by eapply safe_names_orphan.
Qed.

(** The tree of [fs_orphans] after pruning: the orphans and what is below
    them are gone, hidden and cache entries and the synced file stay. *)
Lemma prune_orphans_example :
  let f := fs (prune ["src"] ["dst"] PULL (State fs_orphans [])).2 in
  f !! ["dst"; "old.py"] = None
  /\ f !! ["dst"; "gone"] = None
  /\ f !! ["dst"; "gone"; ".hidden"] = None
  /\ f !! ["dst"; ".keep"] = Some (File x3)
  /\ f !! ["dst"; "__pycache__"; "a.pyc"] = Some (File x3)
  /\ is_Some (f !! dst_a).
Proof. split_and!; vm_compute; (reflexivity || by eexists). Qed.

(** X18.  Pruning keeps whatever has something at its place under the
    source, in a file system where every entry has its directories above
    it and whose names the shell of line 224 takes as they are (no
    component of a path is empty, [.] or [..], begins with a dash or holds
    a slash, a dollar sign, a backquote, a backslash or a double quote). *)
Theorem prune_keeps_counterparts (src dst : path) (mode : Mode) (st : state)
    (q : path) (n : node) :
  wf_fs (fs st) ->
  safe_names (fs st) ->
  dst `prefix_of` q ->
  fs st !! q = Some n ->
  is_Some (fs st !! (src ++ relative_to q dst)) ->
  fs (prune src dst mode st).2 !! q = Some n.
Proof.
  intros Hwf Hsafe Hdq Hq [c Hc].
  destruct (prune src dst mode st) as [r st'] eqn:H. cbn [snd].
  apply prune_inv in H as (_ & Hkeep & _); [|by apply prune_safe].
  apply Hkeep; [done|].
  intros k (_ & Hdk & _ & _ & Hnone) [t ->].
  unfold relative_to in *. rewrite drop_app_le in Hc by by apply prefix_length.
  rewrite app_assoc in Hc.
  destruct (decide (t = [])) as [->|Ht].
  - rewrite app_nil_r in Hc. congruence.
  - assert (fs st !! (src ++ drop (length dst) k) = Some Dir); [|congruence].
    eapply Hwf; [done|by apply prefix_app_r|].
    intros Heq. apply Ht. apply (f_equal length) in Heq.
    rewrite !length_app in Heq. destruct t; [done|].
    cbn [length] in Heq. lia.
Qed.

(** ** The check *)

(** X19.  A check that passes has looked at every file below the
    destination that the filter accepts, and found each with the hash of
    its marker equal to the hash of its body. *)
Theorem check_path_passed (dst : path) (s : state) (n : nat)
    (p : path) (data : string) :
  (check_path dst s).1 = Ok n ->
  fs s !! p = Some (File data) ->
  dst `prefix_of` p -> p <> dst ->
  _valid_filename (name p) = Ok true ->
  exists m body, dst_file_info p data = Ok (m, m, body).
Proof.
  intros H Hp Hpre Hne Hvalid.
  destruct (check_path dst s) as [r s'] eqn:Hrun. cbn [fst] in H. subst r.
  unfold check_path in Hrun.
  apply bind_inv in Hrun as [(l & s0 & Hv & Hrun)|(e & _ & ?)]; [|done].
  apply valid_files_inv in Hv as [-> Hl]. specialize (Hl l eq_refl).
  apply bind_inv in Hrun as [([] & s1 & Hloop & _)|(e & _ & ?)]; [|done].
  apply check_loop_inv in Hloop as (_ & Hok & _).
  destruct (Hok eq_refl p) as (raw & m & body & Hraw & Hinfo).
  { apply Hl. by exists p, data. }
  rewrite Hp in Hraw. injection Hraw as <-. by exists m, body.
Qed.

(** X20.  A check that fails with the RuntimeError of line 249 names a
    file below the destination that the filter accepts and that reads as
    a synced file whose body no longer has the hash of its marker. *)
Theorem check_path_changed (dst : path) (s : state) (p : path) :
  (check_path dst s).1 = Raise (RuntimeError (DstFileChanged p)) ->
  dst `prefix_of` p /\ p <> dst
  /\ _valid_filename (name p) = Ok true
  /\ exists raw m h body,
       fs s !! p = Some (File raw)
       /\ dst_file_info p raw = Ok (m, h, body) /\ m <> h.
Proof.
  intros H.
  destruct (check_path dst s) as [r s'] eqn:Hrun. cbn [fst] in H. subst r.
  unfold check_path in Hrun.
  apply bind_inv in Hrun as [(l & s0 & Hv & Hrun)|(e & Hv & [= <-])].
  2:{ unfold valid_files in Hv.
      apply bind_inv in Hv as [(entries & s0 & _ & Hv)|(e & Hw & ?)];
        [|by apply os_walk_inv in Hw as (_ & ? & ? & _)].
      eapply (raises_foldM (fun e => exists f, e = ValueError f)) in Hv;
        [by destruct Hv|].
      intros acc [[root fname] [data|]]; cbn [walk_file].
      - apply raises_bind; [|intros []; apply raises_ret].
        apply raises_lift. intros e ->%valid_filename_raise. by eexists.
      - apply raises_ret. }
  apply valid_files_inv in Hv as [-> Hl]. specialize (Hl l eq_refl).
  apply bind_inv in Hrun as [([] & s1 & _ & ?)|(e & Hloop & [= <-])]; [done|].
  apply check_loop_inv in Hloop as (_ & _ & Hbad).
  destruct (Hbad p eq_refl) as (Hin & Hp).
  apply Hl in Hin as (q & data & _ & Hpre & Hne & Hvalid & ->). done.
Qed.

(** X21.  A destination that is not a directory, a single file or
    nothing at all, is not checked: [check_path] looks at what is below
    the destination only, finds nothing, and passes with a count of zero
    without reading any file. *)
Theorem check_path_not_a_directory (dst : path) (s : state) :
  wf_fs (fs s) ->
  fs s !! dst <> Some Dir ->
  check_path dst s = (Ok 0%nat, s).
Proof.
  intros Hwf Hdst. apply check_path_nothing. intros p Hpre Hne.
  destruct (fs s !! p) as [n|] eqn:Hp; [|done].
  destruct Hdst. by eapply Hwf.
Qed.

(** ** The standard syncs *)

(** X22.  In CHECK mode [run_standard_syncs] goes through [check_path]
    for every item and never through [sync_paths]: whatever the items and
    however the run ends, the file system is as it was and the only
    events are reads and reports. *)
Theorem run_standard_syncs_check_reads_only
    (localconfig : gmap string (list string)) (syncitems : list SyncItem)
    (s : state) :
  silent s (run_standard_syncs localconfig CHECK syncitems s).2.
Proof. eapply run_standard_syncs_CHECK, surjective_pairing. Qed.

(** X23.  Outside CHECK mode an item whose project has no link entry in
    the local configuration is skipped with a report (lines 80-82): when
    no item has an entry the run succeeds and does nothing else. *)
Theorem run_standard_syncs_no_link
    (localconfig : gmap string (list string)) (mode : Mode)
    (syncitems : list SyncItem) (s : state) :
  mode <> CHECK ->
  (forall item, item ∈ syncitems ->
     localconfig !! ("linked_" +:+ src_project_id item) = None) ->
  run_standard_syncs localconfig mode syncitems s
  = (Ok tt,
     State (fs s)
       (trace s ++ map (fun item => EvPrint (NoLinkEntry (src_project_id item)))
                     syncitems)).
Proof.
  intros Hmode. unfold run_standard_syncs, for_each.
  rewrite (bool_decide_eq_false_2 _ Hmode). revert s.
  induction syncitems as [|item syncitems IH]; intros s Hnone.
  - cbn [foldM map]. rewrite app_nil_r. by destruct s.
  - cbn [foldM]. rewrite (Hnone item) by by left.
    erewrite bind_run by (unfold print, emit; reflexivity).
    rewrite IH by (intros ? ?; apply Hnone; by right).
    cbn [fs trace map]. by rewrite <- app_assoc.
Qed.

(** X24.  What [run_standard_syncs] can touch outside FULL mode, however
    it ends, where the names are such that the shell of line 224 takes
    them as they are (no component of a path of the file system or of the
    destination of an item is empty, [.] or [..], begins with a dash or
    holds a slash, a dollar sign, a backquote, a backslash or a double
    quote): a path that is not the destination of an item, nor below one,
    nor above one, is after the run what it was before.  So with such
    names a linked source project that lies apart from the destinations is
    never written to. *)
Theorem run_standard_syncs_frame (localconfig : gmap string (list string))
    (mode : Mode) (syncitems : list SyncItem) (s : state) (p : path) :
  mode <> FULL ->
  safe_names (fs s) ->
  (forall item, item ∈ syncitems ->
     forallb safe_component (default (src_path item) (dst_path item)) = true) ->
  (forall item, item ∈ syncitems ->
     ~ p `prefix_of` default (src_path item) (dst_path item)
     /\ ~ default (src_path item) (dst_path item) `prefix_of` p) ->
  fs (run_standard_syncs localconfig mode syncitems s).2 !! p = fs s !! p.
Proof.
  intros Hmode Hsafe Hdst Hp.
  set (P := fun q : path =>
              exists item, item ∈ syncitems
                /\ (q `prefix_of` default (src_path item) (dst_path item)
                    \/ default (src_path item) (dst_path item) `prefix_of` q)).
  assert (keeps (outside_safe P)
            (run_standard_syncs localconfig mode syncitems)) as Hkeeps.
  { unfold run_standard_syncs, for_each.
    apply keeps_foldM; [apply outside_safe_refl|apply outside_safe_trans|].
    intros [] item Hin. case_bool_decide.
    - apply outside_safe_bind; [apply outside_safe_print|]. intros _.
      apply outside_safe_bind; [|intros ?; apply outside_safe_print].
      apply outside_safe_pure. intros s0 r s0' Hc.
      by apply check_path_silent in Hc as [Hfs _].
    - destruct (localconfig !! _) as [linked|]; [|apply outside_safe_print].
      apply outside_safe_bind; [apply outside_safe_print|]. intros _.
      apply outside_safe_bind.
      + eapply keeps_outside_safe_impl; [|by apply sync_paths_outside, Hdst].
        intros q [?|[?|[? _]]]; [| |done]; exists item; auto.
      + intros ?. destruct (_ || _); apply outside_safe_print. }
  eapply Hkeeps; [apply surjective_pairing|done|].
  intros (item & Hin & Hq). destruct (Hp item Hin). by destruct Hq.
Qed.

(** ** Runs and checks together *)

(** X25.  A run in PULL mode that returns did exactly what a run in FULL
    mode does from the same state: the same count, the same file system,
    the same events.  The two modes part only where a destination has
    changed while its source has not (line 161), and there a PULL run
    does not return. *)
Theorem sync_paths_pull_as_full_run (src_proj : string) (src dst : path)
    (s s' : state) (n : nat) :
  sync_paths src_proj src dst PULL s = (Ok n, s') ->
  sync_paths src_proj src dst FULL s = (Ok n, s').
Proof. apply sync_paths_pull_as_full. Qed.

(** X26.  Sync, then check.  For a source and a destination that do not
    lie within each other, in a file system where every entry has its
    directories above it and with names that the shell of line 224 takes
    as they are (no component of a path of the file system or of the
    destination is empty, [.] or [..], begins with a dash or holds a
    slash, a dollar sign, a backquote, a backslash or a double quote):
    when the source files end with a line feed and have no other line
    boundary, and every file below the destination that the check would
    look at has a file at its place under the source, or nothing there and
    a name that the pruning does not pass over, then after a run of
    [sync_paths] in PULL or FULL mode that returns, [check_path] on the
    destination passes. *)
Theorem sync_then_check (src_proj : string) (src dst : path) (mode : Mode)
    (s0 s1 : state) (n : nat) :
  mode = PULL \/ mode = FULL ->
  ~ src `prefix_of` dst ->
  ~ dst `prefix_of` src ->
  wf_fs (fs s0) ->
  no_linebreak src_proj = true ->
  (forall p data, fs s0 !! p = Some (File data) -> src `prefix_of` p ->
     lf_text data = true) ->
  checkable src dst (fs s0) ->
  safe_names (fs s0) ->
  forallb safe_component dst = true ->
  sync_paths src_proj src dst mode s0 = (Ok n, s1) ->
  exists m, (check_path dst s1).1 = Ok m.
Proof.
  intros Hmode Hsd Hds Hwf Hproj Hlf Hchk Hsafe Hdst Hrun.
  assert (sync_paths src_proj src dst FULL s0 = (Ok n, s1)) as Hfull.
  { destruct Hmode as [->| ->]; [by apply sync_paths_pull_as_full|done]. }
  destruct (sync_full_checks src_proj src dst s0 n s1) as (m & s2 & Hc);
    try done.
  - intros p data Hp Hdata. by eapply Hlf.
  - exists m. by rewrite Hc.
Qed.

(** The condition on the source files is needed: a source without final
    line feed is pulled, and the check that follows fails, since the
    marker has the hash of the text as it was and the body has the line
    feed. *)
Lemma sync_then_check_no_newline :
  let s0 := State fs_no_newline [] in
  let run := sync_paths "proj" ["src"] ["dst"] PULL s0 in
  run.1 = Ok 1%nat
  /\ (check_path ["dst"] run.2).1 = Raise (RuntimeError (DstFileChanged dst_a)).
Proof. split; vm_compute; reflexivity. Qed.

(** ** The counts *)

(** X27.  The number that [sync_paths] returns: one for a source that is
    a file; for a source that is a directory, the number of files below
    it, at the start of the run, whose names pass the filter. *)
Theorem sync_paths_count (src_proj : string) (src dst : path) (mode : Mode)
    (s : state) (n : nat) :
  (sync_paths src_proj src dst mode s).1 = Ok n ->
  (exists data, fs s !! src = Some (File data) /\ n = 1%nat)
  \/ (fs s !! src = Some Dir /\ n = length (valid_paths src (fs s))).
Proof.
  intros H.
  destruct (sync_paths src_proj src dst mode s) as [r s'] eqn:Hrun.
  cbn [fst] in H. subst r. unfold sync_paths in Hrun.
  case_bool_decide; [done|].
  apply bind_inv in Hrun as [(l & s1 & Hc & Hrun)|(? & _ & ?)]; [|done].
  apply bind_inv in Hrun as [(ch & s2 & _ & Hrun)|(? & _ & ?)]; [|done].
  apply bind_inv in Hrun as [([] & s3 & _ & Hrun)|(? & _ & ?)]; [|done].
  destruct (negb _); [done|]. injection Hrun as <- _.
  revert Hc. unfold collect_paths, is_dir, is_file, raise, lift. munfold.
  destruct (fs s !! src) as [[data|]|]; cbn [negb orb]; [| |done].
  - destruct (_valid_filename (name src)) as [[|]|]; cbn [negb]; [|done..].
    intros [= <- _]. left. by exists data.
  - intros ->%valid_files_eq. right. by rewrite length_map.
Qed.

(** X28.  The number that [check_path] returns is the number of files
    below the destination whose names pass the filter: every one of them
    was read and found unchanged. *)
Theorem check_path_count (dst : path) (s : state) (n : nat) :
  (check_path dst s).1 = Ok n ->
  n = length (valid_paths dst (fs s)).
Proof.
  intros H.
  destruct (check_path dst s) as [r s'] eqn:Hrun.
  cbn [fst] in H. subst r. unfold check_path in Hrun.
  apply bind_inv in Hrun as [(l & s1 & Hv & Hrun)|(? & _ & ?)]; [|done].
  apply bind_inv in Hrun as [([] & s2 & _ & Hrun)|(? & _ & ?)]; [|done].
  injection Hrun as <- _. apply valid_files_eq in Hv as ->.
  by rewrite length_map.
Qed.


End Sync.

(** * The claims and the further properties at the example file systems *)

(** C1 at an example. *)
Lemma sync_paths_pull_conflict_witness :
  let s0 := State fs_dst_changed [] in
  sync_file "proj" PULL [] (src_a, dst_a) s0
  = (Ok ([] ++ [dst_a]), after_reads s0 src_a dst_a)
  /\ forall changed' s1,
       foldM (sync_file "proj" PULL) ([] ++ (src_a, dst_a) :: [])
         [] s0 = (Ok changed', s1) ->
       dst_a ∈ changed'
       /\ exists s2,
            prune system_unused src_a dst_a PULL s1 = (Ok tt, s2)
            /\ sync_paths system_unused "proj" src_a dst_a PULL s0
               = (Raise (RuntimeError (DstFilesChanged changed')), s2).
Proof.
  intros s0.
  apply (sync_paths_pull_conflict system_unused "proj" src_a dst_a s0 s0 [] [] []
           src_a dst_a x1 (string_hash x1) (string_hash x2) x2).
  - vm_compute. reflexivity.
  - reflexivity.
  - exists (marked "proj" (string_hash x1) x2). split_and!.
    + vm_compute. reflexivity.
    + vm_compute. reflexivity.
    + apply dirs_above_check. vm_compute. reflexivity.
    + vm_compute. reflexivity.
  - reflexivity.
  - vm_compute. discriminate.
Defined.

(** C1 as it is stated fails in LIST mode: the changed destination is
    reported as a push that would be made, nothing is noted, and the run
    succeeds. *)
Lemma sync_paths_pull_conflict_counterexample :
  let s0 := State fs_dst_changed [] in
  pair_state (fs s0) src_a dst_a x1 (string_hash x1) (string_hash x2) x2
  /\ string_hash x2 <> string_hash x1
  /\ sync_paths system_unused "proj" src_a dst_a LIST s0
     = (Ok 1%nat,
        State (fs s0)
          [EvRead src_a; EvRead dst_a; EvPrint (WouldPush "proj" dst_a)]).
Proof.
  split_and!.
  - exists (marked "proj" (string_hash x1) x2). split_and!.
    + vm_compute. reflexivity.
    + vm_compute. reflexivity.
    + apply dirs_above_check. vm_compute. reflexivity.
    + vm_compute. reflexivity.
  - vm_compute. discriminate.
  - vm_compute. reflexivity.
Qed.

(** C2 at an example. *)
Lemma sync_paths_diverged_witness :
  let s0 := State fs_diverged [] in
  sync_file "proj" PULL [] (src_a, dst_a) s0
  = (Raise (RuntimeError (BothChanged src_a dst_a)),
     after_reads s0 src_a dst_a)
  /\ sync_paths system_unused "proj" src_a dst_a PULL s0
     = (Raise (RuntimeError (BothChanged src_a dst_a)),
        after_reads s0 src_a dst_a).
Proof.
  intros s0.
  apply (sync_paths_diverged system_unused "proj" src_a dst_a PULL s0 s0 [] [] []
           src_a dst_a x2 (string_hash x1) (string_hash x3) x3).
  - by left.
  - vm_compute. reflexivity.
  - reflexivity.
  - exists (marked "proj" (string_hash x1) x3). split_and!.
    + vm_compute. reflexivity.
    + vm_compute. reflexivity.
    + apply dirs_above_check. vm_compute. reflexivity.
    + vm_compute. reflexivity.
  - vm_compute. discriminate.
  - vm_compute. discriminate.
  - vm_compute. discriminate.
Defined.

(** C2 as it is stated fails in FORCE mode: the diverged destination is
    overwritten with the source and the run succeeds. *)
Lemma sync_paths_diverged_counterexample :
  let s0 := State fs_diverged [] in
  let run := sync_paths system_unused "proj" src_a dst_a FORCE s0 in
  pair_state (fs s0) src_a dst_a x2 (string_hash x1) (string_hash x3) x3
  /\ string_hash x1 <> string_hash x2
  /\ string_hash x1 <> string_hash x3
  /\ string_hash x2 <> string_hash x3
  /\ run.1 = Ok 1%nat
  /\ fs run.2 !! dst_a = Some (File (marked "proj" (string_hash x2) x2)).
Proof.
  split_and!.
  - exists (marked "proj" (string_hash x1) x3). split_and!.
    + vm_compute. reflexivity.
    + vm_compute. reflexivity.
    + apply dirs_above_check. vm_compute. reflexivity.
    + vm_compute. reflexivity.
  - vm_compute. discriminate.
  - vm_compute. discriminate.
  - vm_compute. discriminate.
  - vm_compute. reflexivity.
  - vm_compute. reflexivity.
Qed.

(** C3 at an example. *)
Lemma marker_roundtrip_witness :
  exists enc,
    add_marker "proj" ("x=1" +:+ LF) = Ok enc /\
    dst_file_info ["dst"; "a.py"] enc
    = Ok (string_hash ("x=1" +:+ LF), string_hash ("x=1" +:+ LF),
          "x=1" +:+ LF).
Proof.
  apply (marker_roundtrip ["dst"; "a.py"] "proj" ("x=1" +:+ LF));
    reflexivity.
Defined.

(** C3 as it is stated fails for a text without final line feed: the body
    that comes back has one. *)
Lemma marker_roundtrip_counterexample :
  (enc ← add_marker "proj" "x=1"; dst_file_info ["dst"; "a.py"] enc)
  <> Ok (string_hash "x=1", string_hash "x=1", "x=1").
Proof. vm_compute. discriminate. Qed.





(** C6 at an example. *)
Lemma sync_file_same_change_witness :
  let s := State fs_same_change [] in
  exists s',
    sync_file "proj" PULL [] (src_a, dst_a) s = (Ok [], s')
    /\ fs s' !! src_a = Some (File x2)
    /\ (forall p, p <> dst_a -> fs s' !! p = fs s !! p)
    /\ if bool_decide (PULL = LIST) then fs s' = fs s
       else exists enc,
         fs s' !! dst_a = Some (File enc)
         /\ dst_file_info dst_a enc
            = Ok (string_hash x2, string_hash x2, x2).
Proof.
  intros s.
  apply (sync_file_same_change "proj" PULL [] s src_a dst_a
           x2 (string_hash x1) (string_hash x2) x2).
  - discriminate.
  - discriminate.
  - exists (marked "proj" (string_hash x1) x2). split_and!.
    + vm_compute. reflexivity.
    + vm_compute. reflexivity.
    + apply dirs_above_check. vm_compute. reflexivity.
    + vm_compute. reflexivity.
  - reflexivity.
  - vm_compute. discriminate.
  - reflexivity.
  - reflexivity.
  - reflexivity.
Defined.

(** C6 as it is stated fails in CHECK mode: [sync_paths] raises before it
    looks at any file, and [run_standard_syncs], which goes through
    [check_path] in this mode, raises at the destination whose marker hash
    is not the hash of its body. *)
Lemma sync_file_same_change_counterexample :
  let s0 := State fs_same_change [] in
  pair_state (fs s0) src_a dst_a x2 (string_hash x1) (string_hash x2) x2
  /\ string_hash x1 <> string_hash x2
  /\ sync_paths system_unused "proj" src_a dst_a CHECK s0
     = (Raise (ValueError CheckModeCall), s0)
  /\ (run_standard_syncs system_unused ∅ CHECK
        [Build_SyncItem "proj" ["src"] (Some ["dst"])] s0).1
     = Raise (RuntimeError (DstFileChanged dst_a)).
Proof.
  split_and!.
  - exists (marked "proj" (string_hash x1) x2). split_and!.
    + vm_compute. reflexivity.
    + vm_compute. reflexivity.
    + apply dirs_above_check. vm_compute. reflexivity.
    + vm_compute. reflexivity.
  - vm_compute. discriminate.
  - reflexivity.
  - vm_compute. reflexivity.
Qed.

(** C9 at an example. *)
Lemma valid_filename_spec_witness :
  exists ok, _valid_filename "sync.py" = Ok ok /\
    (ok = true <->
     In "sync.py" ["requirements.txt"; "pylintrc"; "clang-format";
                   "pycheckers"; "style.yapf"; "test_task_bin";
                   ".editorconfig"]
     \/ ((exists stem, "sync.py" = stem +:+ ".py")
         \/ (exists stem, "sync.py" = stem +:+ ".pyi"))
        /\ ~ (exists a b, "sync.py" = a +:+ "flycheck_" +:+ b)).
Proof.
  apply (valid_filename_spec "sync.py").
  intros a b Heq.
  assert (PyStr.contains "/" "sync.py" = true) as Hc
    by (apply contains_spec; eauto).
  vm_compute in Hc. discriminate.
Defined.

(** X2 at an example. *)
Lemma add_marker_twice_witness :
  add_marker "other" (marked "proj" (string_hash x1) x1)
  = Raise (RuntimeError ItselfSynced).
Proof.
  apply (add_marker_twice "proj" "other" x1).
  - reflexivity.
  - vm_compute. reflexivity.
Defined.

(** X3 at an example. *)
Lemma marker_decode_normalizes_witness :
  dst_file_info dst_a (marked "proj" (string_hash "x=1") x1)
  = Ok (string_hash "x=1", string_hash (normalized "x=1"), normalized "x=1")
  /\ lf_text (normalized "x=1") = true
  /\ normalized (normalized "x=1") = normalized "x=1".
Proof.
  apply (marker_decode_normalizes dst_a "proj" "x=1").
  - reflexivity.
  - vm_compute. reflexivity.
Defined.

(** X5 at an example. *)
Lemma decode_encode_roundtrip_witness :
  exists enc,
    add_marker "proj" x2 = Ok enc
    /\ dst_file_info dst_a enc = Ok (string_hash x2, string_hash x2, x2).
Proof.
  apply (decode_encode_roundtrip dst_a (marked "proj" (string_hash x1) x2)
           (string_hash x1) (string_hash x2) x2 "proj").
  - vm_compute. reflexivity.
  - reflexivity.
  - reflexivity.
Defined.




(** X10 at an example. *)
Lemma sync_file_in_sync_witness :
  let s := State fs_synced [] in
  sync_file "proj" PULL [] (src_a, dst_a) s
  = (Ok [], after_reads s src_a dst_a).
Proof.
  intros s.
  apply (sync_file_in_sync "proj" PULL [] s src_a dst_a
           x1 (string_hash x1) (string_hash x1) x1).
  - discriminate.
  - exists (marked "proj" (string_hash x1) x1). split_and!.
    + vm_compute. reflexivity.
    + vm_compute. reflexivity.
    + apply dirs_above_check. vm_compute. reflexivity.
    + vm_compute. reflexivity.
  - reflexivity.
  - reflexivity.
Defined.

(** X11 at an example. *)
Lemma sync_file_pull_refused_witness :
  let s := State fs_src_marked [] in
  let s' := State (<[dst_a := File ""]> (fs s))
              (trace s ++ [EvRead src_a; EvPrint (Pulling "proj" dst_a);
                           EvOpenW dst_a]) in
  sync_file "proj" PULL [] (src_a, dst_a) s
  = (Raise (RuntimeError ItselfSynced), s')
  /\ forall mode' changed',
       mode' <> FORCE ->
       sync_file "proj" mode' changed' (src_a, dst_a) s'
       = (Raise (ValueError (NoLinesFound dst_a)),
          after_reads s' src_a dst_a).
Proof.
  intros s.
  apply (sync_file_pull_refused "proj" PULL [] s src_a dst_a
           (marked "up" (string_hash x1) x1)).
  - by left.
  - discriminate.
  - vm_compute. reflexivity.
  - apply dirs_above_check. vm_compute. reflexivity.
  - vm_compute. reflexivity.
  - vm_compute. reflexivity.
Defined.

(** X12 at an example. *)
Lemma sync_paths_frame_witness :
  let s := State fs_src_changed [] in
  fs (sync_paths system_unused "proj" ["src"] ["dst"] PULL s).2 !! src_a = fs s !! src_a.
Proof.
  intros s.
  apply (sync_paths_frame system_unused "proj" ["src"] ["dst"] PULL s src_a).
  - apply safe_names_check. vm_compute. reflexivity.
  - reflexivity.
  - intros [k Hk]. discriminate.
  - intros [k Hk]. discriminate.
  - discriminate.
Defined.

(** X13 at an example. *)
Lemma sync_paths_errors_witness :
  may_raise PULL (RuntimeError (BothChanged src_a dst_a)) = true.
Proof.
  apply (sync_paths_errors system_unused "proj" src_a dst_a PULL (State fs_diverged [])).
  vm_compute. reflexivity.
Defined.

(** X15 at an example. *)
Lemma sync_paths_bad_source_witness :
  sync_paths system_unused "proj" ["nowhere"] ["dst"] PULL (State fs_orphans [])
  = (Raise (ValueError (SrcNotDirOrFile ["nowhere"])), State fs_orphans [])
  /\ sync_paths system_unused "proj" ["dst"; ".keep"] ["out"] PULL (State fs_orphans [])
     = (Raise (ValueError (NotSyncable ["dst"; ".keep"])),
        State fs_orphans []).
Proof.
  split.
  - apply (sync_paths_bad_source system_unused "proj" ["nowhere"] ["dst"] PULL
             (State fs_orphans [])); [discriminate|].
    vm_compute. reflexivity.
  - apply (proj2 (sync_paths_bad_source system_unused "proj" ["dst"; ".keep"] ["out"] PULL
                    (State fs_orphans []) ltac:(discriminate)) x3).
    + vm_compute. reflexivity.
    + vm_compute. reflexivity.
Defined.

(** X17 at an example. *)
Lemma prune_leaves_witness :
  let st := State fs_orphans [] in
  let q := ["dst"; "gone"; ".hidden"] in
  fs (prune system_unused ["src"] ["dst"] PULL st).2 !! q = Some (File x3)
  <-> fs st !! q = Some (File x3)
      /\ forall k, orphan ["src"] ["dst"] (fs st) k -> ~ k `prefix_of` q.
Proof.
  intros st q.
  apply (prune_leaves system_unused ["src"] ["dst"] PULL st q (File x3)).
  - discriminate.
  - vm_compute. reflexivity.
  - apply safe_names_check. vm_compute. reflexivity.
Defined.

(** X18 at an example. *)
Lemma prune_keeps_counterparts_witness :
  let st := State fs_orphans [] in
  fs (prune system_unused ["src"] ["dst"] PULL st).2 !! dst_a
  = Some (File (marked "proj" (string_hash x1) x1)).
Proof.
  intros st.
  apply (prune_keeps_counterparts system_unused ["src"] ["dst"] PULL st
           dst_a).
  - apply wf_fs_check. vm_compute. reflexivity.
  - apply safe_names_check. vm_compute. reflexivity.
  - by exists ["a.py"].
  - vm_compute. reflexivity.
  - vm_compute. by eexists.
Defined.

(** X19 at an example. *)
Lemma check_path_passed_witness :
  exists m body,
    dst_file_info dst_a (marked "proj" (string_hash x1) x1) = Ok (m, m, body).
Proof.
  apply (check_path_passed ["dst"] (State fs_synced []) 1 dst_a).
  - vm_compute. reflexivity.
  - vm_compute. reflexivity.
  - by exists ["a.py"].
  - discriminate.
  - vm_compute. reflexivity.
Defined.

(** X20 at an example. *)
Lemma check_path_changed_witness :
  ["dst"] `prefix_of` dst_a /\ dst_a <> ["dst"]
  /\ _valid_filename (name dst_a) = Ok true
  /\ exists raw m h body,
       fs (State fs_dst_changed []) !! dst_a = Some (File raw)
       /\ dst_file_info dst_a raw = Ok (m, h, body) /\ m <> h.
Proof.
  apply (check_path_changed ["dst"] (State fs_dst_changed []) dst_a).
  vm_compute. reflexivity.
Defined.

(** X21 at an example. *)
Lemma check_path_not_a_directory_witness :
  check_path dst_a (State fs_dst_changed [])
  = (Ok 0%nat, State fs_dst_changed []).
Proof.
  apply (check_path_not_a_directory dst_a (State fs_dst_changed [])).
  - apply wf_fs_check. vm_compute. reflexivity.
  - vm_compute. discriminate.
Defined.

(** X23 at an example. *)
Lemma run_standard_syncs_no_link_witness :
  run_standard_syncs system_unused ∅ PULL
    [Build_SyncItem "proj" ["src"] (Some ["dst"])] (State fs_new [])
  = (Ok tt, State fs_new [EvPrint (NoLinkEntry "proj")]).
Proof.
  apply (run_standard_syncs_no_link system_unused ∅ PULL
           [Build_SyncItem "proj" ["src"] (Some ["dst"])] (State fs_new [])).
  - discriminate.
  - intros item _. apply lookup_empty.
Defined.

(** X24 at an example. *)
Lemma run_standard_syncs_frame_witness :
  let s := State fs_tree [] in
  let cfg : gmap string (list string) := {[ "linked_proj" := [] ]} in
  fs (run_standard_syncs system_unused cfg PULL
        [Build_SyncItem "proj" ["src"] (Some ["dst"])] s).2
    !! ["src"; "pkg"; "a.py"]
  = fs s !! ["src"; "pkg"; "a.py"].
Proof.
  intros s cfg.
  apply (run_standard_syncs_frame system_unused cfg PULL
           [Build_SyncItem "proj" ["src"] (Some ["dst"])] s).
  - discriminate.
  - apply safe_names_check. vm_compute. reflexivity.
  - intros item ->%list_elem_of_singleton. reflexivity.
  - intros item ->%list_elem_of_singleton. cbn [default src_path dst_path].
    split; intros [k Hk]; discriminate.
Defined.

(** X25 at an example. *)
Lemma sync_paths_pull_as_full_run_witness :
  let s := State fs_tree [] in
  sync_paths system_unused "proj" ["src"] ["dst"] FULL s
  = (Ok 2%nat, (sync_paths system_unused "proj" ["src"] ["dst"] PULL s).2).
Proof.
  intros s.
  apply (sync_paths_pull_as_full_run system_unused "proj" ["src"] ["dst"] s).
  vm_compute. reflexivity.
Defined.

(** X26 at an example. *)
Lemma sync_then_check_witness :
  let s0 := State fs_tree [] in
  exists m,
    (check_path ["dst"] (sync_paths system_unused "proj" ["src"] ["dst"] PULL s0).2).1
    = Ok m.
Proof.
  intros s0.
  apply (sync_then_check system_unused "proj" ["src"] ["dst"] PULL s0 _ 2).
  - by left.
  - intros [k Hk]. discriminate.
  - intros [k Hk]. discriminate.
  - apply wf_fs_check. vm_compute. reflexivity.
  - reflexivity.
  - apply (files_check fs_tree
             (fun p data => ["src"] `prefix_of` p -> lf_text data = true)
             (fun p data => negb (bool_decide (["src"] `prefix_of` p))
                            || lf_text data)).
    + intros p data Hb Hp. rewrite bool_decide_eq_true_2 in Hb by done.
      exact Hb.
    + vm_compute. reflexivity.
  - intros k data Hk Hne Hfile. revert Hk Hne.
    eapply (files_check fs_tree
             (fun k data =>
                ["dst"] `prefix_of` k -> k <> ["dst"] ->
                plain_filename (name k)
                /\ (_valid_filename (name k) = Ok true ->
                    match fs_tree !! (["src"] ++ relative_to k ["dst"]) with
                    | Some (File _) => True
                    | Some Dir => False
                    | None => prunable k = true
                    end))
             (fun k data =>
                negb (bool_decide (["dst"] `prefix_of` k))
                || negb (PyStr.contains "/" (name k))
                   && match fs_tree !! (["src"] ++ relative_to k ["dst"]) with
                      | Some (File _) => true
                      | Some Dir => false
                      | None => prunable k
                      end));
      [|vm_compute; reflexivity|exact Hfile].
    intros p d Hb Hp _. rewrite bool_decide_eq_true_2 in Hb by done.
    cbn [negb orb] in Hb. apply andb_true_iff in Hb as [Hslash Hc].
    split.
    + intros a b Heq. apply negb_true_iff in Hslash.
      assert (PyStr.contains "/" (name p) = true)
        by (apply contains_spec; eauto).
      congruence.
    + intros _.
      by destruct (fs_tree !! (["src"] ++ relative_to p ["dst"])) as [[?|]|].
  - apply safe_names_check. vm_compute. reflexivity.
  - reflexivity.
  - vm_compute. reflexivity.
Defined.

(** X27 at an example. *)
Lemma sync_paths_count_witness :
  let s := State fs_tree [] in
  (exists data, fs s !! ["src"] = Some (File data) /\ 2%nat = 1%nat)
  \/ (fs s !! ["src"] = Some Dir
      /\ 2%nat = length (valid_paths ["src"] (fs s))).
Proof.
  intros s. apply (sync_paths_count system_unused "proj" ["src"] ["dst"] PULL s 2).
  vm_compute. reflexivity.
Defined.

(** X28 at an example. *)
Lemma check_path_count_witness :
  1%nat = length (valid_paths ["dst"] (fs (State fs_synced []))).
Proof.
  apply (check_path_count ["dst"] (State fs_synced []) 1).
  vm_compute. reflexivity.
Defined.

(** ** A name that the shell rewrites *)

(** The condition on the names is needed.  In [fs_dollar] the first run
    finds the pair in sync and prunes the file with the dollar sign in its
    name; the shell of [system_dollar] removes [dst/a.py] in its place.
    The check of the destination then fails at the file that is still
    there, and a second run pulls [dst/a.py] again. *)
Lemma sync_paths_dollar_name :
  let s0 := State fs_dollar [] in
  let run1 := sync_paths system_dollar "proj" ["src"] ["dst"] PULL s0 in
  let run2 := sync_paths system_dollar "proj" ["src"] ["dst"] PULL
                (State (fs run1.2) []) in
  wf_fs (fs s0)
  /\ run1.1 = Ok 1%nat
  /\ fs run1.2 !! dst_a = None
  /\ fs run1.2 !! ["dst"; "a$b.py"] = Some (File x3)
  /\ (check_path ["dst"] run1.2).1 = Raise IndexError
  /\ run2.1 = Ok 1%nat
  /\ trace run2.2
     = [EvRead src_a; EvPrint (Pulling "proj" dst_a); EvOpenW dst_a;
        EvWrite dst_a (marked "proj" (string_hash x1) x1);
        EvPrint (Removing ["dst"; "a$b.py"]); EvRemove ["dst"; "a$b.py"]].
Proof.
  split_and!; [apply wf_fs_check|..]; vm_compute; reflexivity.
Qed.
